(** * Historical Rate Explorer: the loader and the view pipeline of [app.py]

    A shallow embedding of [src/app.py].

    - Text is a Python [str] restricted to code points below 256, carried by
      [string]; [splitlines], [strip], [lower] and [startswith] follow
      Python's behaviour on that range.
    - pandas is an external collaborator.  [pd.read_csv] and [pd.to_datetime]
      are parameters of the loader; [csv_reader] and [to_stamp] are a concrete
      reading of them on plain input (comma separated, no quoting, ISO dates,
      decimal numerals) used to run the loader on concrete text.
    - The numbers of the value column are computed in an arithmetic [arith]
      that is given twice: [binary64], IEEE 754 double precision as the
      program runs it (Rocq's primitive floats), and [exact], rationals
      extended with NaN and the two infinities ([fval]), without rounding,
      overflow or signed zero.  [Series] holds pandas' percent change and
      rolling mean over either.
    - The view stage (lines 114-173) works on a [frame]: the date index of
      the loaded table with its [Value] column of finite numbers, in exact
      arithmetic; [as_frame] reads it off a loaded table.  The frame records
      whether its index is a pandas [DatetimeIndex] or a plain index of
      [datetime.date] objects, since [DataFrame.resample] accepts only the
      former.  Series with missing cells and float64 are covered by [Series],
      the export by [to_csv] on rows whose value may be missing. *)

From Stdlib Require Import ZArith List String Ascii Bool Lia Lqa QArith Qcanon.
From Stdlib Require Import Sorting.Sorted Permutation.
From Stdlib Require Import Floats Uint63.
Import ListNotations.

Local Open Scope Z_scope.

(** ** Python [str] operations used by the loader *)

Module Py.

Definition code (c : ascii) : N := N_of_ascii c.

(** [str.isspace] on one code point below 256. *)
Definition is_space (c : ascii) : bool :=
  let n := code c in
  (((9 <=? n) && (n <=? 13)) || ((28 <=? n) && (n <=? 32))
   || (n =? 133) || (n =? 160))%N.

(** Line boundaries of [str.splitlines] below 256, apart from the pair
    CR LF which is handled by [splitlines] itself. *)
Definition is_linebreak (c : ascii) : bool :=
  let n := code c in
  (((10 <=? n) && (n <=? 13)) || ((28 <=? n) && (n <=? 30)) || (n =? 133))%N.

(** [str.lower] on one code point below 256. *)
Definition lower_char (c : ascii) : ascii :=
  let n := code c in
  if (((65 <=? n) && (n <=? 90))
      || ((192 <=? n) && (n <=? 222) && negb (n =? 215)))%N
  then ascii_of_N (n + 32) else c.

Fixpoint lower (s : string) : string :=
  match s with
  | EmptyString => EmptyString
  | String c s' => String (lower_char c) (lower s')
  end.

Fixpoint lstrip (s : string) : string :=
  match s with
  | EmptyString => EmptyString
  | String c s' => if is_space c then lstrip s' else s
  end.

Fixpoint rstrip (s : string) : string :=
  match s with
  | EmptyString => EmptyString
  | String c s' =>
      match rstrip s' with
      | EmptyString => if is_space c then EmptyString else String c EmptyString
      | r => String c r
      end
  end.

Definition strip (s : string) : string := rstrip (lstrip s).

Definition startswith (s p : string) : bool := String.prefix p s.

(** [splitlines_from cur s]: [cur] is the line being read, reversed. *)
Fixpoint rev_string (acc s : string) : string :=
  match s with
  | EmptyString => acc
  | String c s' => rev_string (String c acc) s'
  end.

Fixpoint splitlines_from (cur : string) (s : string) : list string :=
  match s with
  | EmptyString =>
      match cur with
      | EmptyString => []
      | _ => [rev_string EmptyString cur]
      end
  | String c s' =>
      if is_linebreak c then
        let rest :=
          match s' with
          | String c' s'' =>
              if ((code c =? 13) && (code c' =? 10))%N
              then splitlines_from EmptyString s''
              else splitlines_from EmptyString s'
          | EmptyString => splitlines_from EmptyString s'
          end in
        rev_string EmptyString cur :: rest
      else splitlines_from (String c cur) s'
  end.

Definition splitlines (s : string) : list string :=
  splitlines_from EmptyString s.

(** [sep.join(parts)] *)
Definition join (sep : string) (parts : list string) : string :=
  String.concat sep parts.

(** [s.split(sep)] for a one-character separator. *)
Fixpoint split_from (sep : ascii) (cur : string) (s : string) : list string :=
  match s with
  | EmptyString => [rev_string EmptyString cur]
  | String c s' =>
      if Ascii.eqb c sep
      then rev_string EmptyString cur :: split_from sep EmptyString s'
      else split_from sep (String c cur) s'
  end.

Definition split (sep : ascii) (s : string) : list string :=
  split_from sep EmptyString s.

End Py.

Definition NL : string := String (ascii_of_N 10) EmptyString.

(** ** Numbers: rationals extended with NaN and the infinities *)

Inductive fval : Type :=
| Fin (q : Qc)
| PInf
| NInf
| NaN.

Definition Qc_of_Z (z : Z) : Qc := Q2Qc (inject_Z z).
Definition Qc_of_nat (n : nat) : Qc := Qc_of_Z (Z.of_nat n).

Definition fsub (a b : fval) : fval :=
  match a, b with
  | NaN, _ | _, NaN => NaN
  | Fin x, Fin y => Fin (x - y)%Qc
  | PInf, PInf | NInf, NInf => NaN
  | PInf, _ | _, NInf => PInf
  | NInf, _ | _, PInf => NInf
  end.

Definition inf_of_sign (c : comparison) : fval :=
  match c with Gt => PInf | Lt => NInf | Eq => NaN end.

Definition fmul (a b : fval) : fval :=
  match a, b with
  | NaN, _ | _, NaN => NaN
  | Fin x, Fin y => Fin (x * y)%Qc
  | PInf, Fin y | Fin y, PInf => inf_of_sign (y ?= 0)%Qc
  | NInf, Fin y | Fin y, NInf => inf_of_sign (0 ?= y)%Qc
  | PInf, PInf | NInf, NInf => PInf
  | PInf, NInf | NInf, PInf => NInf
  end.

Definition fdiv (a b : fval) : fval :=
  match a, b with
  | NaN, _ | _, NaN => NaN
  | Fin x, Fin y =>
      match (y ?= 0)%Qc with
      | Eq => inf_of_sign (x ?= 0)%Qc
      | _ => Fin (x / y)%Qc
      end
  | Fin _, _ => Fin 0%Qc
  | PInf, Fin y => match (y ?= 0)%Qc with Lt => NInf | _ => PInf end
  | NInf, Fin y => match (y ?= 0)%Qc with Lt => PInf | _ => NInf end
  | _, _ => NaN
  end.

Definition qsum (vs : list Qc) : Qc := fold_right Qcplus 0%Qc vs.

(** The mean of the observations of a group or window; NaN when there is
    none ([mean] of an empty selection in pandas). *)
Definition mean_or_nan (vs : list Qc) : fval :=
  match vs with
  | [] => NaN
  | _ => Fin (qsum vs / Qc_of_nat (List.length vs))%Qc
  end.

(** ** Calendar dates *)

Record date : Type := mkdate { year : Z; month : Z; day : Z }.

(** Comparison of [datetime.date] objects: year, then month, then day. *)
Definition date_compare (a b : date) : comparison :=
  match year a ?= year b with
  | Eq => match month a ?= month b with
          | Eq => day a ?= day b
          | c => c
          end
  | c => c
  end.

Definition date_leb (a b : date) : bool :=
  match date_compare a b with Gt => false | _ => true end.

(** A pandas [Timestamp]: a date and the nanoseconds elapsed since
    midnight. *)
Record timestamp : Type := mkts { ts_date : date; ts_nanos : Z }.

(** [pd.to_datetime] of a [datetime.date]: midnight of that day. *)
Definition to_datetime (d : date) : timestamp := mkts d 0.

Definition ts_leb (a b : timestamp) : bool :=
  match date_compare (ts_date a) (ts_date b) with
  | Lt => true
  | Eq => ts_nanos a <=? ts_nanos b
  | Gt => false
  end.

Definition is_leap (y : Z) : bool :=
  (y mod 4 =? 0) && (negb (y mod 100 =? 0) || (y mod 400 =? 0)).

Definition days_in_month (y m : Z) : Z :=
  if m =? 2 then (if is_leap y then 29 else 28)
  else if (m =? 4) || (m =? 6) || (m =? 9) || (m =? 11) then 30
  else 31.

(** Days since 1970-01-01 in the proleptic Gregorian calendar, and back. *)
Definition days_from_civil (d : date) : Z :=
  let y := if month d <=? 2 then year d - 1 else year d in
  let era := y / 400 in
  let yoe := y - era * 400 in
  let mp := if month d <=? 2 then month d + 9 else month d - 3 in
  let doy := (153 * mp + 2) / 5 + day d - 1 in
  let doe := yoe * 365 + yoe / 4 - yoe / 100 + doy in
  era * 146097 + doe - 719468.

Definition civil_from_days (n : Z) : date :=
  let z := n + 719468 in
  let era := z / 146097 in
  let doe := z - era * 146097 in
  let yoe := (doe - doe / 1460 + doe / 36524 - doe / 146096) / 365 in
  let doy := doe - (365 * yoe + yoe / 4 - yoe / 100) in
  let mp := (5 * doy + 2) / 153 in
  let d := doy - (153 * mp + 2) / 5 + 1 in
  let m := if mp <? 10 then mp + 3 else mp - 9 in
  mkdate (if m <=? 2 then yoe + era * 400 + 1 else yoe + era * 400) m d.

(** ** Resampling rules

    A rule sends a date to the ordinal of its calendar bucket and an ordinal
    to the label pandas gives the bucket (its right edge). *)

(** The choices of the select box of line 48: ["None"], ["W"], ["M"], ["Q"]. *)
Inductive freq : Type := freq_None | freq_W | freq_M | freq_Q.

Record rule : Type := mkrule { bucket : date -> Z; label : Z -> date }.

Definition month_rule : rule :=
  mkrule (fun d => year d * 12 + (month d - 1))
         (fun k => let y := k / 12 in let m := k mod 12 + 1 in
                   mkdate y m (days_in_month y m)).

Definition quarter_rule : rule :=
  mkrule (fun d => year d * 4 + (month d - 1) / 3)
         (fun k => let y := k / 4 in let m := 3 * (k mod 4) + 3 in
                   mkdate y m (days_in_month y m)).

(** Weeks end on Sunday; 1970-01-01 was a Thursday. *)
Definition week_rule : rule :=
  mkrule (fun d => (days_from_civil d + 3) / 7)
         (fun k => civil_from_days (7 * k + 3)).

Definition rule_of (f : freq) : option rule :=
  match f with
  | freq_None => None
  | freq_W => Some week_rule
  | freq_M => Some month_rule
  | freq_Q => Some quarter_rule
  end.

(** ** Exceptions and results *)

Inductive exn : Type := IndexError | KeyError | TypeError | ValueError.

Inductive result (A : Type) : Type :=
| Ok (a : A)
| Raise (e : exn).
Arguments Ok {A} a.
Arguments Raise {A} e.

Definition rbind {A B} (r : result A) (k : A -> result B) : result B :=
  match r with
  | Ok a => k a
  | Raise e => Raise e
  end.

Notation "x <- r ;; k" := (rbind r (fun x => k))
  (at level 61, r at next level, right associativity).

(** ** The view stage: [main], lines 114-173 *)

(** pandas refuses to resample an index that is not a [DatetimeIndex]
    (nor a period or timedelta index); an index of [datetime.date] objects,
    which is what [.dt.date] followed by [set_index] builds, is a plain
    object index. *)
Inductive index_kind : Type := DateObjects | DatetimeIndex.

(** The table of the view stage when every value is a number: its index and
    its column [Value], in exact arithmetic. *)
Record frame : Type := mkframe { kind : index_kind; rows : list (date * Qc) }.

Definition dates (df : frame) : list date := map fst (rows df).
Definition values (df : frame) : list Qc := map snd (rows df).

(** *** Filter (lines 117-118) *)

(** Element-wise [&] of two boolean arrays. *)
Fixpoint mask_and (a b : list bool) : list bool :=
  match a, b with
  | x :: a', y :: b' => (x && y) :: mask_and a' b'
  | _, _ => []
  end.

(** [df.loc[mask]] for a boolean mask as long as the frame. *)
Fixpoint loc_mask {A : Type} (l : list A) (mask : list bool) : list A :=
  match l, mask with
  | x :: l', b :: mask' => if b then x :: loc_mask l' mask' else loc_mask l' mask'
  | _, _ => []
  end.

Definition range_mask (idx : list date) (start end_ : date) : list bool :=
  mask_and (map (fun d => ts_leb (to_datetime start) (to_datetime d)) idx)
           (map (fun d => ts_leb (to_datetime d) (to_datetime end_)) idx).

Definition filter_view (start end_ : date) (df : frame) : frame :=
  mkframe (kind df) (loc_mask (rows df) (range_mask (dates df) start end_)).

(** *** Resampling (lines 126 and 165): [df.resample(freq).mean()] *)

Definition zrange (lo : Z) (n : nat) : list Z :=
  map (fun i => lo + Z.of_nat i) (seq 0 n).

Definition in_bucket (r : rule) (k : Z) (row : date * Qc) : bool :=
  bucket r (fst row) =? k.

Definition bucket_values (r : rule) (k : Z) (l : list (date * Qc)) : list Qc :=
  map snd (filter (in_bucket r k) l).

(** One row per bucket from the earliest to the latest bucket of the data;
    a bucket that holds no row gets NaN. *)
Definition bucket_means (r : rule) (l : list (date * Qc)) : list (date * fval) :=
  match map (fun row => bucket r (fst row)) l with
  | [] => []
  | b :: bs =>
      let lo := fold_right Z.min b bs in
      let hi := fold_right Z.max b bs in
      map (fun k => (label r k, mean_or_nan (bucket_values r k l)))
          (zrange lo (Z.to_nat (hi - lo + 1)))
  end.

Definition resample_mean (r : rule) (df : frame) : result (list (date * fval)) :=
  match kind df with
  | DatetimeIndex => Ok (bucket_means r (rows df))
  | DateObjects => Raise TypeError
  end.

(** [resample(table, frequency)] of the specification; no frequency is the
    identity (line 124, [plot_df = df_view.copy()]). *)
Definition resample (f : freq) (df : frame) : result (list (date * fval)) :=
  match rule_of f with
  | None => Ok (map (fun row => (fst row, Fin (snd row))) (rows df))
  | Some r => resample_mean r df
  end.

(** [DataFrame.tail(n)] *)
Definition tail {A : Type} (n : nat) (l : list A) : list A :=
  skipn (List.length l - n) l.

(** *** Rolling mean (line 137): [rolling(window=w, min_periods=mp).mean()]

    On a series of numbers, in exact arithmetic; [Series.rolling_mean]
    below is the computation of pandas itself, in float64 too and with
    missing values. *)

(** The observations of the window that ends at position [i]. *)
Definition window_at (w : nat) (xs : list Qc) (i : nat) : list Qc :=
  skipn (S i - w) (firstn (S i) xs).

Definition rolling_mean (w mp : nat) (xs : list Qc) : list fval :=
  map (fun i => let win := window_at w xs i in
                if (mp <=? List.length win)%nat then mean_or_nan win else NaN)
      (seq 0 (List.length xs)).

(** *** Quick stats (lines 157-164) *)

(** [Series.iloc[-1]] *)
Fixpoint iloc_last {A : Type} (l : list A) : result A :=
  match l with
  | [] => Raise IndexError
  | [x] => Ok x
  | _ :: l' => iloc_last l'
  end.

(** [Series.pct_change()] on a series of numbers, in exact arithmetic: the
    first position has no predecessor.  [Series.pct_change] below is the
    same in float64 too and with missing values. *)
Fixpoint pct_from (prev : Qc) (xs : list Qc) : list fval :=
  match xs with
  | [] => []
  | x :: xs' => fsub (fdiv (Fin x) (Fin prev)) (Fin 1%Qc) :: pct_from x xs'
  end.

Definition pct_change (xs : list Qc) : list fval :=
  match xs with
  | [] => []
  | x :: xs' => NaN :: pct_from x xs'
  end.

Record stats : Type :=
  mkstats { last_value : Qc; percent_change : fval; row_count : nat }.

(** [describe()] (line 160) is display only and is left out: its standard
    deviation and quantiles are outside exact rational arithmetic. *)
Definition summarize (df_view : frame) : result stats :=
  last <- iloc_last (values df_view) ;;
  change <- iloc_last (pct_change (values df_view)) ;;
  Ok (mkstats last (fmul change (Fin (Qc_of_Z 100))) (List.length (rows df_view))).

(** [monthly_means(table, tail_count)] (lines 165-167) *)
Definition monthly_means (df_view : frame) (n : nat) : result (list (date * fval)) :=
  monthly <- resample_mean month_rule df_view ;;
  Ok (tail n monthly).

(** *** The page: what [main] writes, in order *)

Inductive chart_type : Type := Line | Area | Bar.

Record options : Type := mkopts {
  date_range : list date;
  show_table : bool;
  chart : chart_type;
  smoothing : bool;
  rolling_window : option nat;
  resample_freq : freq;
  show_hist : bool;
  show_box : bool
}.

(** What the script hands to Streamlit, by its data: the chart of line 140
    with the overlay of line 138 if any, the histogram of the values, the box
    plot of the values by month, the metric of line 159, the row count, the
    tail of the monthly means, the table, and the view that line 173 turns
    into CSV text for the download.  Titles and fixed captions are left
    out. *)
Inductive element : Type :=
| Chart (c : chart_type) (plot_df : list (date * fval))
        (rolling : option (list (date * fval)))
| Histogram (vs : list Qc)
| BoxPlot (points : list (Z * Qc))
| Metric (last : Qc) (change : fval)
| RowCount (n : nat)
| MonthlyTail (monthly : list (date * fval))
| DataTable (view : list (date * Qc))
| Download (view : list (date * Qc)).

(** A run of the script: the elements written so far and how it went on. *)
Definition page (A : Type) : Type := list element -> list element * result A.

Definition pret {A} (a : A) : page A := fun out => (out, Ok a).

Definition pbind {A B} (m : page A) (k : A -> page B) : page B :=
  fun out =>
    match m out with
    | (out', Ok a) => k a out'
    | (out', Raise e) => (out', Raise e)
    end.

Definition emit (e : element) : page unit := fun out => (out ++ [e], Ok tt).

Definition lift {A} (r : result A) : page A := fun out => (out, r).

Definition when (b : bool) (m : page unit) : page unit :=
  if b then m else pret tt.

Notation "x <~ m ;; k" := (pbind m (fun x => k))
  (at level 61, m at next level, right associativity).
Notation "m ;;; k" := (pbind m (fun _ => k))
  (at level 61, right associativity).

(** [start, end = opts["date_range"]] (line 114); the range holds dates, so
    the test of line 115 is false. *)
Definition unpack2 (l : list date) : result (date * date) :=
  match l with
  | [a; b] => Ok (a, b)
  | _ => Raise ValueError
  end.

(** Lines 136-138: the overlay is taken from [df_view]; a window that is
    [None] or 0 counts as false on line 136. *)
Definition rolling_overlay (opts : options) (df_view : frame)
  : option (list (date * fval)) :=
  if smoothing opts then
    match rolling_window opts with
    | Some (S _ as w) => Some (combine (dates df_view) (rolling_mean w 1 (values df_view)))
    | _ => None
    end
  else None.

(** Lines 114-173, on the loaded table [df]. *)
Definition main_view (opts : options) (df : frame) : page unit :=
  se <~ lift (unpack2 (date_range opts)) ;;
  let df_view := filter_view (fst se) (snd se) df in
  plot_df <~ lift (resample (resample_freq opts) df_view) ;;
  emit (Chart (chart opts) plot_df (rolling_overlay opts df_view)) ;;;
  when (show_hist opts) (emit (Histogram (values df_view))) ;;;
  when (show_box opts)
       (emit (BoxPlot (map (fun row => (bucket month_rule (fst row), snd row))
                           (rows df_view)))) ;;;
  st <~ lift (summarize df_view) ;;
  emit (Metric (last_value st) (percent_change st)) ;;;
  emit (RowCount (row_count st)) ;;;
  monthly <~ lift (monthly_means df_view 12) ;;
  emit (MonthlyTail monthly) ;;;
  when (show_table opts) (emit (DataTable (rows df_view))) ;;;
  emit (Download (rows df_view)).

(** ** The loader: [load_csv_auto] and the upload branch of [main] *)

Local Open Scope string_scope.

(** Column types as [select_dtypes] sees them: [np.number], [datetime64],
    and [object] for everything else. *)
Inductive dtype : Type := Numeric | DateTime | Object.

Inductive cell : Type :=
| CNum (v : fval)
| CInt (n : Z)
| CStamp (t : timestamp)
| CDate (d : date)
| CStr (s : string).

(** A data frame: the name of the index ([None] for the default integer
    index), the columns, and the rows, each with its index label. *)
Record DataFrame : Type := mkdf {
  index_name : option string;
  columns : list (string * dtype);
  data : list (cell * list cell)
}.

Definition column_names (df : DataFrame) : list string := map fst (columns df).

(** [df.columns = [c.strip() for c in df.columns]] *)
Definition strip_columns (df : DataFrame) : DataFrame :=
  mkdf (index_name df)
       (map (fun c => (Py.strip (fst c), snd c)) (columns df))
       (data df).

(** [name in df.columns] *)
Definition has_column (name : string) (df : DataFrame) : bool :=
  existsb (String.eqb name) (column_names df).

Fixpoint position (name : string) (names : list string) : option nat :=
  match names with
  | [] => None
  | n :: ns => if String.eqb name n then Some O
               else option_map S (position name ns)
  end.

Fixpoint update_nth {A : Type} (i : nat) (f : A -> A) (l : list A) : list A :=
  match l, i with
  | [], _ => []
  | x :: l', O => f x :: l'
  | x :: l', S i' => x :: update_nth i' f l'
  end.

Fixpoint remove_nth {A : Type} (i : nat) (l : list A) : list A :=
  match l, i with
  | [], _ => []
  | _ :: l', O => l'
  | x :: l', S i' => x :: remove_nth i' l'
  end.

Fixpoint mapM {A B : Type} (f : A -> result B) (l : list A) : result (list B) :=
  match l with
  | [] => Ok []
  | x :: l' => y <- f x ;; ys <- mapM f l' ;; Ok (y :: ys)
  end.

(** Stable sorting of rows by a key. *)
Fixpoint insert_by {A : Type} (leb : A -> A -> bool) (x : A) (l : list A) : list A :=
  match l with
  | [] => [x]
  | y :: l' => if leb x y then x :: l else y :: insert_by leb x l'
  end.

Definition sort_by {A : Type} (leb : A -> A -> bool) (l : list A) : list A :=
  fold_right (insert_by leb) [] l.

Definition cell_leb (a b : cell) : bool :=
  match a, b with
  | CDate x, CDate y => date_leb x y
  | CStamp x, CStamp y => ts_leb x y
  | CInt x, CInt y => (x <=? y)%Z
  | _, _ => true
  end.

(** [df.sort_values(name)] *)
Definition sort_values (name : string) (df : DataFrame) : DataFrame :=
  match position name (column_names df) with
  | None => df
  | Some i =>
      mkdf (index_name df) (columns df)
           (sort_by (fun r1 r2 => cell_leb (nth i (snd r1) (CStr ""))
                                           (nth i (snd r2) (CStr "")))
                    (data df))
  end.

(** [df.set_index(name)]: the column leaves the columns and labels the rows. *)
Definition set_index (name : string) (df : DataFrame) : DataFrame :=
  match position name (column_names df) with
  | None => df
  | Some i =>
      mkdf (Some name) (remove_nth i (columns df))
           (map (fun r => (nth i (snd r) (CStr ""), remove_nth i (snd r))) (data df))
  end.

(** [df.sort_index()] *)
Definition sort_index (df : DataFrame) : DataFrame :=
  mkdf (index_name df) (columns df)
       (sort_by (fun r1 r2 => cell_leb (fst r1) (fst r2)) (data df)).

(** Line 20: [line.strip().lower().startswith("date,")] *)
Definition is_header (line : string) : bool :=
  Py.startswith (Py.lower (Py.strip line)) "date,".

(** Lines 18-22: the index of the first header line, if there is one. *)
Fixpoint find_header_from (i : nat) (lines : list string) : option nat :=
  match lines with
  | [] => None
  | line :: rest => if is_header line then Some i
                    else find_header_from (S i) rest
  end.

Definition find_header (lines : list string) : option nat :=
  find_header_from 0 lines.

(** [select_dtypes(include=[np.number]).columns.tolist()] *)
Definition numeric_columns (df : DataFrame) : list string :=
  map fst (filter (fun c => match snd c with Numeric => true | _ => false end)
                  (columns df)).

(** [df.rename(columns={old: new})] *)
Definition rename_column (old new : string) (df : DataFrame) : DataFrame :=
  mkdf (index_name df)
       (map (fun c => if String.eqb (fst c) old then (new, snd c) else c) (columns df))
       (data df).

(** How the loading part of [main] ends: with a table, with [st.error] and
    [return] (the text written, and the exception whose message line 96
    appends to it), or with an exception nobody catches. *)
Inductive loaded : Type :=
| Got (df : DataFrame)
| StError (msg : string) (cause : option exn)
| Uncaught (e : exn).

(** Lines 104-110 *)
Definition select_value (df : DataFrame) : loaded :=
  if has_column "Value" df then Got df
  else match numeric_columns df with
       | c :: _ => Got (rename_column c "Value" df)
       | [] => StError "No numeric 'Value' column found in data." None
       end.

Section Loader.

(** [pd.read_csv(source, parse_dates=[0])] on the text of the source. *)
Variable read_csv : string -> result DataFrame.
(** [pd.to_datetime] on one cell. *)
Variable to_timestamp : cell -> result timestamp.

(** [df[name] = pd.to_datetime(df[name]).dt.date] *)
Definition to_date_column (name : string) (df : DataFrame) : result DataFrame :=
  match position name (column_names df) with
  | None => Raise KeyError
  | Some i =>
      ds <- mapM (fun r => to_timestamp (nth i (snd r) (CStr ""))) (data df) ;;
      Ok (mkdf (index_name df)
               (update_nth i (fun c => (fst c, Object)) (columns df))
               (map (fun rd => (fst (fst rd),
                                update_nth i (fun _ => CDate (ts_date (snd rd)))
                                           (snd (fst rd))))
                    (combine (data df) ds)))
  end.

(** Lines 10-34; [text] is the content of the file at [path]. *)
Definition load_csv_auto (text : string) : result DataFrame :=
  let lines := Py.splitlines text in
  match find_header lines with
  | None =>
      df <- read_csv text ;;
      Ok (strip_columns df)
  | Some header_idx =>
      df <- read_csv (Py.join NL (skipn header_idx lines)) ;;
      let df := strip_columns df in
      if has_column "Date" df then
        df <- to_date_column "Date" df ;;
        Ok (set_index "Date" (sort_values "Date" df))
      else Ok df
  end.

(** Lines 76-94, the body of the [try]; [content] is the decoded upload. *)
Definition parse_uploaded (content : string) : result DataFrame :=
  let lines := Py.splitlines content in
  match find_header lines with
  | None =>
      df <- read_csv content ;;
      let df := strip_columns df in
      if has_column "Date" df then
        df <- to_date_column "Date" df ;;
        Ok (sort_index (set_index "Date" df))
      else Ok df
  | Some header_idx =>
      df <- read_csv (Py.join NL (skipn header_idx lines)) ;;
      let df := strip_columns df in
      df <- to_date_column "Date" df ;;
      Ok (sort_index (set_index "Date" df))
  end.

(** Lines 71-110: [uploaded] is the uploaded text if any, [default_file]
    the content of the default file if it exists. *)
Definition main_load (uploaded : option string) (default_path : string)
           (default_file : option string) : loaded :=
  let got :=
    match uploaded with
    | Some content =>
        match parse_uploaded content with
        | Ok df => Got df
        | Raise e => StError "Failed to parse uploaded CSV: " (Some e)
        end
    | None =>
        match default_file with
        | None => StError ("Default CSV not found at " ++ default_path
                           ++ ". Please upload a CSV with Date,Value columns.")
                          None
        | Some text =>
            match load_csv_auto text with
            | Ok df => Got df
            | Raise e => Uncaught e
            end
        end
    end in
  match got with
  | Got df => select_value df
  | other => other
  end.

End Loader.

(** ** A concrete reading of pandas on plain input

    Comma separated fields without quoting, dates written [YYYY-MM-DD] with
    an optional [ HH:MM:SS], numbers written as decimal numerals, every row
    as long as the header, a first column of dates, integers of at most 64
    bits.  What pandas does outside this fragment is not modelled: the
    reader keeps other cells as strings, and answers empty text and rows of
    another length with [ValueError]. *)

Definition digit (c : ascii) : option Z :=
  let n := Py.code c in
  if ((48 <=? n) && (n <=? 57))%N then Some (Z.of_N n - 48) else None.

Fixpoint parse_digits (acc : Z) (s : string) : option Z :=
  match s with
  | EmptyString => Some acc
  | String c s' =>
      match digit c with
      | Some k => parse_digits (10 * acc + k) s'
      | None => None
      end
  end.

Definition parse_nat (s : string) : option Z :=
  match s with
  | EmptyString => None
  | _ => parse_digits 0 s
  end.

Definition parse_unsigned (s : string) : option Qc :=
  match Py.split "." s with
  | [i] => option_map Qc_of_Z (parse_nat i)
  | [i; f] =>
      match parse_nat i, parse_nat f with
      | Some a, Some b =>
          let scale := (10 ^ Z.of_nat (String.length f))%Z in
          Some (Q2Qc ((a * scale + b) # Z.to_pos scale))
      | _, _ => None
      end
  | _ => None
  end.

Definition parse_number (s : string) : option fval :=
  match s with
  | EmptyString => Some NaN
  | String "-" s' => option_map (fun v => Fin (- v)%Qc) (parse_unsigned s')
  | _ => option_map Fin (parse_unsigned s)
  end.

Definition parse_fixed (width : nat) (s : string) : option Z :=
  if Nat.eqb (String.length s) width then parse_nat s else None.

Definition parse_date (s : string) : option date :=
  match Py.split "-" s with
  | [ys; ms; ds] =>
      match parse_fixed 4 ys, parse_fixed 2 ms, parse_fixed 2 ds with
      | Some y, Some m, Some dd =>
          if ((1 <=? m) && (m <=? 12) && (1 <=? dd) && (dd <=? days_in_month y m))%Z
          then Some (mkdate y m dd) else None
      | _, _, _ => None
      end
  | _ => None
  end.

Definition parse_time (s : string) : option Z :=
  match Py.split ":" s with
  | [hs; ms; ss] =>
      match parse_fixed 2 hs, parse_fixed 2 ms, parse_fixed 2 ss with
      | Some h, Some m, Some sec =>
          if ((h <? 24) && (m <? 60) && (sec <? 60))%Z
          then Some (((h * 60 + m) * 60 + sec) * 1000000000)%Z else None
      | _, _, _ => None
      end
  | _ => None
  end.

Definition parse_stamp (s : string) : option timestamp :=
  match Py.split " " s with
  | [ds] => option_map to_datetime (parse_date ds)
  | [ds; ts] =>
      match parse_date ds, parse_time ts with
      | Some dd, Some n => Some (mkts dd n)
      | _, _ => None
      end
  | _ => None
  end.

Definition is_some {A : Type} (o : option A) : bool :=
  match o with Some _ => true | None => false end.

(** The type of a column: the first one is tried as dates ([parse_dates=[0]]),
    every column as numbers; a column without cells is of type [object]. *)
Definition infer (j : nat) (cells : list string) : dtype :=
  match cells with
  | [] => Object
  | _ =>
      if Nat.eqb j 0 && forallb (fun s => is_some (parse_stamp s)) cells then DateTime
      else if forallb (fun s => is_some (parse_number s)) cells then Numeric
      else Object
  end.

Definition convert (t : dtype) (s : string) : cell :=
  match t with
  | DateTime => match parse_stamp s with Some ts => CStamp ts | None => CStr s end
  | Numeric => match parse_number s with Some v => CNum v | None => CStr s end
  | Object => CStr s
  end.

Fixpoint convert_row (ts : list dtype) (fields : list string) : list cell :=
  match ts, fields with
  | t :: ts', f :: fields' => convert t f :: convert_row ts' fields'
  | _, _ => []
  end.

Definition nonblank (line : string) : bool :=
  match line with EmptyString => false | _ => true end.

Definition csv_reader (text : string) : result DataFrame :=
  match filter nonblank (Py.splitlines text) with
  | [] => Raise ValueError
  | header :: body =>
      let names := Py.split "," header in
      let fields := map (Py.split ",") body in
      if forallb (fun r => Nat.eqb (List.length r) (List.length names)) fields then
        let types :=
          map (fun j => infer j (map (fun r => nth j r "") fields))
              (seq 0 (List.length names)) in
        Ok (mkdf None (combine names types)
                 (map (fun ir => (CInt (Z.of_nat (fst ir)), convert_row types (snd ir)))
                      (combine (seq 0 (List.length fields)) fields)))
      else Raise ValueError
  end.

Definition to_stamp (c : cell) : result timestamp :=
  match c with
  | CStamp t => Ok t
  | CDate dd => Ok (to_datetime dd)
  | CStr s => match parse_stamp s with
              | Some t => Ok t
              | None => Raise ValueError
              end
  | CInt n => Ok (mkts (civil_from_days (n / 86400000000000))
                       (n mod 86400000000000))
  | CNum _ => Raise ValueError
  end.

Local Close Scope string_scope.
Local Open Scope list_scope.

(** ** Orders and counts used to state the properties *)

Definition date_le (a b : date) : Prop := date_leb a b = true.

Definition in_range (start end_ : date) (row : date * Qc) : bool :=
  date_leb start (fst row) && date_leb (fst row) end_.

(** A line of text without a line boundary in it. *)
Fixpoint no_linebreak (s : string) : bool :=
  match s with
  | EmptyString => true
  | String c s' => negb (Py.is_linebreak c) && no_linebreak s'
  end.

(** The text made of the lines [meta], each ended by a newline, and then
    [text]. *)
Definition prepend_lines (meta : list string) (text : string) : string :=
  fold_right (fun line t => (line ++ NL ++ t)%string) text meta.

Definition not_numeric (c : string * dtype) : Prop := snd c <> Numeric.

Definition cell_le (a b : cell) : Prop := cell_leb a b = true.

(** The index labels of a table, in row order. *)
Definition labels (df : DataFrame) : list cell := map fst (data df).

(** Every row has one cell per column. *)
Definition rectangular (df : DataFrame) : Prop :=
  forall r, In r (data df) -> List.length (snd r) = List.length (columns df).

(** The cells of the column at position [p], in row order. *)
Definition column_cells (p : nat) (df : DataFrame) : list cell :=
  map (fun r => nth p (snd r) (CStr "")) (data df).

(** A step of the script only adds to what is already written. *)
Definition appends {A : Type} (m : page A) : Prop :=
  forall out, exists rest, fst (m out) = out ++ rest.

(** ** The sidebar: [sidebar_controls], lines 37-60 *)

(** [df.index.min()] and [df.index.max()] (lines 39-40); [None] on an empty
    index, where pandas answers NaN. *)
Fixpoint index_min (l : list date) : option date :=
  match l with
  | [] => None
  | x :: l' =>
      match index_min l' with
      | None => Some x
      | Some m => Some (if date_leb x m then x else m)
      end
  end.

Fixpoint index_max (l : list date) : option date :=
  match l with
  | [] => None
  | x :: l' =>
      match index_max l' with
      | None => Some x
      | Some m => Some (if date_leb m x then x else m)
      end
  end.

(** What the user has chosen in each widget of the sidebar; [None] while a
    widget is untouched and returns its default. *)
Record widgets : Type := mkwidgets {
  w_date_range : option (list date);
  w_show_table : option bool;
  w_chart : option chart_type;
  w_smoothing : option bool;
  w_window : option nat;
  w_resample : option freq;
  w_hist : option bool;
  w_box : option bool
}.

Definition widget {A : Type} (choice : option A) (dflt : A) : A :=
  match choice with
  | Some a => a
  | None => dflt
  end.

(** Lines 37-60.  The slider of line 47 exists only while the smoothing box
    is ticked.  On a table without rows the default range is built from NaN;
    what Streamlit does with it is not modelled ([None]). *)
Definition sidebar_controls (ui : widgets) (df : frame) : option options :=
  match index_min (dates df), index_max (dates df) with
  | Some min_date, Some max_date =>
      let smooth := widget (w_smoothing ui) false in
      Some (mkopts (widget (w_date_range ui) [min_date; max_date])
                   (widget (w_show_table ui) true)
                   (widget (w_chart ui) Line)
                   smooth
                   (if smooth then Some (widget (w_window ui) 7%nat) else None)
                   (widget (w_resample ui) freq_None)
                   (widget (w_hist ui) false)
                   (widget (w_box ui) false))
  | _, _ => None
  end.

(** No widget touched: the first run of the script. *)
Definition untouched : widgets :=
  mkwidgets None None None None None None None None.

(** ** More notions used to state properties *)

(** The text [pd.read_csv] is given by the upload branch and, on its header
    path, by [load_csv_auto]: the lines from the header on, or the whole
    text. *)
Definition csv_source (text : string) : string :=
  match find_header (Py.splitlines text) with
  | Some header_idx => Py.join NL (skipn header_idx (Py.splitlines text))
  | None => text
  end.

(** A list of lines without its last line when that one is empty. *)
Fixpoint chomp (ls : list string) : list string :=
  match ls with
  | [] => []
  | l :: rest =>
      match rest with
      | [] => match l with EmptyString => [] | _ => [l] end
      | _ => l :: chomp rest
      end
  end.

(** A run of whitespace. *)
Fixpoint all_space (s : string) : bool :=
  match s with
  | EmptyString => true
  | String c s' => Py.is_space c && all_space s'
  end.

Definition row_le (r1 r2 : date * Qc) : Prop := date_le (fst r1) (fst r2).

(** Column names without whitespace at either end. *)
Definition stripped (df : DataFrame) : Prop :=
  Forall (fun n => Py.strip n = n) (column_names df).

(** ** Arithmetic of the value column *)

Definition fadd (a b : fval) : fval :=
  match a, b with
  | NaN, _ | _, NaN => NaN
  | Fin x, Fin y => Fin (x + y)%Qc
  | PInf, NInf | NInf, PInf => NaN
  | PInf, _ | _, PInf => PInf
  | NInf, _ | _, NInf => NInf
  end.

Definition fopp (a : fval) : fval :=
  match a with
  | Fin x => Fin (- x)%Qc
  | PInf => NInf
  | NInf => PInf
  | NaN => NaN
  end.

(** [==] and [<] of IEEE numbers: false as soon as one side is NaN. *)
Definition feqb (a b : fval) : bool :=
  match a, b with
  | Fin x, Fin y => Qc_eq_bool x y
  | PInf, PInf | NInf, NInf => true
  | _, _ => false
  end.

Definition fltb (a b : fval) : bool :=
  match a, b with
  | Fin x, Fin y => match (x ?= y)%Qc with Lt => true | _ => false end
  | NInf, Fin _ | NInf, PInf | Fin _, PInf => true
  | _, _ => false
  end.

Definition fsignbit (a : fval) : bool :=
  match a with
  | Fin x => match (x ?= 0)%Qc with Lt => true | _ => false end
  | NInf => true
  | _ => false
  end.

Definition fisinf (a : fval) : bool :=
  match a with
  | PInf | NInf => true
  | _ => false
  end.

(** The operations pandas applies to the cells of a float64 column. *)
Record arith : Type := mkarith {
  num : Type;
  fnan : num;
  fzero : num;
  fone : num;
  fhundred : num;
  of_count : nat -> num;
  fplus : num -> num -> num;
  fminus : num -> num -> num;
  ftimes : num -> num -> num;
  fquot : num -> num -> num;
  fneg : num -> num;
  fequal : num -> num -> bool;
  fless : num -> num -> bool;
  fsign : num -> bool;
  finf : num -> bool
}.

(** IEEE 754 binary64 with rounding to nearest even: what the program
    computes with. *)
Definition binary64 : arith :=
  mkarith float PrimFloat.nan 0%float 1%float 100%float
          (fun n => PrimFloat.of_uint63 (Uint63.of_Z (Z.of_nat n)))
          PrimFloat.add PrimFloat.sub PrimFloat.mul PrimFloat.div PrimFloat.opp
          PrimFloat.eqb PrimFloat.ltb PrimFloat.get_sign PrimFloat.is_infinity.

(** The same operations without rounding, overflow or signed zero. *)
Definition exact : arith :=
  mkarith fval NaN (Fin 0%Qc) (Fin 1%Qc) (Fin (Qc_of_Z 100))
          (fun n => Fin (Qc_of_nat n))
          fadd fsub fmul fdiv fopp feqb fltb fsignbit fisinf.

Module Series.

Section Over.

Variable A : arith.

(** [val != val]: the test pandas uses for a missing value. *)
Definition isna (x : num A) : bool := negb (fequal A x x).

(** [Series.ffill()] *)
Fixpoint ffill_from (prev : num A) (xs : list (num A)) : list (num A) :=
  match xs with
  | [] => []
  | x :: xs' =>
      let y := if isna x then prev else x in
      y :: ffill_from y xs'
  end.

Definition ffill (xs : list (num A)) : list (num A) := ffill_from (fnan A) xs.

(** [Series.shift(1)] *)
Definition shift (xs : list (num A)) : list (num A) :=
  match xs with
  | [] => []
  | _ => fnan A :: removelast xs
  end.

Fixpoint zip_with (f : num A -> num A -> num A) (xs ys : list (num A))
  : list (num A) :=
  match xs, ys with
  | x :: xs', y :: ys' => f x y :: zip_with f xs' ys'
  | _, _ => []
  end.

(** [Series.pct_change()] of pandas before 3.0: missing values are filled
    forward first, then [data / data.shift(1) - 1]. *)
Definition pct_change (xs : list (num A)) : list (num A) :=
  let data := ffill xs in
  zip_with (fun x p => fminus A (fquot A x p) (fone A)) data (shift data).

(** *** The rolling mean

    [Series.rolling(window, min_periods).mean()] goes through
    [FixedWindowIndexer.get_window_bounds] and [roll_mean] of pandas' window
    aggregations: a running sum with Kahan compensation, to which the value
    entering the window is added and from which the value leaving it is
    removed. *)

Record mean_state : Type := mkstate {
  nobs : nat;
  sum_x : num A;
  neg_ct : nat;
  compensation_add : num A;
  compensation_remove : num A;
  num_consecutive_same_value : nat;
  prev_value : num A
}.

(** [add_mean]: a value that is not NaN enters the window. *)
Definition add_mean (val : num A) (s : mean_state) : mean_state :=
  if isna val then s
  else
    let y := fminus A val (compensation_add s) in
    let t := fplus A (sum_x s) y in
    mkstate (S (nobs s)) t
            (if fsign A val then S (neg_ct s) else neg_ct s)
            (fminus A (fminus A t (sum_x s)) y)
            (compensation_remove s)
            (if fequal A val (prev_value s)
             then S (num_consecutive_same_value s) else 1%nat)
            val.

(** [remove_mean]: a value that is not NaN leaves the window. *)
Definition remove_mean (val : num A) (s : mean_state) : mean_state :=
  if isna val then s
  else
    let y := fminus A (fneg A val) (compensation_remove s) in
    let t := fplus A (sum_x s) y in
    mkstate (Nat.pred (nobs s)) t
            (if fsign A val then Nat.pred (neg_ct s) else neg_ct s)
            (compensation_add s)
            (fminus A (fminus A t (sum_x s)) y)
            (num_consecutive_same_value s)
            (prev_value s).

(** [calc_mean]: the mean of the window; the value itself when the window
    holds one value repeated; NaN below [minp] observations. *)
Definition calc_mean (minp : nat) (s : mean_state) : num A :=
  if ((minp <=? nobs s) && (0 <? nobs s))%nat then
    let result := fquot A (sum_x s) (of_count A (nobs s)) in
    if (nobs s <=? num_consecutive_same_value s)%nat then prev_value s
    else if (neg_ct s =? 0)%nat && fless A result (fzero A) then fzero A
    else if (neg_ct s =? nobs s)%nat && fless A (fzero A) result then fzero A
    else result
  else fnan A.

(** [BaseWindow._prep_values]: an infinite value counts as missing. *)
Definition prep_values (xs : list (num A)) : list (num A) :=
  map (fun x => if finf A x then fnan A else x) xs.

(** [FixedWindowIndexer.get_window_bounds]: position [i] looks at the
    positions from [max 0 (i + 1 - w)] up to [i]. *)
Definition window_bounds (w n : nat) : list (nat * nat) :=
  map (fun i => (S i - w, S i)%nat) (seq 0 n).

Definition add_range (values : list (num A)) (lo hi : nat) (st : mean_state)
  : mean_state :=
  fold_left (fun st j => add_mean (nth j values (fnan A)) st)
            (seq lo (hi - lo)) st.

Definition remove_range (values : list (num A)) (lo hi : nat) (st : mean_state)
  : mean_state :=
  fold_left (fun st j => remove_mean (nth j values (fnan A)) st)
            (seq lo (hi - lo)) st.

(** The state of a window that starts afresh at [s]. *)
Definition setup (values : list (num A)) (s e : nat) : mean_state :=
  add_range values s e
            (mkstate 0 (fzero A) 0 (fzero A) (fzero A) 0 (nth s values (fnan A))).

(** The loop of [roll_mean] after its first round: [prev] are the bounds
    and [st] the state of the round before. *)
Fixpoint roll_mean_from (values : list (num A)) (minp : nat)
         (prev : nat * nat) (st : mean_state) (bounds : list (nat * nat))
  : list (num A) :=
  match bounds with
  | [] => []
  | (s, e) :: rest =>
      let st' :=
        if (snd prev <=? s)%nat then setup values s e
        else add_range values (snd prev) e
                       (remove_range values (fst prev) s st) in
      calc_mean minp st' :: roll_mean_from values minp (s, e) st' rest
  end.

Definition roll_mean (values : list (num A)) (bounds : list (nat * nat))
           (minp : nat) : list (num A) :=
  match bounds with
  | [] => []
  | (s, e) :: rest =>
      let st := setup values s e in
      calc_mean minp st :: roll_mean_from values minp (s, e) st rest
  end.

Definition rolling_mean (w mp : nat) (xs : list (num A)) : list (num A) :=
  roll_mean (prep_values xs) (window_bounds w (List.length xs)) mp.

End Over.

End Series.

(** Lines 157-158: [last] and [change]. *)
Definition quick_stats (A : arith) (xs : list (num A)) : result (num A * num A) :=
  last <- iloc_last xs ;;
  change <- iloc_last (Series.pct_change A xs) ;;
  Ok (last, ftimes A change (fhundred A)).

(** The last value of a series that is not missing; NaN when there is
    none. *)
Definition last_valid (A : arith) (xs : list (num A)) : num A :=
  match find (fun x => negb (Series.isna A x)) (rev xs) with
  | Some v => v
  | None => fnan A
  end.

(** *** Notions used to state the properties of the rolling mean *)

(** The positions from [s] up to, not including, [e]. *)
Definition slice {T : Type} (s e : nat) (l : list T) : list T :=
  firstn (e - s) (skipn s l).

(** Windows that only move forward, within a series of [n] values. *)
Fixpoint chain (n : nat) (prev : nat * nat) (bs : list (nat * nat)) : Prop :=
  match bs with
  | [] => True
  | b :: rest =>
      (fst prev <= fst b /\ snd prev <= snd b /\ fst b <= snd b /\ snd b <= n)%nat
      /\ chain n b rest
  end.

(** The values of a series that are not missing. *)
Definition observed (A : arith) (l : list (num A)) : list (num A) :=
  filter (fun x => negb (Series.isna A x)) l.

(** The running state counts the observations of the window. *)
Definition counts (A : arith) (st : Series.mean_state A) (l : list (num A)) : Prop :=
  Series.nobs A st = List.length (observed A l).

(** Whether a number is negative: its [signbit]. *)
Definition isneg (q : Qc) : bool :=
  match (q ?= 0)%Qc with Lt => true | _ => false end.

(** The values of a series that are numbers. *)
Fixpoint numbers (xs : list fval) : list Qc :=
  match xs with
  | [] => []
  | Fin q :: xs' => q :: numbers xs'
  | _ :: xs' => numbers xs'
  end.

(** What the running state holds in exact arithmetic when the numbers of the
    window are [W]: their count, their sum without compensation, the count
    of the negative ones, and the last value with the length of its run. *)
Definition repr (st : Series.mean_state exact) (W : list Qc) : Prop :=
  Series.nobs exact st = List.length W
  /\ Series.sum_x exact st = Fin (qsum W)
  /\ Series.compensation_add exact st = Fin 0%Qc
  /\ Series.compensation_remove exact st = Fin 0%Qc
  /\ Series.neg_ct exact st = List.length (filter isneg W)
  /\ Forall (fun v => Series.prev_value exact st = Fin v)
            (skipn (List.length W - Series.num_consecutive_same_value exact st) W).

(** The [n] most recent values at position [i] of a series. *)
Definition recent {T : Type} (n : nat) (xs : list T) (i : nat) : list T :=
  firstn n (skipn (S i - n) xs).

(** A value the rolling mean leaves out: NaN, or an infinity. *)
Definition missing (A : arith) (x : num A) : bool :=
  Series.isna A x || finf A x.

Local Open Scope string_scope.

(** ** The export: [df_view.to_csv()], line 173 *)

(** The character of the digit [k]. *)
Definition digit_char (k : Z) : ascii := ascii_of_N (Z.to_N (48 + k)).

(** The last [width] decimal digits of [n], padded with zeros. *)
Fixpoint digits_fixed (width : nat) (n : Z) : string :=
  match width with
  | O => EmptyString
  | S w => digits_fixed w (n / 10) ++ String (digit_char (n mod 10)) EmptyString
  end.

(** The number of decimal digits of [n], at least [w]. *)
Fixpoint width_from (fuel w : nat) (n : Z) : nat :=
  if (n <? 10 ^ Z.of_nat w)%Z then w
  else match fuel with
       | O => w
       | S fuel' => width_from fuel' (S w) n
       end.

(** [str(n)] for an integer [n >= 0]. *)
Definition digits (n : Z) : string :=
  digits_fixed (width_from (Z.to_nat (Z.log2 n)) 1 n) n.

(** [str(d)] for a [datetime.date]: [YYYY-MM-DD]. *)
Definition format_date (d : date) : string :=
  digits_fixed 4 (year d) ++ "-" ++ digits_fixed 2 (month d)
  ++ "-" ++ digits_fixed 2 (day d).

(** The number of places after the point that write [1/den] exactly, at
    least [k]. *)
Fixpoint places_from (fuel k : nat) (den : Z) : nat :=
  if ((10 ^ Z.of_nat k) mod den =? 0)%Z then k
  else match fuel with
       | O => k
       | S fuel' => places_from fuel' (S k) den
       end.

(** The number of places after the point [repr] writes for a decimal
    number, one at least. *)
Definition places (q : Qc) : nat :=
  places_from (Z.to_nat (Z.log2 (Zpos (Qden q)))) 1 (Zpos (Qden q)).

Definition sign_text (q : Qc) : string :=
  if (Qnum q <? 0)%Z then "-" else "".

(** [repr] of a float64 that is a plain decimal number (see
    [plain_decimal]): its digits, with one digit at least after the
    point. *)
Definition format_float (q : Qc) : string :=
  let k := Z.of_nat (places q) in
  let m := Z.abs (Qnum q) * (10 ^ k / Zpos (Qden q)) in
  sign_text q ++ digits (m / 10 ^ k) ++ "." ++ digits_fixed (places q) (m mod 10 ^ k).

(** The text of an int64. *)
Definition format_int (q : Qc) : string :=
  sign_text q ++ digits (Z.abs (Qnum q)).

(** The type of the value column: integer or floating point. *)
Inductive value_dtype : Type := Int64 | Float64.

(** The text of a cell; a missing value is written as nothing. *)
Definition format_value (dt : value_dtype) (v : fval) : string :=
  match v with
  | Fin q => match dt with Int64 => format_int q | Float64 => format_float q end
  | NaN => ""
  | PInf => "inf"
  | NInf => "-inf"
  end.

Definition csv_line (dt : value_dtype) (row : date * fval) : string :=
  format_date (fst row) ++ "," ++ format_value dt (snd row).

(** [DataFrame.to_csv()] of a table indexed by [Date] whose one column is
    [Value]: the header, then one line per row, each ended by the line
    separator of the platform, taken to be the newline. *)
Definition to_csv (dt : value_dtype) (rows : list (date * fval)) : string :=
  fold_right (fun line text => line ++ NL ++ text) ""
             ("Date,Value" :: map (csv_line dt) rows).

(** The (date, value) pairs of a loaded table: its labels, which are dates,
    with the cells of its column [Value]. *)
Definition pair_of (p : nat) (r : cell * list cell) : option (date * fval) :=
  match fst r, nth p (snd r) (CStr "") with
  | CDate d, CNum v => Some (d, v)
  | CDate d, CInt n => Some (d, Fin (Qc_of_Z n))
  | _, _ => None
  end.

(** All the values of a list of options, if none is missing. *)
Fixpoint all_some {T : Type} (l : list (option T)) : option (list T) :=
  match l with
  | [] => Some []
  | Some x :: l' => option_map (cons x) (all_some l')
  | None :: _ => None
  end.

Definition pairs_of (df : DataFrame) : option (list (date * fval)) :=
  match position "Value" (column_names df) with
  | Some p => all_some (map (pair_of p) (data df))
  | None => None
  end.

(** Every character of a text passes a test. *)
Fixpoint every (P : ascii -> bool) (s : string) : bool :=
  match s with
  | EmptyString => true
  | String c s' => P c && every P s'
  end.

Definition is_digit (c : ascii) : bool := is_some (digit c).

(** The characters of the text of a date or of a number. *)
Definition field_char (c : ascii) : bool :=
  is_digit c || Ascii.eqb c "-" || Ascii.eqb c ".".

(** A date a pandas [Timestamp] can hold, whole years only. *)
Definition valid_date (d : date) : bool :=
  ((1678 <=? year d) && (year d <=? 2261) && (1 <=? month d) && (month d <=? 12)
   && (1 <=? day d) && (day d <=? days_in_month (year d) (month d)))%Z.

(** A float64 that [to_csv] writes in positional notation with all its
    digits: a decimal number of at most 15 digits that is zero or at least
    0.0001 in size.  Beyond that [repr] rounds, or turns to the exponent
    notation. *)
Definition plain_decimal (q : Qc) : bool :=
  (let k := Z.of_nat (places q) in
   let m := Z.abs (Qnum q) * (10 ^ k / Zpos (Qden q)) in
   ((10 ^ k) mod Zpos (Qden q) =? 0) && (m <? 10 ^ 15)
   && ((m =? 0) || (10 ^ k <=? m * 10 ^ 4)))%Z.

(** A value of a column of the type [dt] that [to_csv] writes with all its
    digits: an integer of 64 bits in an integer column; in a float column
    a plain decimal number, or NaN. *)
Definition printable (dt : value_dtype) (v : fval) : bool :=
  match v, dt with
  | Fin q, Int64 => ((Zpos (Qden q) =? 1) && (Z.abs (Qnum q) <? 2 ^ 63))%Z
  | Fin q, Float64 => plain_decimal q
  | NaN, Float64 => true
  | _, _ => false
  end.

(** The characters of a line of the export. *)
Definition line_char (c : ascii) : bool := field_char c || Ascii.eqb c ",".

(** ** Reading the export back *)

(** The types pandas gives the two columns: dates and numbers, or [object]
    when there is no row. *)
Definition read_types (rows : list (date * fval)) : dtype * dtype :=
  match rows with
  | [] => (Object, Object)
  | _ => (DateTime, Numeric)
  end.

(** The cells pandas reads on one line of the export. *)
Definition read_cells (row : date * fval) : list cell :=
  [CStamp (to_datetime (fst row)); CNum (snd row)].

(** What [pd.read_csv] returns on the export of [rows]. *)
Definition read_back (rows : list (date * fval)) : DataFrame :=
  mkdf None
       [("Date"%string, fst (read_types rows)); ("Value"%string, snd (read_types rows))]
       (map (fun ir => (CInt (Z.of_nat (fst ir)), read_cells (snd ir)))
            (combine (seq 0 (List.length rows)) rows)).

(** The table the loader makes of the export of [rows]. *)
Definition loaded_table (rows : list (date * fval)) : DataFrame :=
  mkdf (Some "Date"%string) [("Value"%string, snd (read_types rows))]
       (map (fun row => (CDate (fst row), [CNum (snd row)])) rows).

Local Close Scope string_scope.

(** ** From the loaded table to the view *)

(** A row whose value is a number. *)
Definition finite_pair (p : date * fval) : option (date * Qc) :=
  match snd p with
  | Fin q => Some (fst p, q)
  | _ => None
  end.

(** A loaded table as the view stage takes it: its index of
    [datetime.date] objects with the numbers of its column [Value]. *)
Definition as_frame (df : DataFrame) : option frame :=
  match pairs_of df with
  | Some ps => option_map (mkframe DateObjects) (all_some (map finite_pair ps))
  | None => None
  end.

(** The rows of a view with their values as cells. *)
Definition cells_of (view : frame) : list (date * fval) :=
  map (fun row => (fst row, Fin (snd row))) (rows view).

(** Line 173: the text of the download. *)
Definition export (dt : value_dtype) (view : frame) : string :=
  to_csv dt (cells_of view).

(** Lines 117-118 on the rows of a table whose values may be missing. *)
Definition filter_rows (start end_ : date) (l : list (date * fval))
  : list (date * fval) :=
  loc_mask l (range_mask (map fst l) start end_).

(** ** The shape of a header line *)

(** A line that opens, after a run of characters that pass Python's test of
    whitespace, with the letters of [date] in either case and a comma. *)
Definition header_shaped (line : string) : Prop :=
  exists pad c1 c2 c3 c4 rest,
    all_space pad = true
    /\ line = (pad ++ String c1 (String c2 (String c3 (String c4 (String "," rest)))))%string
    /\ (c1 = "d" \/ c1 = "D")%char /\ (c2 = "a" \/ c2 = "A")%char
    /\ (c3 = "t" \/ c3 = "T")%char /\ (c4 = "e" \/ c4 = "E")%char.

(** The code points below 256 that [str.strip] removes: tab, line feed,
    vertical tab, form feed, carriage return, the four separators 28 to 31,
    the space, next line and the space without break. *)
Definition whitespace : list N := [9; 10; 11; 12; 13; 28; 29; 30; 31; 32; 133; 160]%N.

(** A run of such code points. *)
Fixpoint padding (s : string) : Prop :=
  match s with
  | EmptyString => True
  | String c s' => In (N_of_ascii c) whitespace /\ padding s'
  end.

(** A line that opens, after whitespace given by its code points, with the
    letters of [date] in either case and a comma. *)
Definition header_form (line : string) : Prop :=
  exists pad c1 c2 c3 c4 rest,
    padding pad
    /\ line = (pad ++ String c1 (String c2 (String c3 (String c4 (String "," rest)))))%string
    /\ (c1 = "d" \/ c1 = "D")%char /\ (c2 = "a" \/ c2 = "A")%char
    /\ (c3 = "t" \/ c3 = "T")%char /\ (c4 = "e" \/ c4 = "E")%char.

(** ** The numbers of the specification *)

(** The arithmetic mean of a list of numbers. *)
Definition arithmetic_mean (l : list Qc) : Qc :=
  (fold_left Qcplus l 0 / Qc_of_nat (List.length l))%Qc.

(** The float64 of an integer below [2^63] in size. *)
Definition float_of_Z (z : Z) : float :=
  if z <? 0 then PrimFloat.opp (PrimFloat.of_uint63 (Uint63.of_Z (- z)))
  else PrimFloat.of_uint63 (Uint63.of_Z z).

(** The float64 that stands for a cell: for a number whose numerator and
    denominator are below [2^53] in size, the float64 nearest to it. *)
Definition nearest_float (v : fval) : float :=
  match v with
  | Fin q => PrimFloat.div (float_of_Z (Qnum q)) (float_of_Z (Zpos (Qden q)))
  | PInf => PrimFloat.infinity
  | NInf => PrimFloat.neg_infinity
  | NaN => PrimFloat.nan
  end.

(** The cells of the column [Value] of a loaded table, in row order. *)
Definition value_cells (df : DataFrame) : option (list fval) :=
  option_map (map snd) (pairs_of df).

(** The percent change as the specification writes it:
    [100 * (last - previous) / previous]. *)
Definition percent_formula_in (A : arith) (last prev : num A) : num A :=
  fquot A (ftimes A (fhundred A) (fminus A last prev)) prev.

(** * Properties *)

(** ** Dates *)

Lemma date_compare_eq (a b : date) : date_compare a b = Eq -> a = b.
Proof.
  destruct a as [ya ma da], b as [yb mb db]; unfold date_compare; simpl.
  destruct (Z.compare_spec ya yb); try discriminate.
  destruct (Z.compare_spec ma mb); try discriminate.
  destruct (Z.compare_spec da db); try discriminate.
  congruence.
Qed.

Lemma date_compare_refl (a : date) : date_compare a a = Eq.
Proof.
  unfold date_compare. now rewrite !Z.compare_refl.
Qed.

Lemma date_leb_refl (a : date) : date_leb a a = true.
Proof.
  unfold date_leb. now rewrite date_compare_refl.
Qed.

Lemma date_leb_trans (a b c : date) :
  date_leb a b = true -> date_leb b c = true -> date_leb a c = true.
Proof.
  destruct a as [ya ma da], b as [yb mb db], c as [yc mc dc].
  unfold date_leb, date_compare; simpl.
  destruct (Z.compare_spec ya yb), (Z.compare_spec yb yc),
    (Z.compare_spec ma mb), (Z.compare_spec mb mc),
    (Z.compare_spec da db), (Z.compare_spec db dc);
    try discriminate; intros _ _;
    destruct (Z.compare_spec ya yc), (Z.compare_spec ma mc),
      (Z.compare_spec da dc); try reflexivity; lia.
Qed.

Lemma date_leb_total (a b : date) : date_leb a b = true \/ date_leb b a = true.
Proof.
  destruct a as [ya ma da], b as [yb mb db].
  unfold date_leb, date_compare; simpl.
  destruct (Z.compare_spec ya yb), (Z.compare_spec yb ya),
    (Z.compare_spec ma mb), (Z.compare_spec mb ma),
    (Z.compare_spec da db), (Z.compare_spec db da); auto; lia.
Qed.

(** Comparing the midnights of two days is comparing the days. *)
Lemma ts_leb_midnight (a b : date) :
  ts_leb (to_datetime a) (to_datetime b) = date_leb a b.
Proof.
  unfold ts_leb, date_leb, to_datetime; simpl.
  now destruct (date_compare a b).
Qed.

(** ** The filter *)

Lemma loc_mask_filter {A B : Type} (key : A -> B) (f g : B -> bool) (l : list A) :
  loc_mask l (mask_and (map f (map key l)) (map g (map key l)))
  = filter (fun x => f (key x) && g (key x)) l.
Proof.
  induction l as [|x l IH]; simpl; [reflexivity|].
  rewrite IH. reflexivity.
Qed.

Lemma filter_view_rows (start end_ : date) (df : frame) :
  rows (filter_view start end_ df) = filter (in_range start end_) (rows df).
Proof.
  unfold filter_view, range_mask, dates; simpl.
  rewrite loc_mask_filter.
  apply filter_ext. intros [dd v]. unfold in_range; simpl.
  now rewrite !ts_leb_midnight.
Qed.

(** C6: with [start <= end], the filter keeps exactly the rows dated from
    [start] to [end], both ends included, in their order; it is a total
    function, and when no row is in the range its result is the empty
    table. *)
Theorem filter_view_inclusive (start end_ : date) (df : frame) :
  date_le start end_ ->
  rows (filter_view start end_ df) = filter (in_range start end_) (rows df)
  /\ (forall row, In row (rows (filter_view start end_ df)) <->
                  In row (rows df) /\ date_le start (fst row) /\ date_le (fst row) end_)
  /\ ((forall row, In row (rows df) ->
                   ~ (date_le start (fst row) /\ date_le (fst row) end_)) ->
      rows (filter_view start end_ df) = [])
  /\ kind (filter_view start end_ df) = kind df.
Proof.
  intros _. rewrite filter_view_rows.
  assert (Hiff : forall row, In row (filter (in_range start end_) (rows df)) <->
            In row (rows df) /\ date_le start (fst row) /\ date_le (fst row) end_).
  { intros row. rewrite filter_In. unfold in_range, date_le.
    rewrite andb_true_iff. reflexivity. }
  split; [reflexivity|]. split; [exact Hiff|]. split; [|reflexivity].
  intros Hnone. destruct (filter (in_range start end_) (rows df)) as [|row l] eqn:E;
    [reflexivity|].
  exfalso. assert (Hin : In row (row :: l)) by now left.
  apply Hiff in Hin. destruct Hin as [Hin Hr]. exact (Hnone row Hin Hr).
Qed.

Lemma filter_view_inclusive_witness :
  date_le (mkdate 2020 1 2) (mkdate 2020 2 1)
  /\ rows (filter_view (mkdate 2020 1 2) (mkdate 2020 2 1)
             (mkframe DateObjects
                [(mkdate 2020 1 1, Qc_of_Z 10); (mkdate 2020 1 2, Qc_of_Z 20);
                 (mkdate 2020 2 1, Qc_of_Z 30); (mkdate 2020 2 2, Qc_of_Z 40)]))
     = [(mkdate 2020 1 2, Qc_of_Z 20); (mkdate 2020 2 1, Qc_of_Z 30)].
Proof.
  split; [reflexivity|].
  destruct (filter_view_inclusive (mkdate 2020 1 2) (mkdate 2020 2 1)
              (mkframe DateObjects
                 [(mkdate 2020 1 1, Qc_of_Z 10); (mkdate 2020 1 2, Qc_of_Z 20);
                  (mkdate 2020 2 1, Qc_of_Z 30); (mkdate 2020 2 2, Qc_of_Z 40)])
              eq_refl) as [H _].
  rewrite H. reflexivity.
Defined.

(** C10: with [start > end] the filter returns the empty table; being a
    total function it raises nothing. *)
Theorem filter_view_inverted (start end_ : date) (df : frame) :
  date_leb start end_ = false ->
  rows (filter_view start end_ df) = []
  /\ kind (filter_view start end_ df) = kind df.
Proof.
  intros Hinv. split; [|reflexivity].
  rewrite filter_view_rows.
  induction (rows df) as [|row l IH]; simpl; [reflexivity|].
  destruct (in_range start end_ row) eqn:E; [|exact IH].
  unfold in_range in E. apply andb_true_iff in E. destruct E as [E1 E2].
  rewrite (date_leb_trans _ _ _ E1 E2) in Hinv. discriminate.
Qed.

Lemma filter_view_inverted_witness :
  date_leb (mkdate 2020 2 1) (mkdate 2020 1 2) = false
  /\ rows (filter_view (mkdate 2020 2 1) (mkdate 2020 1 2)
             (mkframe DateObjects
                [(mkdate 2020 1 1, Qc_of_Z 10); (mkdate 2020 1 15, Qc_of_Z 20);
                 (mkdate 2020 2 1, Qc_of_Z 30)])) = [].
Proof.
  split; [reflexivity|].
  apply (filter_view_inverted (mkdate 2020 2 1) (mkdate 2020 1 2)). reflexivity.
Defined.

(** ** Quick stats *)

Lemma iloc_last_app {A : Type} (l : list A) (x : A) : iloc_last (l ++ [x]) = Ok x.
Proof.
  induction l as [|y l IH]; simpl; [reflexivity|].
  rewrite IH. destruct (l ++ [x]) eqn:E; [|reflexivity].
  now destruct l.
Qed.

Lemma last_cons_default {A : Type} (y : A) (xs : list A) (dflt : A) :
  List.last (y :: xs) dflt = List.last xs y.
Proof.
  revert y dflt. induction xs as [|z xs IH]; intros y dflt; [reflexivity|].
  change (List.last (y :: z :: xs) dflt) with (List.last (z :: xs) dflt).
  rewrite IH. symmetry. apply IH.
Qed.

Lemma pct_from_app (prev : Qc) (xs : list Qc) (x : Qc) :
  pct_from prev (xs ++ [x])
  = pct_from prev xs
    ++ [fsub (fdiv (Fin x) (Fin (List.last xs prev))) (Fin 1%Qc)].
Proof.
  revert prev. induction xs as [|y xs IH]; intros prev; [reflexivity|].
  cbn [app pct_from]. rewrite IH, last_cons_default. reflexivity.
Qed.

(** C1 (the code departs from it): on a view without rows [summarize] ends
    with the [IndexError] of the unguarded [iloc[-1]] of line 157; so does
    the page when the chosen range holds no row, after the chart has been
    written. *)
Theorem summarize_empty_raises_IndexError :
  (forall k, summarize (mkframe k []) = Raise IndexError)
  /\ main_view
       (mkopts [mkdate 2021 1 1; mkdate 2021 12 31] true Line false None freq_None
               false false)
       (mkframe DateObjects
          [(mkdate 2020 1 1, Qc_of_Z 10); (mkdate 2020 1 2, Qc_of_Z 20)])
       []
     = ([Chart Line [] None], Raise IndexError).
Proof.
  split; [intros k|]; reflexivity.
Qed.

Lemma date_le_trans : Relations_1.Transitive date_le.
Proof.
  intros a b c. apply date_leb_trans.
Qed.

Lemma sorted_last_max (l : list date) (x y : date) :
  Sorted date_le (l ++ [x]) -> In y (l ++ [x]) -> date_le y x.
Proof.
  intros Hs. apply (Sorted_StronglySorted date_le_trans) in Hs.
  induction l as [|a l IH]; simpl; intros Hin.
  - destruct Hin as [<-|[]]. apply date_leb_refl.
  - apply StronglySorted_inv in Hs. destruct Hs as [Hs Hall].
    destruct Hin as [<-|Hin]; [|now apply IH].
    rewrite Forall_forall in Hall. apply Hall.
    apply in_or_app. right. now left.
Qed.

(** ** The rolling mean *)

Lemma rolling_mean_length (w mp : nat) (xs : list Qc) :
  List.length (rolling_mean w mp xs) = List.length xs.
Proof.
  unfold rolling_mean. now rewrite length_map, length_seq.
Qed.

Lemma rolling_mean_nth (w mp : nat) (xs : list Qc) (i : nat) :
  (i < List.length xs)%nat ->
  nth i (rolling_mean w mp xs) NaN
  = if (mp <=? List.length (window_at w xs i))%nat
    then mean_or_nan (window_at w xs i) else NaN.
Proof.
  intros Hi. unfold rolling_mean.
  set (f := fun i => if (mp <=? List.length (window_at w xs i))%nat
                     then mean_or_nan (window_at w xs i) else NaN).
  rewrite (nth_indep _ NaN (f O)) by now rewrite length_map, length_seq.
  rewrite (map_nth f), seq_nth by assumption. reflexivity.
Qed.

Lemma window_at_recent (w : nat) (xs : list Qc) (i : nat) :
  window_at w xs i = recent (Nat.min (S i) w) xs i.
Proof.
  unfold window_at, recent.
  rewrite firstn_skipn_comm. f_equal; [lia|]. f_equal. lia.
Qed.

(** ** The page *)

Lemma appends_pret {A : Type} (a : A) : appends (pret a).
Proof.
  intros out. exists []. simpl. now rewrite app_nil_r.
Qed.

Lemma appends_lift {A : Type} (r : result A) : appends (lift r).
Proof.
  intros out. exists []. simpl. now rewrite app_nil_r.
Qed.

Lemma appends_emit (e : element) : appends (emit e).
Proof.
  intros out. now exists [e].
Qed.

Lemma appends_when (b : bool) (m : page unit) : appends m -> appends (when b m).
Proof.
  destruct b; [trivial|]. intros _. apply appends_pret.
Qed.

Lemma appends_pbind {A B : Type} (m : page A) (k : A -> page B) :
  appends m -> (forall a, appends (k a)) -> appends (pbind m k).
Proof.
  intros Hm Hk out. destruct (Hm out) as [r1 H1]. unfold pbind.
  destruct (m out) as [out1 [a|e]]; simpl in H1; subst out1.
  - destruct (Hk a (out ++ r1)) as [r2 H2]. exists (r1 ++ r2).
    now rewrite H2, app_assoc.
  - now exists r1.
Qed.

Create HintDb page.

#[local] Hint Resolve appends_pret appends_lift appends_emit appends_when
  appends_pbind : page.

Lemma main_view_chart (opts : options) (df : frame) (start end_ : date)
      (plot_df : list (date * fval)) (out : list element) :
  date_range opts = [start; end_] ->
  resample (resample_freq opts) (filter_view start end_ df) = Ok plot_df ->
  exists rest r,
    main_view opts df out
    = (out ++ Chart (chart opts) plot_df
                    (rolling_overlay opts (filter_view start end_ df)) :: rest, r).
Proof.
  intros Hr Hp. unfold main_view. rewrite Hr.
  unfold pbind at 1. cbn [lift unpack2 fst snd]. 
  unfold pbind at 1. unfold lift at 1. rewrite Hp.
  unfold pbind at 1. unfold emit at 1.
  match goal with |- exists rest r, ?m (out ++ [?c]) = _ =>
    assert (Ha : appends m) by auto 20 with page;
    destruct (Ha (out ++ [c])) as [rest Hrest];
    destruct (m (out ++ [c])) as [out' r]
  end.
  simpl in Hrest. subst out'. exists rest, r.
  now rewrite <- app_assoc.
Qed.

Lemma main_view_resample_raises (opts : options) (df : frame) (start end_ : date)
      (e : exn) (out : list element) :
  date_range opts = [start; end_] ->
  resample (resample_freq opts) (filter_view start end_ df) = Raise e ->
  main_view opts df out = (out, Raise e).
Proof.
  intros Hr Hp. unfold main_view. rewrite Hr.
  unfold pbind at 1. cbn [lift unpack2 fst snd].
  unfold pbind at 1. unfold lift at 1. now rewrite Hp.
Qed.

(** X13: with the index of [datetime.date] objects the loader builds, no run
    of the page reaches its end: if nothing fails before, the monthly means
    of line 165 raise [TypeError]. *)
Lemma main_view_date_objects (opts : options) (df : frame) (out : list element) :
  kind df = DateObjects ->
  exists e, snd (main_view opts df out) = Raise e.
Proof.
  intros Hk. unfold main_view.
  destruct (unpack2 (date_range opts)) as [[start end_]|e];
    [|exists e; reflexivity].
  unfold pbind at 1. cbn [lift fst snd].
  assert (Hm : monthly_means (filter_view start end_ df) 12 = Raise TypeError)
    by (unfold monthly_means, resample_mean; simpl kind; now rewrite Hk).
  destruct (resample (resample_freq opts) (filter_view start end_ df))
    as [plot_df|e]; [|exists e; reflexivity].
  destruct (summarize (filter_view start end_ df)) as [st|e].
  - exists TypeError. unfold pbind, lift, emit, when, pret. rewrite Hm.
    destruct (show_hist opts), (show_box opts); reflexivity.
  - exists e. unfold pbind, lift, emit, when, pret.
    destruct (show_hist opts), (show_box opts); reflexivity.
Qed.

(** ** Resampling *)

(** On an index of [datetime.date] objects, which is what the loader builds,
    every resampling raises [TypeError]. *)
Lemma resample_date_objects (f : freq) (df : frame) :
  kind df = DateObjects -> f <> freq_None -> resample f df = Raise TypeError.
Proof.
  intros Hk Hf. unfold resample, resample_mean. rewrite Hk.
  destruct f; [contradiction| | |]; reflexivity.
Qed.

(** ** The value column *)

Lemma numeric_columns_split (before after : list (string * dtype))
      (c : string * dtype) :
  Forall not_numeric before -> snd c = Numeric ->
  filter (fun c => match snd c with Numeric => true | _ => false end)
         (before ++ c :: after)
  = c :: filter (fun c => match snd c with Numeric => true | _ => false end) after.
Proof.
  intros Hb Hc. induction Hb as [|x before Hx Hb IH]; simpl.
  - now rewrite Hc.
  - unfold not_numeric in Hx. destruct (snd x); [contradiction| |]; exact IH.
Qed.

Lemma rename_other (old new : string) (l : list (string * dtype)) :
  ~ In old (map fst l) ->
  map (fun c => if String.eqb (fst c) old then (new, snd c) else c) l = l.
Proof.
  induction l as [|x l IH]; simpl; intros Hn; [reflexivity|].
  destruct (String.eqb_spec (fst x) old) as [E|E].
  - exfalso. apply Hn. now left.
  - rewrite IH; [reflexivity|]. intros H. apply Hn. now right.
Qed.

(** C8: a table that has a column named [Value] is kept as it is; otherwise
    the first column of numeric type is renamed to [Value], the index (the
    dates) not being a column and nothing else changing; and without any
    numeric column the load ends with the error message of line 109. *)
Theorem select_value_column (df : DataFrame) :
  (has_column "Value" df = true -> select_value df = Got df)
  /\ (has_column "Value" df = false ->
      forall before c after,
        columns df = before ++ c :: after ->
        Forall not_numeric before -> snd c = Numeric ->
        select_value df = Got (rename_column (fst c) "Value" df)
        /\ index_name (rename_column (fst c) "Value" df) = index_name df
        /\ data (rename_column (fst c) "Value" df) = data df
        /\ map snd (columns (rename_column (fst c) "Value" df))
           = map snd (columns df)
        /\ has_column "Value" (rename_column (fst c) "Value" df) = true
        /\ (NoDup (column_names df) ->
            columns (rename_column (fst c) "Value" df)
            = before ++ ("Value"%string, Numeric) :: after))
  /\ (has_column "Value" df = false ->
      Forall not_numeric (columns df) ->
      select_value df
      = StError "No numeric 'Value' column found in data." None).
Proof.
  unfold select_value. split; [intros ->; reflexivity|]. split.
  - intros -> before c after Hcols Hb Hc.
    split.
    { unfold numeric_columns.
      rewrite Hcols, numeric_columns_split by assumption. reflexivity. }
    split; [reflexivity|]. split; [reflexivity|]. split; [|split].
    + unfold rename_column; cbn [columns]. rewrite map_map.
      apply map_ext. intros x. now destruct (String.eqb (fst x) (fst c)).
    + unfold has_column, column_names, rename_column; cbn [columns].
      rewrite Hcols, map_map. apply existsb_exists. exists "Value"%string.
      split; [|apply String.eqb_refl].
      apply in_map_iff. exists c. rewrite String.eqb_refl. split; [reflexivity|].
      apply in_or_app. right. now left.
    + intros Hnd. unfold rename_column, column_names in *; cbn [columns].
      rewrite Hcols in *. rewrite map_app in *. cbn [map] in *.
      apply NoDup_remove_2 in Hnd.
      rewrite String.eqb_refl, Hc.
      rewrite !rename_other; [reflexivity| |];
        intros H; apply Hnd; apply in_or_app; [now right|now left].
  - intros -> Hall. unfold numeric_columns.
    replace (filter _ (columns df)) with (@nil (string * dtype)); [reflexivity|].
    symmetry. induction Hall as [|x l Hx Hall IH]; simpl; [reflexivity|].
    unfold not_numeric in Hx. destruct (snd x); [contradiction| |]; exact IH.
Qed.

Lemma select_value_column_witness :
  select_value (mkdf (Some "Date"%string)
                     [("Note"%string, Object); ("Rate"%string, Numeric);
                      ("Other"%string, Numeric)] [])
  = Got (mkdf (Some "Date"%string)
              [("Note"%string, Object); ("Value"%string, Numeric);
               ("Other"%string, Numeric)] [])
  /\ select_value (mkdf (Some "Date"%string) [("Note"%string, Object)] [])
     = StError "No numeric 'Value' column found in data." None
  /\ select_value (mkdf (Some "Date"%string) [("Value"%string, Object)] [])
     = Got (mkdf (Some "Date"%string) [("Value"%string, Object)] []).
Proof.
  split; [|split].
  - destruct (select_value_column
                (mkdf (Some "Date"%string)
                      [("Note"%string, Object); ("Rate"%string, Numeric);
                       ("Other"%string, Numeric)] [])) as (_ & H & _).
    destruct (H eq_refl [("Note"%string, Object)] ("Rate"%string, Numeric)
                [("Other"%string, Numeric)] eq_refl) as (H1 & _).
    + constructor; [discriminate|constructor].
    + reflexivity.
    + exact H1.
  - destruct (select_value_column
                (mkdf (Some "Date"%string) [("Note"%string, Object)] []))
      as (_ & _ & H).
    apply H; [reflexivity|]. constructor; [discriminate|constructor].
  - destruct (select_value_column
                (mkdf (Some "Date"%string) [("Value"%string, Object)] []))
      as (H & _).
    now apply H.
Defined.

(** ** Lines of text *)

Lemma append_nil_r (s : string) : (s ++ "")%string = s.
Proof.
  induction s as [|c s IH]; simpl; [reflexivity|]. now rewrite IH.
Qed.

Lemma append_assoc (a b c : string) :
  ((a ++ b) ++ c)%string = (a ++ (b ++ c))%string.
Proof.
  induction a as [|x a IH]; simpl; [reflexivity|]. now rewrite IH.
Qed.

Lemma rev_string_acc (acc s : string) :
  Py.rev_string acc s = (Py.rev_string EmptyString s ++ acc)%string.
Proof.
  revert acc. induction s as [|c s IH]; intros acc; simpl; [reflexivity|].
  rewrite (IH (String c acc)), (IH (String c EmptyString)).
  now rewrite append_assoc.
Qed.

Lemma startswith_iff (s p : string) :
  Py.startswith s p = true <-> exists rest, s = (p ++ rest)%string.
Proof.
  unfold Py.startswith. revert s. induction p as [|c p IH]; intros s.
  - split; [intros _; now exists s|]. intros _. now destruct s.
  - destruct s as [|c' s]; simpl.
    + split; [discriminate|]. intros [rest H]. discriminate.
    + destruct (ascii_dec c c') as [<-|Hne].
      * rewrite IH. split; intros [rest H]; exists rest; congruence.
      * split; [discriminate|]. intros [rest H]. congruence.
Qed.

Lemma splitlines_from_line (line text cur : string) :
  no_linebreak line = true ->
  Py.splitlines_from cur (line ++ NL ++ text)%string
  = (Py.rev_string EmptyString cur ++ line)%string :: Py.splitlines text.
Proof.
  revert cur. induction line as [|c line IH]; intros cur Hnb.
  - rewrite append_nil_r. unfold NL. simpl. now destruct text.
  - simpl in Hnb. apply andb_true_iff in Hnb. destruct Hnb as [Hc Hnb].
    apply negb_true_iff in Hc. cbn [append Py.splitlines_from]. rewrite Hc.
    rewrite (IH _ Hnb). f_equal. simpl.
    rewrite (rev_string_acc (String c EmptyString)).
    now rewrite append_assoc.
Qed.

Lemma splitlines_prepend (meta : list string) (text : string) :
  Forall (fun line => no_linebreak line = true) meta ->
  Py.splitlines (prepend_lines meta text) = meta ++ Py.splitlines text.
Proof.
  induction 1 as [|line meta Hl Hm IH]; [reflexivity|].
  unfold prepend_lines in *. cbn [fold_right app].
  unfold Py.splitlines at 1. rewrite splitlines_from_line by assumption.
  cbn [Py.rev_string append]. now rewrite IH.
Qed.

(** ** The header line *)

Lemma find_header_from_shift (i : nat) (lines : list string) :
  find_header_from i lines = option_map (Nat.add i) (find_header lines).
Proof.
  unfold find_header. revert i. induction lines as [|l lines IH]; intros i; simpl.
  - reflexivity.
  - destruct (is_header l); simpl; [f_equal; lia|].
    rewrite (IH (S i)), (IH 1%nat).
    destruct (find_header_from 0 lines); simpl; [f_equal; lia|reflexivity].
Qed.

Lemma find_header_cons (l : string) (lines : list string) :
  find_header (l :: lines)
  = if is_header l then Some O else option_map S (find_header lines).
Proof.
  unfold find_header at 1. simpl. destruct (is_header l); [reflexivity|].
  apply find_header_from_shift.
Qed.

Lemma find_header_some (lines : list string) (i : nat) :
  find_header lines = Some i <->
  (exists line, nth_error lines i = Some line /\ is_header line = true)
  /\ (forall j l, (j < i)%nat -> nth_error lines j = Some l -> is_header l = false).
Proof.
  revert i. induction lines as [|l lines IH]; intros i.
  - split; [discriminate|]. intros [[line [H _]] _]. now destruct i.
  - rewrite find_header_cons. destruct (is_header l) eqn:El.
    + split.
      * intros [= <-]. split; [now exists l|]. intros j l' Hj. lia.
      * intros [_ Hbefore]. destruct i as [|i]; [reflexivity|].
        specialize (Hbefore O l (Nat.lt_0_succ i) eq_refl). congruence.
    + split.
      * destruct (find_header lines) as [i'|] eqn:E; [|discriminate].
        intros [= <-]. destruct (proj1 (IH i') eq_refl) as [Hat Hbefore].
        split; [exact Hat|].
        intros [|j] l' Hj Hl'; simpl in Hl'; [congruence|].
        apply (Hbefore j); [lia|assumption].
      * intros [[line [Hat Hh]] Hbefore]. destruct i as [|i].
        { simpl in Hat. congruence. }
        replace (find_header lines) with (Some i); [reflexivity|].
        symmetry. apply IH. split; [now exists line|].
        intros j l' Hj Hl'. apply (Hbefore (S j)); [lia|assumption].
Qed.

Lemma find_header_none (lines : list string) :
  find_header lines = None <-> Forall (fun l => is_header l = false) lines.
Proof.
  induction lines as [|l lines IH].
  - split; [constructor|reflexivity].
  - rewrite find_header_cons. destruct (is_header l) eqn:El.
    + split; [discriminate|]. intros H. inversion H. congruence.
    + destruct (find_header lines) eqn:E; simpl.
      * split; [discriminate|]. intros H. inversion H as [|? ? _ Hr].
        apply IH in Hr. discriminate.
      * split; [|reflexivity]. intros _. constructor; [assumption|now apply IH].
Qed.

Lemma find_header_after_meta (meta : list string) (h : string) (rest : list string) :
  Forall (fun l => is_header l = false) meta -> is_header h = true ->
  find_header (meta ++ h :: rest) = Some (List.length meta)
  /\ skipn (List.length meta) (meta ++ h :: rest) = h :: rest.
Proof.
  intros Hm Hh. induction Hm as [|l meta Hl Hm [IH1 IH2]]; simpl.
  - rewrite find_header_cons, Hh. now split.
  - rewrite find_header_cons, Hl, IH1. now split.
Qed.

(** ** Sorting rows *)

Section SortBy.

Context {A : Type} (leb : A -> A -> bool).
Hypothesis leb_total : forall x y, leb x y = true \/ leb y x = true.

Let le (x y : A) : Prop := leb x y = true.

Lemma insert_by_perm (x : A) (l : list A) : Permutation (x :: l) (insert_by leb x l).
Proof.
  induction l as [|y l IH]; simpl; [reflexivity|].
  destruct (leb x y); [reflexivity|].
  rewrite perm_swap. now apply perm_skip.
Qed.

Lemma sort_by_perm (l : list A) : Permutation l (sort_by leb l).
Proof.
  induction l as [|x l IH]; simpl; [reflexivity|].
  rewrite <- insert_by_perm. now apply perm_skip.
Qed.

Lemma insert_by_sorted (x : A) (l : list A) :
  Sorted le l -> Sorted le (insert_by leb x l).
Proof.
  induction 1 as [|y l Hs IH Hhd]; simpl; [repeat constructor|].
  destruct (leb x y) eqn:E.
  - constructor; [now constructor|]. now constructor.
  - constructor; [exact IH|].
    assert (Hyx : le y x) by (destruct (leb_total x y); [congruence|assumption]).
    destruct l as [|z l]; simpl; [now constructor|].
    destruct (leb x z); constructor; [assumption|].
    now apply HdRel_inv in Hhd.
Qed.

Lemma sort_by_sorted (l : list A) : Sorted le (sort_by leb l).
Proof.
  induction l as [|x l IH]; simpl; [constructor|].
  now apply insert_by_sorted.
Qed.

(** Rows already in order are left as they are. *)
Lemma sort_by_id (l : list A) : Sorted le l -> sort_by leb l = l.
Proof.
  induction 1 as [|x l Hs IH Hhd]; simpl; [reflexivity|].
  rewrite IH. destruct Hhd as [|y l Hxy]; simpl; [reflexivity|].
  unfold le in Hxy. now rewrite Hxy.
Qed.

End SortBy.

Lemma ts_leb_total (a b : timestamp) : ts_leb a b = true \/ ts_leb b a = true.
Proof.
  unfold ts_leb.
  destruct (date_compare (ts_date a) (ts_date b)) eqn:E.
  - apply date_compare_eq in E. rewrite E, date_compare_refl.
    destruct (Z.leb_spec (ts_nanos a) (ts_nanos b)); [now left|].
    right. apply Z.leb_le. lia.
  - now left.
  - right. destruct (date_leb_total (ts_date a) (ts_date b)) as [H|H];
      unfold date_leb in H; [now rewrite E in H|].
    destruct (date_compare (ts_date b) (ts_date a)) eqn:E'; try reflexivity;
      try discriminate.
    apply date_compare_eq in E'. rewrite E', date_compare_refl in E. discriminate.
Qed.

Lemma cell_leb_total (a b : cell) : cell_leb a b = true \/ cell_leb b a = true.
Proof.
  destruct a, b; simpl; auto.
  - destruct (Z.leb_spec n n0); [now left|]. right. apply Z.leb_le. lia.
  - apply ts_leb_total.
  - apply date_leb_total.
Qed.

(** ** Columns and cells *)

Lemma position_lt (name : string) (names : list string) (p : nat) :
  position name names = Some p -> (p < List.length names)%nat.
Proof.
  revert p. induction names as [|n names IH]; intros p; simpl; [discriminate|].
  destruct (String.eqb name n).
  - intros [= <-]. lia.
  - destruct (position name names) as [p'|]; [|discriminate].
    intros [= <-]. specialize (IH p' eq_refl). lia.
Qed.

Lemma position_has_column (name : string) (df : DataFrame) (p : nat) :
  position name (column_names df) = Some p -> has_column name df = true.
Proof.
  unfold has_column. generalize (column_names df) as names. intros names. revert p.
  induction names as [|n names IH]; intros p; simpl; [discriminate|].
  destruct (String.eqb name n); [reflexivity|].
  destruct (position name names) as [p'|]; [|discriminate].
  intros _. now apply (IH p').
Qed.

Lemma nth_update_nth {A : Type} (p : nat) (f : A -> A) (l : list A) (dflt : A) :
  (p < List.length l)%nat -> nth p (update_nth p f l) dflt = f (nth p l dflt).
Proof.
  revert p. induction l as [|x l IH]; intros p Hp; simpl in Hp; [lia|].
  destruct p as [|p]; simpl; [reflexivity|]. apply IH. lia.
Qed.

Lemma update_nth_names (p : nat) (t : dtype) (cols : list (string * dtype)) :
  map fst (update_nth p (fun c => (fst c, t)) cols) = map fst cols.
Proof.
  revert p. induction cols as [|c cols IH]; intros p; [now destruct p|].
  destruct p as [|p]; simpl; [reflexivity|]. now rewrite IH.
Qed.

Lemma mapM_map {A B C : Type} (g : A -> B) (f : B -> result C) (l : list A) :
  mapM f (map g l) = mapM (fun x => f (g x)) l.
Proof.
  induction l as [|x l IH]; simpl; [reflexivity|]. now rewrite IH.
Qed.

Lemma mapM_length {A B : Type} (f : A -> result B) (l : list A) (ys : list B) :
  mapM f l = Ok ys -> List.length ys = List.length l.
Proof.
  revert ys. induction l as [|x l IH]; intros ys; simpl.
  - now intros [= <-].
  - destruct (f x); [|discriminate]. simpl.
    destruct (mapM f l) as [ys'|]; [|discriminate]. simpl.
    intros [= <-]. simpl. now rewrite (IH ys').
Qed.

Lemma map_combine_snd {A B C : Type} (h : B -> C) (l : list A) (l' : list B) :
  List.length l' = List.length l ->
  map (fun ab => h (snd ab)) (combine l l') = map h l'.
Proof.
  revert l'. induction l as [|x l IH]; intros [|y l'] H; simpl in *;
    try reflexivity; try discriminate.
  rewrite IH; [reflexivity|lia].
Qed.

Lemma Sorted_map {A B : Type} (R : A -> A -> Prop) (R' : B -> B -> Prop)
      (f : A -> B) (l : list A) :
  (forall x y, R x y -> R' (f x) (f y)) -> Sorted R l -> Sorted R' (map f l).
Proof.
  intros Hf. induction 1 as [|x l Hs IH Hhd]; simpl; constructor; [exact IH|].
  destruct Hhd; simpl; constructor. now apply Hf.
Qed.

(** ** The loader *)

Section LoaderFacts.

Variable read_csv : string -> result DataFrame.
Variable to_timestamp : cell -> result timestamp.

Let load := load_csv_auto read_csv to_timestamp.
Let upload := parse_uploaded read_csv to_timestamp.

(** Without a header line the whole text is read, and only the column
    names are stripped. *)
Lemma load_csv_auto_no_header (text : string) :
  find_header (Py.splitlines text) = None ->
  load text = (df <- read_csv text ;; Ok (strip_columns df)).
Proof.
  intros H. unfold load, load_csv_auto. now rewrite H.
Qed.

(** With a header line, only the lines from it on are read. *)
Lemma load_csv_auto_from_header (text text' : string) (i i' : nat) :
  find_header (Py.splitlines text) = Some i ->
  find_header (Py.splitlines text') = Some i' ->
  skipn i (Py.splitlines text) = skipn i' (Py.splitlines text') ->
  load text = load text' /\ upload text = upload text'.
Proof.
  intros H H' E. unfold load, upload, load_csv_auto, parse_uploaded.
  now rewrite H, H', E.
Qed.

(** X5: with a header line and a column named [Date] the loader returns the
    table indexed by that column: its labels are the dates of the
    timestamps pandas reads in the column, all of them, in ascending
    order. *)
Lemma load_csv_auto_header_path (text : string) (i p : nat) (df : DataFrame)
      (ds : list timestamp) :
  find_header (Py.splitlines text) = Some i ->
  read_csv (Py.join NL (skipn i (Py.splitlines text))) = Ok df ->
  rectangular df ->
  position "Date" (column_names (strip_columns df)) = Some p ->
  mapM to_timestamp (column_cells p df) = Ok ds ->
  exists out,
    load text = Ok out
    /\ index_name out = Some "Date"%string
    /\ Permutation (labels out) (map (fun t => CDate (ts_date t)) ds)
    /\ Sorted cell_le (labels out).
Proof.
  intros Hfind Hread Hrect Hpos Hds.
  unfold load, load_csv_auto. rewrite Hfind, Hread. cbn [rbind].
  rewrite (position_has_column _ _ _ Hpos).
  unfold to_date_column. rewrite Hpos.
  unfold column_cells in Hds. rewrite mapM_map in Hds.
  cbn [strip_columns data]. rewrite Hds. cbn [rbind].
  set (df1 := mkdf _ _ _).
  assert (Hpos1 : position "Date" (column_names df1) = Some p).
  { unfold df1, column_names; cbn [columns]. rewrite update_nth_names. exact Hpos. }
  set (key := fun r : cell * list cell => nth p (snd r) (CStr "")).
  assert (Hkeys : map key (data df1) = map (fun t => CDate (ts_date t)) ds).
  { unfold df1; cbn [data]. rewrite map_map.
    rewrite <- (map_combine_snd (fun t => CDate (ts_date t)) (data df) ds)
      by (now apply mapM_length in Hds).
    apply map_ext_in. intros [r t] Hin. unfold key; cbn [fst snd].
    apply in_combine_l in Hin. rewrite nth_update_nth; [reflexivity|].
    rewrite (Hrect r Hin).
    apply position_lt in Hpos. unfold column_names in Hpos.
    rewrite length_map in Hpos. cbn [strip_columns columns] in Hpos.
    now rewrite length_map in Hpos. }
  unfold sort_values. rewrite Hpos1. unfold set_index, column_names; cbn [columns].
  fold (column_names df1). rewrite Hpos1. cbn [index_name data].
  eexists. split; [reflexivity|]. split; [reflexivity|].
  unfold labels; cbn [data]. rewrite map_map; cbn [fst]. fold key. split.
  - rewrite <- Hkeys. apply Permutation_map. apply Permutation_sym.
    apply sort_by_perm.
  - apply (Sorted_map (fun r1 r2 => cell_leb (key r1) (key r2) = true)).
    + intros x y H. exact H.
    + apply sort_by_sorted. intros x y. apply cell_leb_total.
Qed.

End LoaderFacts.

(** The scenario of the specification: two lines of other content, the
    header, two rows. *)
Example load_csv_auto_scenario :
  load_csv_auto csv_reader to_stamp
    ("junk line" ++ NL ++ "more junk" ++ NL
     ++ "Date,Value" ++ NL ++ "2020-01-01,1.5" ++ NL ++ "2020-01-02,2.5" ++ NL)%string
  = Ok (mkdf (Some "Date"%string) [("Value"%string, Numeric)]
             [(CDate (mkdate 2020 1 1), [CNum (Fin (Q2Qc (15 # 10)))]);
              (CDate (mkdate 2020 1 2), [CNum (Fin (Q2Qc (25 # 10)))])]).
Proof.
  vm_compute. reflexivity.
Qed.

(** C3 (the code departs from it): a text whose header is not recognised,
    here because of the blank before the comma, goes through the fallback
    of [load_csv_auto], which returns the rows in file order, with their
    timestamps, under the default integer index; the upload branch of
    [main] on the same text turns the dates into the index and sorts. *)
Theorem load_csv_auto_fallback_unsorted :
  load_csv_auto csv_reader to_stamp
    ("Date ,Value" ++ NL ++ "2020-01-02,2.5" ++ NL ++ "2020-01-01,1.5" ++ NL)%string
  = Ok (mkdf None [("Date"%string, DateTime); ("Value"%string, Numeric)]
             [(CInt 0, [CStamp (mkts (mkdate 2020 1 2) 0); CNum (Fin (Q2Qc (25 # 10)))]);
              (CInt 1, [CStamp (mkts (mkdate 2020 1 1) 0); CNum (Fin (Q2Qc (15 # 10)))])])
  /\ parse_uploaded csv_reader to_stamp
       ("Date ,Value" ++ NL ++ "2020-01-02,2.5" ++ NL ++ "2020-01-01,1.5" ++ NL)%string
     = Ok (mkdf (Some "Date"%string) [("Value"%string, Numeric)]
                [(CDate (mkdate 2020 1 1), [CNum (Fin (Q2Qc (15 # 10)))]);
                 (CDate (mkdate 2020 1 2), [CNum (Fin (Q2Qc (25 # 10)))])]).
Proof.
  split; vm_compute; reflexivity.
Qed.

(** * Further properties *)

(** ** The loading part of the script *)

Lemma rename_has_column (old new : string) (df : DataFrame) :
  In old (column_names df) -> has_column new (rename_column old new df) = true.
Proof.
  intros Hin. unfold has_column, column_names, rename_column in *; cbn [columns].
  apply existsb_exists. exists new. split; [|apply String.eqb_refl].
  rewrite map_map. apply in_map_iff in Hin. destruct Hin as (c & <- & Hc).
  apply in_map_iff. exists c. split; [|exact Hc]. now rewrite String.eqb_refl.
Qed.

Lemma numeric_columns_incl (df : DataFrame) (c : string) :
  In c (numeric_columns df) -> In c (column_names df).
Proof.
  unfold numeric_columns, column_names. intros H.
  apply in_map_iff in H. destruct H as (x & <- & Hx).
  apply filter_In in Hx. apply in_map. tauto.
Qed.

Lemma select_value_has_value (df df' : DataFrame) :
  select_value df = Got df' -> has_column "Value" df' = true.
Proof.
  unfold select_value. destruct (has_column "Value" df) eqn:E.
  - now intros [= <-].
  - destruct (numeric_columns df) as [|c cs] eqn:En; [discriminate|].
    intros [= <-]. apply rename_has_column. apply numeric_columns_incl.
    rewrite En. now left.
Qed.

Lemma position_none (name : string) (df : DataFrame) :
  has_column name df = false -> position name (column_names df) = None.
Proof.
  unfold has_column. induction (column_names df) as [|n names IH]; simpl;
    [reflexivity|].
  destruct (String.eqb name n); simpl; [discriminate|].
  intros H. now rewrite IH.
Qed.

(** X3: when [select_value] keeps a table, the table it returns has the
    index, the rows, the column types and the number of columns of the one
    it was given, and [select_value] returns it unchanged when applied
    again. *)
Theorem select_value_stable (df df' : DataFrame) :
  select_value df = Got df' ->
  select_value df' = Got df'
  /\ index_name df' = index_name df
  /\ data df' = data df
  /\ map snd (columns df') = map snd (columns df)
  /\ List.length (columns df') = List.length (columns df).
Proof.
  intros H. pose proof (select_value_has_value df df' H) as Hv.
  split; [unfold select_value; now rewrite Hv|].
  assert (Hty : map snd (columns df') = map snd (columns df)
                /\ index_name df' = index_name df /\ data df' = data df).
  { unfold select_value in H. destruct (has_column "Value" df).
    - injection H as <-. auto.
    - destruct (numeric_columns df) as [|c cs]; [discriminate|].
      injection H as <-. unfold rename_column; cbn [columns index_name data].
      split; [|auto]. rewrite map_map. apply map_ext.
      intros x. now destruct (String.eqb (fst x) c). }
  destruct Hty as (Hty & Hi & Hd). repeat split; try assumption.
  rewrite <- (length_map snd (columns df')), Hty. apply length_map.
Qed.

Lemma select_value_stable_witness :
  select_value (mkdf (Some "Date"%string)
                     [("Note"%string, Object); ("Rate"%string, Numeric)] [])
  = Got (mkdf (Some "Date"%string)
              [("Note"%string, Object); ("Value"%string, Numeric)] [])
  /\ select_value (mkdf (Some "Date"%string)
                        [("Note"%string, Object); ("Value"%string, Numeric)] [])
     = Got (mkdf (Some "Date"%string)
                 [("Note"%string, Object); ("Value"%string, Numeric)] []).
Proof.
  split; [reflexivity|].
  apply (select_value_stable
           (mkdf (Some "Date"%string)
                 [("Note"%string, Object); ("Rate"%string, Numeric)] [])).
  reflexivity.
Defined.

Section LoadingFacts.

Variable read_csv : string -> result DataFrame.
Variable to_timestamp : cell -> result timestamp.

Let load := load_csv_auto read_csv to_timestamp.
Let upload := parse_uploaded read_csv to_timestamp.
Let start_up := main_load read_csv to_timestamp.

(** X1: an exception raised while an upload is parsed is always caught and
    written with [st.error]; the same exception raised while the default
    file is loaded is not caught; a missing default file is reported with
    [st.error]. *)
Theorem main_load_catches_upload_only :
  (forall content path dflt e, start_up (Some content) path dflt <> Uncaught e)
  /\ (forall content path dflt e,
        upload content = Raise e ->
        start_up (Some content) path dflt
        = StError "Failed to parse uploaded CSV: " (Some e))
  /\ (forall text path e,
        load text = Raise e -> start_up None path (Some text) = Uncaught e)
  /\ (forall path,
        start_up None path None
        = StError ("Default CSV not found at " ++ path
                   ++ ". Please upload a CSV with Date,Value columns.")%string None).
Proof.
  unfold start_up, upload, load, main_load. split; [|split; [|split]].
  - intros content path dflt e.
    destruct (parse_uploaded read_csv to_timestamp content) as [df|e'];
      [|discriminate].
    unfold select_value. destruct (has_column "Value" df); [discriminate|].
    destruct (numeric_columns df); discriminate.
  - intros content path dflt e ->. reflexivity.
  - intros text path e ->. reflexivity.
  - reflexivity.
Qed.

(** X2: whenever the loading part of the script ends with a table, that
    table has a column named [Value]. *)
Theorem main_load_value_column (uploaded : option string) (path : string)
        (dflt : option string) (df : DataFrame) :
  start_up uploaded path dflt = Got df -> has_column "Value" df = true.
Proof.
  unfold start_up, main_load.
  destruct uploaded as [content|].
  - destruct (parse_uploaded read_csv to_timestamp content) as [df0|e];
      [apply select_value_has_value|discriminate].
  - destruct dflt as [text|]; [|discriminate].
    destruct (load_csv_auto read_csv to_timestamp text) as [df0|e];
      [apply select_value_has_value|discriminate].
Qed.

(** X4: a header line is recognised whatever its case, but the date column
    is looked up under the exact name [Date].  When the table read from a
    recognised header has no column of that name, [load_csv_auto] returns it
    as read, under its default index, while the upload branch fails on
    [df["Date"]] with [KeyError], which the script reports with
    [st.error]. *)
Theorem header_without_Date_column (text : string) (i : nat) (df : DataFrame) :
  find_header (Py.splitlines text) = Some i ->
  read_csv (Py.join NL (skipn i (Py.splitlines text))) = Ok df ->
  has_column "Date" (strip_columns df) = false ->
  load text = Ok (strip_columns df)
  /\ upload text = Raise KeyError
  /\ (forall path dflt,
        start_up (Some text) path dflt
        = StError "Failed to parse uploaded CSV: " (Some KeyError)).
Proof.
  intros Hfind Hread Hno.
  assert (Hup : upload text = Raise KeyError).
  { unfold upload, parse_uploaded. rewrite Hfind, Hread. cbn [rbind].
    unfold to_date_column. now rewrite (position_none _ _ Hno). }
  split; [|split; [exact Hup|]].
  - unfold load, load_csv_auto. rewrite Hfind, Hread. cbn [rbind].
    now rewrite Hno.
  - intros path dflt. unfold start_up, main_load. fold upload. now rewrite Hup.
Qed.

End LoadingFacts.

Lemma main_load_catches_upload_only_witness :
  parse_uploaded csv_reader to_stamp EmptyString = Raise ValueError
  /\ main_load csv_reader to_stamp (Some EmptyString) "rates.csv"%string None
     = StError "Failed to parse uploaded CSV: " (Some ValueError)
  /\ main_load csv_reader to_stamp None "rates.csv"%string (Some EmptyString)
     = Uncaught ValueError.
Proof.
  destruct (main_load_catches_upload_only csv_reader to_stamp)
    as (_ & Hup & Hdef & _).
  split; [reflexivity|]. split.
  - apply Hup. reflexivity.
  - apply Hdef. reflexivity.
Defined.

Lemma main_load_value_column_witness :
  exists df,
    main_load csv_reader to_stamp
      (Some ("Date,Rate" ++ NL ++ "2020-01-01,1.5" ++ NL)%string)
      "rates.csv"%string None = Got df
    /\ has_column "Value" df = true.
Proof.
  eexists. split; [vm_compute; reflexivity|].
  apply (main_load_value_column csv_reader to_stamp
           (Some ("Date,Rate" ++ NL ++ "2020-01-01,1.5" ++ NL)%string)
           "rates.csv"%string None).
  vm_compute. reflexivity.
Defined.

Lemma header_without_Date_column_witness :
  load_csv_auto csv_reader to_stamp
    ("date,value" ++ NL ++ "2020-01-02,2.5" ++ NL ++ "2020-01-01,1.5" ++ NL)%string
  = Ok (mkdf None [("date"%string, DateTime); ("value"%string, Numeric)]
             [(CInt 0, [CStamp (mkts (mkdate 2020 1 2) 0); CNum (Fin (Q2Qc (25 # 10)))]);
              (CInt 1, [CStamp (mkts (mkdate 2020 1 1) 0); CNum (Fin (Q2Qc (15 # 10)))])])
  /\ parse_uploaded csv_reader to_stamp
       ("date,value" ++ NL ++ "2020-01-02,2.5" ++ NL ++ "2020-01-01,1.5" ++ NL)%string
     = Raise KeyError.
Proof.
  destruct (header_without_Date_column csv_reader to_stamp
              ("date,value" ++ NL ++ "2020-01-02,2.5" ++ NL ++ "2020-01-01,1.5" ++ NL)%string
              0%nat
              (mkdf None [("date"%string, DateTime); ("value"%string, Numeric)]
                 [(CInt 0, [CStamp (mkts (mkdate 2020 1 2) 0); CNum (Fin (Q2Qc (25 # 10)))]);
                  (CInt 1, [CStamp (mkts (mkdate 2020 1 1) 0); CNum (Fin (Q2Qc (15 # 10)))])]))
    as (Hload & Hup & _).
  - reflexivity.
  - vm_compute. reflexivity.
  - reflexivity.
  - split; [exact Hload|exact Hup].
Defined.

Lemma load_csv_auto_header_path_witness :
  exists out,
    load_csv_auto csv_reader to_stamp
      ("junk" ++ NL ++ "Date,Value" ++ NL ++ "2020-01-02,2.5" ++ NL
       ++ "2020-01-01,1.5" ++ NL)%string = Ok out
    /\ index_name out = Some "Date"%string
    /\ Sorted cell_le (labels out).
Proof.
  destruct (load_csv_auto_header_path csv_reader to_stamp
              ("junk" ++ NL ++ "Date,Value" ++ NL ++ "2020-01-02,2.5" ++ NL
               ++ "2020-01-01,1.5" ++ NL)%string
              1%nat 0%nat
              (mkdf None [("Date"%string, DateTime); ("Value"%string, Numeric)]
                 [(CInt 0, [CStamp (mkts (mkdate 2020 1 2) 0); CNum (Fin (Q2Qc (25 # 10)))]);
                  (CInt 1, [CStamp (mkts (mkdate 2020 1 1) 0); CNum (Fin (Q2Qc (15 # 10)))])])
              [mkts (mkdate 2020 1 2) 0; mkts (mkdate 2020 1 1) 0])
    as (out & Hout & Hname & _ & Hsorted).
  - reflexivity.
  - vm_compute. reflexivity.
  - intros r [<-|[<-|[]]]; reflexivity.
  - reflexivity.
  - reflexivity.
  - exists out. auto.
Defined.

(** ** The upload branch *)

Section UploadFacts.

Variable read_csv : string -> result DataFrame.
Variable to_timestamp : cell -> result timestamp.

Let upload := parse_uploaded read_csv to_timestamp.

Lemma to_date_column_ok (df : DataFrame) (p : nat) (ds : list timestamp) :
  rectangular df ->
  position "Date" (column_names df) = Some p ->
  mapM to_timestamp (column_cells p df) = Ok ds ->
  exists df1,
    to_date_column to_timestamp "Date" df = Ok df1
    /\ position "Date" (column_names df1) = Some p
    /\ column_cells p df1 = map (fun t => CDate (ts_date t)) ds.
Proof.
  intros Hrect Hpos Hds. unfold to_date_column. rewrite Hpos.
  unfold column_cells in Hds. rewrite mapM_map in Hds. rewrite Hds. cbn [rbind].
  eexists. split; [reflexivity|]. split.
  - unfold column_names; cbn [columns]. now rewrite update_nth_names.
  - unfold column_cells; cbn [data]. rewrite map_map.
    rewrite <- (map_combine_snd (fun t => CDate (ts_date t)) (data df) ds)
      by (now apply mapM_length in Hds).
    apply map_ext_in. intros [r t] Hin. cbn [fst snd].
    apply in_combine_l in Hin. rewrite nth_update_nth; [reflexivity|].
    rewrite (Hrect r Hin). apply position_lt in Hpos.
    unfold column_names in Hpos. now rewrite length_map in Hpos.
Qed.

(** X6: the upload branch, on its header path and on its fallback alike,
    returns a table indexed by the column named [Date] when the table read
    has one: the labels are the dates of the timestamps read in that column,
    all of them, in ascending order. *)
Theorem parse_uploaded_sorted (text : string) (p : nat) (df : DataFrame)
        (ds : list timestamp) :
  read_csv (csv_source text) = Ok df ->
  rectangular df ->
  position "Date" (column_names (strip_columns df)) = Some p ->
  mapM to_timestamp (column_cells p df) = Ok ds ->
  exists out,
    upload text = Ok out
    /\ index_name out = Some "Date"%string
    /\ Permutation (labels out) (map (fun t => CDate (ts_date t)) ds)
    /\ Sorted cell_le (labels out).
Proof.
  intros Hread Hrect Hpos Hds.
  assert (Hrect' : rectangular (strip_columns df)).
  { intros r Hr. unfold strip_columns; cbn [columns]. rewrite length_map.
    now apply Hrect. }
  destruct (to_date_column_ok (strip_columns df) p ds Hrect' Hpos Hds)
    as (df1 & Hdf1 & Hpos1 & Hcells).
  assert (Hfinal : exists out,
             (df2 <- to_date_column to_timestamp "Date" (strip_columns df) ;;
              Ok (sort_index (set_index "Date" df2))) = Ok out
             /\ index_name out = Some "Date"%string
             /\ Permutation (labels out) (map (fun t => CDate (ts_date t)) ds)
             /\ Sorted cell_le (labels out)).
  { rewrite Hdf1. cbn [rbind]. eexists. split; [reflexivity|].
    unfold set_index. rewrite Hpos1. unfold sort_index, labels;
      cbn [index_name columns data].
    split; [reflexivity|]. split.
    - rewrite <- Hcells. unfold column_cells.
      replace (map (fun r : cell * list cell => nth p (snd r) (CStr "")) (data df1))
        with (map fst (map (fun r : cell * list cell =>
                              (nth p (snd r) (CStr ""), remove_nth p (snd r)))
                           (data df1)))
        by (rewrite map_map; reflexivity).
      apply Permutation_map. apply Permutation_sym. apply sort_by_perm.
    - apply (Sorted_map (fun r1 r2 : cell * list cell =>
                           cell_leb (fst r1) (fst r2) = true)).
      + intros x y H. exact H.
      + apply sort_by_sorted. intros x y. apply cell_leb_total. }
  unfold upload, parse_uploaded. unfold csv_source in Hread.
  destruct (find_header (Py.splitlines text)) as [i|]; rewrite Hread; cbn [rbind].
  - exact Hfinal.
  - rewrite (position_has_column _ _ _ Hpos). exact Hfinal.
Qed.

End UploadFacts.

Lemma parse_uploaded_sorted_witness :
  exists out,
    parse_uploaded csv_reader to_stamp
      ("Date ,Value" ++ NL ++ "2020-01-02,2.5" ++ NL ++ "2020-01-01,1.5" ++ NL)%string
    = Ok out
    /\ index_name out = Some "Date"%string
    /\ Sorted cell_le (labels out).
Proof.
  destruct (parse_uploaded_sorted csv_reader to_stamp
              ("Date ,Value" ++ NL ++ "2020-01-02,2.5" ++ NL ++ "2020-01-01,1.5" ++ NL)%string
              0%nat
              (mkdf None [("Date "%string, DateTime); ("Value"%string, Numeric)]
                 [(CInt 0, [CStamp (mkts (mkdate 2020 1 2) 0); CNum (Fin (Q2Qc (25 # 10)))]);
                  (CInt 1, [CStamp (mkts (mkdate 2020 1 1) 0); CNum (Fin (Q2Qc (15 # 10)))])])
              [mkts (mkdate 2020 1 2) 0; mkts (mkdate 2020 1 1) 0])
    as (out & Hout & Hname & _ & Hsorted).
  - vm_compute. reflexivity.
  - intros r [<-|[<-|[]]]; reflexivity.
  - reflexivity.
  - reflexivity.
  - exists out. auto.
Defined.

(** ** The header line and the text given to pandas *)

Lemma find_header_split (lines : list string) (i : nat) :
  find_header lines = Some i ->
  (i < List.length lines)%nat
  /\ Forall (fun l => is_header l = false) (firstn i lines)
  /\ exists h rest, skipn i lines = h :: rest /\ is_header h = true.
Proof.
  revert i. induction lines as [|l lines IH]; intros i.
  - discriminate.
  - rewrite find_header_cons. destruct (is_header l) eqn:El.
    + intros [= <-]. simpl. split; [lia|]. split; [constructor|].
      now exists l, lines.
    + destruct (find_header lines) as [i'|]; [|discriminate].
      intros [= <-]. destruct (IH i' eq_refl) as (Hlt & Hpre & h & rest & Hs & Hh).
      simpl. split; [lia|]. split; [now constructor|]. now exists h, rest.
Qed.

(** X7: when a header line is found its index is within the lines, no
    line before it is a header line, and the text given to [pd.read_csv]
    begins with the header line itself. *)
Theorem header_line_opens_data (text : string) (i : nat) :
  find_header (Py.splitlines text) = Some i ->
  (i < List.length (Py.splitlines text))%nat
  /\ Forall (fun l => is_header l = false) (firstn i (Py.splitlines text))
  /\ exists h rest,
       skipn i (Py.splitlines text) = h :: rest
       /\ is_header h = true
       /\ Py.startswith (csv_source text) h = true.
Proof.
  intros Hfind. destruct (find_header_split _ _ Hfind) as (Hlt & Hpre & h & rest & Hs & Hh).
  split; [exact Hlt|]. split; [exact Hpre|]. exists h, rest.
  split; [exact Hs|]. split; [exact Hh|].
  unfold csv_source. rewrite Hfind, Hs. apply startswith_iff.
  unfold Py.join. destruct rest as [|l rest]; simpl.
  - exists EmptyString. now rewrite append_nil_r.
  - eexists. reflexivity.
Qed.

Lemma header_line_opens_data_witness :
  find_header (Py.splitlines ("junk" ++ NL ++ "Date,Value" ++ NL ++ "2020-01-01,1" ++ NL)%string)
  = Some 1%nat
  /\ Py.startswith
       (csv_source ("junk" ++ NL ++ "Date,Value" ++ NL ++ "2020-01-01,1" ++ NL)%string)
       "Date,Value" = true.
Proof.
  split; [reflexivity|].
  destruct (header_line_opens_data
              ("junk" ++ NL ++ "Date,Value" ++ NL ++ "2020-01-01,1" ++ NL)%string 1%nat)
    as (_ & _ & h & rest & Hs & _ & Hstart); [reflexivity|].
  injection Hs as <- _. exact Hstart.
Defined.

Lemma no_linebreak_rev (acc s : string) :
  no_linebreak (Py.rev_string acc s) = no_linebreak s && no_linebreak acc.
Proof.
  revert acc. induction s as [|c s IH]; intros acc; simpl; [reflexivity|].
  rewrite IH. simpl. destruct (Py.is_linebreak c), (no_linebreak s); reflexivity.
Qed.

Lemma splitlines_from_clean (s : string) :
  (forall cur, no_linebreak cur = true ->
               Forall (fun l => no_linebreak l = true) (Py.splitlines_from cur s))
  /\ (forall c cur, no_linebreak cur = true ->
                    Forall (fun l => no_linebreak l = true)
                           (Py.splitlines_from cur (String c s))).
Proof.
  assert (Hrev : forall cur, no_linebreak cur = true ->
                             no_linebreak (Py.rev_string EmptyString cur) = true)
    by (intros cur H; now rewrite no_linebreak_rev, H).
  assert (Hend : forall cur, no_linebreak cur = true ->
                   Forall (fun l => no_linebreak l = true)
                          (Py.splitlines_from cur EmptyString)).
  { intros cur H. simpl. destruct cur; constructor; [|constructor].
    now apply Hrev. }
  induction s as [|a s [IH1 IH2]].
  - split; [exact Hend|]. intros c cur H. simpl.
    destruct (Py.is_linebreak c) eqn:E.
    + constructor; [now apply Hrev|constructor].
    + constructor; [|constructor]. apply (Hrev (String c cur)).
      simpl. now rewrite E, H.
  - split; [exact (IH2 a)|]. intros c cur H.
    cbn [Py.splitlines_from]. destruct (Py.is_linebreak c) eqn:E.
    + constructor; [now apply Hrev|].
      destruct ((Py.code c =? 13)%N && (Py.code a =? 10)%N);
        [now apply IH1|now apply IH2].
    + apply IH2. simpl. now rewrite E, H.
Qed.

Lemma splitlines_clean (text : string) :
  Forall (fun l => no_linebreak l = true) (Py.splitlines text).
Proof.
  now apply (proj1 (splitlines_from_clean text)).
Qed.

Lemma append_cons_nonempty (a : string) (c : ascii) (b : string) :
  (a ++ String c b)%string <> EmptyString.
Proof.
  destruct a; discriminate.
Qed.

Lemma splitlines_from_single (l cur : string) :
  no_linebreak l = true ->
  Py.splitlines_from cur l
  = match (Py.rev_string EmptyString cur ++ l)%string with
    | EmptyString => []
    | x => [x]
    end.
Proof.
  revert cur. induction l as [|c l IH]; intros cur Hnb.
  - rewrite append_nil_r. simpl. destruct cur as [|c cur]; [reflexivity|].
    simpl. rewrite (rev_string_acc (String c EmptyString)).
    destruct (Py.rev_string EmptyString cur ++ String c EmptyString)%string eqn:E;
      [|reflexivity].
    now apply append_cons_nonempty in E.
  - simpl in Hnb. apply andb_true_iff in Hnb. destruct Hnb as [Hc Hnb].
    apply negb_true_iff in Hc. cbn [Py.splitlines_from]. rewrite Hc.
    rewrite (IH _ Hnb). simpl.
    rewrite (rev_string_acc (String c EmptyString)), append_assoc. reflexivity.
Qed.

Lemma splitlines_join (ls : list string) :
  Forall (fun l => no_linebreak l = true) ls ->
  Py.splitlines (Py.join NL ls) = chomp ls.
Proof.
  induction 1 as [|l ls Hl Hls IH]; [reflexivity|].
  destruct ls as [|l2 ls].
  - change (Py.join NL [l]) with l. unfold Py.splitlines.
    rewrite splitlines_from_single by assumption. simpl. now destruct l.
  - change (Py.join NL (l :: l2 :: ls))
      with (l ++ NL ++ Py.join NL (l2 :: ls))%string.
    unfold Py.splitlines at 1.
    rewrite splitlines_from_line by assumption.
    cbn [Py.rev_string append]. rewrite IH. reflexivity.
Qed.

Lemma Forall_skipn_keep {A : Type} (P : A -> Prop) (n : nat) (l : list A) :
  Forall P l -> Forall P (skipn n l).
Proof.
  revert l. induction n as [|n IH]; intros l H; [exact H|].
  destruct H; simpl; [constructor|now apply IH].
Qed.

(** X8: no line that [splitlines] returns holds a line boundary, and
    joining the lines from any index on with a newline gives a text that
    splits back into those very lines, less a last line that is empty: the
    text given to [pd.read_csv] on the header path has the lines of the
    input from the header on, with every line end turned into a newline. *)
Theorem rejoined_lines_split_back (text : string) (i : nat) :
  Forall (fun l => no_linebreak l = true) (Py.splitlines text)
  /\ Py.splitlines (Py.join NL (skipn i (Py.splitlines text)))
     = chomp (skipn i (Py.splitlines text)).
Proof.
  split; [apply splitlines_clean|].
  apply splitlines_join. apply Forall_skipn_keep. apply splitlines_clean.
Qed.

(** ** What counts as a header line *)

Lemma is_space_lower (c : ascii) : Py.is_space (Py.lower_char c) = Py.is_space c.
Proof.
  destruct c as [[] [] [] [] [] [] [] []]; reflexivity.
Qed.

Lemma lstrip_lower (s : string) : Py.lstrip (Py.lower s) = Py.lower (Py.lstrip s).
Proof.
  induction s as [|c s IH]; [reflexivity|].
  cbn [Py.lower Py.lstrip]. rewrite is_space_lower.
  destruct (Py.is_space c); [exact IH|reflexivity].
Qed.

Lemma rstrip_lower (s : string) : Py.rstrip (Py.lower s) = Py.lower (Py.rstrip s).
Proof.
  induction s as [|c s IH]; [reflexivity|].
  cbn [Py.lower Py.rstrip]. rewrite IH, is_space_lower.
  destruct (Py.rstrip s); cbn [Py.lower]; [|reflexivity].
  now destruct (Py.is_space c).
Qed.

Lemma strip_lower (s : string) : Py.strip (Py.lower s) = Py.lower (Py.strip s).
Proof.
  unfold Py.strip. now rewrite lstrip_lower, rstrip_lower.
Qed.

Lemma lstrip_pad (pad s : string) :
  all_space pad = true -> Py.lstrip (pad ++ s) = Py.lstrip s.
Proof.
  induction pad as [|c pad IH]; simpl; [reflexivity|].
  intros H. apply andb_true_iff in H. destruct H as [Hc Hp].
  rewrite Hc. now apply IH.
Qed.

Lemma rstrip_all_space (pad : string) :
  all_space pad = true -> Py.rstrip pad = EmptyString.
Proof.
  induction pad as [|c pad IH]; simpl; [reflexivity|].
  intros H. apply andb_true_iff in H. destruct H as [Hc Hp].
  now rewrite (IH Hp), Hc.
Qed.

Lemma rstrip_pad (s pad : string) :
  all_space pad = true -> Py.rstrip (s ++ pad) = Py.rstrip s.
Proof.
  intros Hp. induction s as [|c s IH]; simpl.
  - now apply rstrip_all_space.
  - now rewrite IH.
Qed.

Lemma strip_pad (pad1 line pad2 : string) :
  all_space pad1 = true -> all_space pad2 = true ->
  Py.strip (pad1 ++ line ++ pad2) = Py.strip line.
Proof.
  intros H1 H2. unfold Py.strip. rewrite lstrip_pad by assumption.
  induction line as [|c line IH]; simpl.
  - rewrite <- (append_nil_r pad2), lstrip_pad by assumption. reflexivity.
  - destruct (Py.is_space c); [exact IH|].
    change (String c (line ++ pad2))%string with (String c line ++ pad2)%string.
    now apply rstrip_pad.
Qed.

(** X9: whether a line is a header line does not depend on the case of its
    letters nor on whitespace around it. *)
Theorem is_header_case_and_padding :
  (forall a b, Py.lower a = Py.lower b -> is_header a = is_header b)
  /\ (forall pad1 line pad2,
        all_space pad1 = true -> all_space pad2 = true ->
        is_header (pad1 ++ line ++ pad2) = is_header line).
Proof.
  unfold is_header. split.
  - intros a b H. now rewrite <- !strip_lower, H.
  - intros pad1 line pad2 H1 H2. now rewrite strip_pad.
Qed.

Lemma is_header_case_and_padding_witness :
  is_header "DATE,Value" = is_header "date,value"
  /\ is_header ("  " ++ "DaTe,Value" ++ " ") = is_header "DaTe,Value".
Proof.
  destruct is_header_case_and_padding as [Hcase Hpad]. split.
  - apply Hcase. reflexivity.
  - apply Hpad; reflexivity.
Defined.

Lemma main_view_date_objects_witness :
  kind (mkframe DateObjects [(mkdate 2020 1 1, Qc_of_Z 10)]) = DateObjects
  /\ exists e,
       snd (main_view
              (mkopts [mkdate 2020 1 1; mkdate 2020 1 31] true Bar true (Some 7%nat)
                      freq_None true true)
              (mkframe DateObjects [(mkdate 2020 1 1, Qc_of_Z 10)]) [])
       = Raise e.
Proof.
  split; [reflexivity|].
  apply (main_view_date_objects
           (mkopts [mkdate 2020 1 1; mkdate 2020 1 31] true Bar true (Some 7%nat)
                   freq_None true true)
           (mkframe DateObjects [(mkdate 2020 1 1, Qc_of_Z 10)]) []).
  reflexivity.
Defined.

(** ** The sidebar and the filter *)

Lemma index_min_spec (l : list date) (m : date) :
  index_min l = Some m ->
  In m l /\ forall x, In x l -> date_leb m x = true.
Proof.
  revert m. induction l as [|a l IH]; intros m; simpl; [discriminate|].
  destruct (index_min l) as [m'|] eqn:E.
  - destruct (IH m' eq_refl) as [Hin Hle].
    destruct (date_leb a m') eqn:Ea; intros [= <-].
    + split; [now left|]. intros x [<-|Hx]; [apply date_leb_refl|].
      apply (date_leb_trans _ m'); [exact Ea|now apply Hle].
    + split; [now right|]. intros x [<-|Hx]; [|now apply Hle].
      destruct (date_leb_total m' a) as [H|H]; [exact H|congruence].
  - intros [= <-]. destruct l; [|simpl in E; destruct (index_min l); discriminate].
    split; [now left|]. intros x [<-|[]]. apply date_leb_refl.
Qed.

Lemma index_max_spec (l : list date) (m : date) :
  index_max l = Some m ->
  In m l /\ forall x, In x l -> date_leb x m = true.
Proof.
  revert m. induction l as [|a l IH]; intros m; simpl; [discriminate|].
  destruct (index_max l) as [m'|] eqn:E.
  - destruct (IH m' eq_refl) as [Hin Hle].
    destruct (date_leb m' a) eqn:Ea; intros [= <-].
    + split; [now left|]. intros x [<-|Hx]; [apply date_leb_refl|].
      apply (date_leb_trans _ m'); [now apply Hle|exact Ea].
    + split; [now right|]. intros x [<-|Hx]; [|now apply Hle].
      destruct (date_leb_total a m') as [H|H]; [exact H|congruence].
  - intros [= <-]. destruct l; [|simpl in E; destruct (index_max l); discriminate].
    split; [now left|]. intros x [<-|[]]. apply date_leb_refl.
Qed.

Lemma index_bounds_exist (l : list date) :
  l <> [] -> exists lo hi, index_min l = Some lo /\ index_max l = Some hi.
Proof.
  destruct l as [|a l]; [contradiction|]. intros _. simpl.
  destruct (index_min l), (index_max l); eexists; eexists; split; reflexivity.
Qed.

Lemma filter_all {A : Type} (f : A -> bool) (l : list A) :
  (forall x, In x l -> f x = true) -> filter f l = l.
Proof.
  induction l as [|x l IH]; simpl; intros H; [reflexivity|].
  rewrite (H x (or_introl eq_refl)), IH; [reflexivity|].
  intros y Hy. apply H. now right.
Qed.

Lemma default_range_keeps_all (df : frame) :
  rows df <> [] ->
  exists lo hi,
    index_min (dates df) = Some lo /\ index_max (dates df) = Some hi
    /\ In lo (dates df) /\ In hi (dates df)
    /\ filter_view lo hi df = df.
Proof.
  intros Hne.
  destruct (index_bounds_exist (dates df)) as (lo & hi & Hlo & Hhi).
  { unfold dates. destruct (rows df); [contradiction|discriminate]. }
  destruct (index_min_spec _ _ Hlo) as [Hlo_in Hlo_le].
  destruct (index_max_spec _ _ Hhi) as [Hhi_in Hhi_le].
  exists lo, hi. repeat (split; [assumption|]).
  assert (Hrows : rows (filter_view lo hi df) = rows df).
  { rewrite filter_view_rows. apply filter_all. intros [dd v] Hin.
    unfold in_range; cbn [fst].
    assert (Hd : In dd (dates df)) by (unfold dates; now apply (in_map fst) in Hin).
    now rewrite (Hlo_le dd Hd), (Hhi_le dd Hd). }
  destruct df as [k rs]. unfold filter_view in *. cbn [kind rows] in *.
  now rewrite Hrows.
Qed.

(** X10: while the date widget is untouched, the range the sidebar returns
    for a table with rows runs from the earliest to the latest date of the
    table, and filtering by it gives back the whole table, rows and order
    unchanged. *)
Theorem sidebar_default_range_keeps_all (ui : widgets) (df : frame) :
  w_date_range ui = None -> rows df <> [] ->
  exists opts lo hi,
    sidebar_controls ui df = Some opts
    /\ date_range opts = [lo; hi]
    /\ In lo (dates df) /\ In hi (dates df)
    /\ (forall x, In x (dates df) -> date_le lo x /\ date_le x hi)
    /\ filter_view lo hi df = df.
Proof.
  intros Hui Hne.
  destruct (default_range_keeps_all df Hne) as (lo & hi & Hlo & Hhi & Hl & Hh & Hf).
  unfold sidebar_controls. rewrite Hlo, Hhi, Hui.
  eexists. exists lo, hi. split; [reflexivity|]. cbn [date_range widget].
  split; [reflexivity|]. repeat (split; [assumption|]). split; [|exact Hf].
  intros x Hx. split.
  - now apply (proj2 (index_min_spec _ _ Hlo)).
  - now apply (proj2 (index_max_spec _ _ Hhi)).
Qed.

Lemma sidebar_default_range_keeps_all_witness :
  exists opts,
    sidebar_controls untouched
      (mkframe DateObjects
         [(mkdate 2020 1 1, Qc_of_Z 10); (mkdate 2020 3 5, Qc_of_Z 20)]) = Some opts
    /\ date_range opts = [mkdate 2020 1 1; mkdate 2020 3 5].
Proof.
  destruct (sidebar_default_range_keeps_all untouched
              (mkframe DateObjects
                 [(mkdate 2020 1 1, Qc_of_Z 10); (mkdate 2020 3 5, Qc_of_Z 20)]))
    as (opts & lo & hi & Hopts & Hrange & _); [reflexivity|discriminate|].
  exists opts. split; [exact Hopts|].
  cbv in Hopts. injection Hopts as <-. reflexivity.
Defined.

(** X15: the sidebar returns a rolling window exactly when the smoothing
    box is ticked, so the chart gets its overlay exactly then: ticked, with
    a slider that yields values from 2 to 60, the window is in that range
    and the overlay is the rolling mean of the view; unticked, there is no
    window and no overlay. *)
Theorem overlay_iff_smoothing (ui : widgets) (df view : frame) (opts : options) :
  sidebar_controls ui df = Some opts ->
  (forall w, w_window ui = Some w -> (2 <= w <= 60)%nat) ->
  (smoothing opts = true ->
   exists w, rolling_window opts = Some w /\ (2 <= w <= 60)%nat
             /\ rolling_overlay opts view
                = Some (combine (dates view) (rolling_mean w 1 (values view))))
  /\ (smoothing opts = false ->
      rolling_window opts = None /\ rolling_overlay opts view = None).
Proof.
  unfold sidebar_controls.
  destruct (index_min (dates df)) as [lo|]; [|discriminate].
  destruct (index_max (dates df)) as [hi|]; [|discriminate].
  intros [= <-] Hslider. unfold rolling_overlay. cbn [smoothing rolling_window].
  assert (Hw : (2 <= widget (w_window ui) 7 <= 60)%nat).
  { destruct (w_window ui) as [w|] eqn:E; cbn [widget]; [now apply Hslider|lia]. }
  destruct (widget (w_smoothing ui) false); split; intros Hs; try discriminate.
  - exists (widget (w_window ui) 7%nat). split; [reflexivity|]. split; [exact Hw|].
    destruct (widget (w_window ui) 7%nat); [lia|reflexivity].
  - split; reflexivity.
Qed.

Lemma overlay_iff_smoothing_witness :
  exists opts,
    sidebar_controls
      (mkwidgets None None None (Some true) (Some 3%nat) None None None)
      (mkframe DateObjects [(mkdate 2020 1 1, Qc_of_Z 10)]) = Some opts
    /\ rolling_window opts = Some 3%nat.
Proof.
  eexists. split; [reflexivity|].
  destruct (overlay_iff_smoothing
              (mkwidgets None None None (Some true) (Some 3%nat) None None None)
              (mkframe DateObjects [(mkdate 2020 1 1, Qc_of_Z 10)])
              (mkframe DateObjects [(mkdate 2020 1 1, Qc_of_Z 10)])
              _ eq_refl) as [Hon _].
  - intros w [= <-]. lia.
  - destruct (Hon eq_refl) as (w & Hw & _). reflexivity.
Defined.

Lemma filter_twice {A : Type} (f g : A -> bool) (l : list A) :
  filter g (filter f l) = filter (fun x => f x && g x) l.
Proof.
  induction l as [|x l IH]; simpl; [reflexivity|].
  destruct (f x); simpl; [|exact IH].
  destruct (g x); now rewrite IH.
Qed.

Lemma row_le_trans : Relations_1.Transitive row_le.
Proof.
  intros a b c. unfold row_le. apply date_leb_trans.
Qed.

Lemma StronglySorted_filter {A : Type} (R : A -> A -> Prop) (f : A -> bool)
      (l : list A) :
  StronglySorted R l -> StronglySorted R (filter f l).
Proof.
  induction 1 as [|x l Hs IH Hall]; simpl; [constructor|].
  destruct (f x); [|exact IH]. constructor; [exact IH|].
  rewrite Forall_forall in *. intros y Hy. apply Hall.
  apply filter_In in Hy. tauto.
Qed.

Lemma frame_eq (a b : frame) : kind a = kind b -> rows a = rows b -> a = b.
Proof.
  destruct a, b; simpl. now intros -> ->.
Qed.

(** X11: filtering twice keeps the rows that are in both ranges, so the
    filter applied twice with one range is the filter applied once, and two
    filters can be applied in either order; the filter never adds a row, and
    it keeps a table sorted by date sorted. *)
Theorem filter_view_compose (s1 e1 s2 e2 : date) (df : frame) :
  rows (filter_view s2 e2 (filter_view s1 e1 df))
  = filter (fun row => in_range s1 e1 row && in_range s2 e2 row) (rows df)
  /\ filter_view s1 e1 (filter_view s1 e1 df) = filter_view s1 e1 df
  /\ filter_view s2 e2 (filter_view s1 e1 df)
     = filter_view s1 e1 (filter_view s2 e2 df)
  /\ (List.length (rows (filter_view s1 e1 df)) <= List.length (rows df))%nat
  /\ (Sorted row_le (rows df) -> Sorted row_le (rows (filter_view s1 e1 df))).
Proof.
  assert (Htwice : forall a b c d,
             rows (filter_view c d (filter_view a b df))
             = filter (fun row => in_range a b row && in_range c d row) (rows df)).
  { intros a b c d. now rewrite !filter_view_rows, filter_twice. }
  split; [apply Htwice|]. split; [|split; [|split]].
  - apply frame_eq; [reflexivity|]. rewrite Htwice, filter_view_rows.
    apply filter_ext. intros row. now destruct (in_range s1 e1 row).
  - apply frame_eq; [reflexivity|]. rewrite !Htwice.
    apply filter_ext. intros row. apply andb_comm.
  - rewrite filter_view_rows. apply filter_length_le.
  - intros Hs. rewrite filter_view_rows. apply StronglySorted_Sorted.
    apply StronglySorted_filter. now apply (Sorted_StronglySorted row_le_trans).
Qed.

Lemma filter_view_compose_witness :
  Sorted row_le
    (rows (mkframe DateObjects
             [(mkdate 2020 1 1, Qc_of_Z 10); (mkdate 2020 1 2, Qc_of_Z 20);
              (mkdate 2020 2 1, Qc_of_Z 30)]))
  /\ Sorted row_le
       (rows (filter_view (mkdate 2020 1 2) (mkdate 2020 12 31)
                (mkframe DateObjects
                   [(mkdate 2020 1 1, Qc_of_Z 10); (mkdate 2020 1 2, Qc_of_Z 20);
                    (mkdate 2020 2 1, Qc_of_Z 30)]))).
Proof.
  assert (Hs : Sorted row_le
                 (rows (mkframe DateObjects
                          [(mkdate 2020 1 1, Qc_of_Z 10); (mkdate 2020 1 2, Qc_of_Z 20);
                           (mkdate 2020 2 1, Qc_of_Z 30)])))
    by (repeat constructor).
  split; [exact Hs|].
  destruct (filter_view_compose (mkdate 2020 1 2) (mkdate 2020 12 31)
              (mkdate 2020 1 2) (mkdate 2020 12 31)
              (mkframe DateObjects
                 [(mkdate 2020 1 1, Qc_of_Z 10); (mkdate 2020 1 2, Qc_of_Z 20);
                  (mkdate 2020 2 1, Qc_of_Z 30)])) as (_ & _ & _ & _ & H).
  exact (H Hs).
Defined.

(** ** Runs of the page *)

(** X12: a date range that does not hold exactly two dates, as the date
    widget returns while only one end has been picked, makes the unpacking
    of line 114 raise [ValueError] before anything is written. *)
Theorem main_view_needs_two_dates (opts : options) (df : frame)
        (out : list element) :
  List.length (date_range opts) <> 2%nat ->
  main_view opts df out = (out, Raise ValueError).
Proof.
  intros Hlen. unfold main_view.
  destruct (date_range opts) as [|a [|b [|c l]]]; try reflexivity.
  simpl in Hlen. lia.
Qed.

Lemma main_view_needs_two_dates_witness :
  main_view (mkopts [mkdate 2020 1 1] true Line false None freq_None false false)
            (mkframe DateObjects [(mkdate 2020 1 1, Qc_of_Z 10)]) []
  = ([], Raise ValueError).
Proof.
  apply main_view_needs_two_dates. simpl. lia.
Defined.

Lemma iloc_last_nonempty {A : Type} (l : list A) :
  l <> [] -> exists x, iloc_last l = Ok x.
Proof.
  intros H. destruct (exists_last H) as (init & x & ->).
  exists x. apply iloc_last_app.
Qed.

Lemma summarize_ok (df : frame) :
  rows df <> [] ->
  exists st, summarize df = Ok st /\ row_count st = List.length (rows df).
Proof.
  intros Hne. unfold summarize, values.
  destruct (rows df) as [|[d0 v0] rs] eqn:E; [contradiction|].
  destruct (iloc_last_nonempty (map snd ((d0, v0) :: rs))) as [x ->];
    [discriminate|].
  destruct (iloc_last_nonempty (pct_change (map snd ((d0, v0) :: rs)))) as [y ->];
    [discriminate|].
  eexists. split; reflexivity.
Qed.

(** X14: the first run of the script on a table with rows, as the loader
    builds it (an index of [datetime.date] objects), with no widget touched:
    the page shows the line chart of the whole table without overlay, the
    metric and the row count, and then ends with the [TypeError] of the
    monthly means of line 165; the table and the download button are never
    reached. *)
Theorem first_run_page (df : frame) :
  kind df = DateObjects -> rows df <> [] ->
  exists opts st,
    sidebar_controls untouched df = Some opts
    /\ summarize df = Ok st
    /\ main_view opts df []
       = ([Chart Line (map (fun row => (fst row, Fin (snd row))) (rows df)) None;
           Metric (last_value st) (percent_change st);
           RowCount (List.length (rows df))],
          Raise TypeError).
Proof.
  intros Hk Hne.
  destruct (default_range_keeps_all df Hne) as (lo & hi & Hlo & Hhi & _ & _ & Hf).
  destruct (summarize_ok df Hne) as (st & Hst & Hn).
  unfold sidebar_controls. rewrite Hlo, Hhi.
  eexists. exists st. split; [reflexivity|]. split; [exact Hst|].
  unfold main_view, untouched. cbn [widget w_date_range w_show_table w_chart
    w_smoothing w_window w_resample w_hist w_box date_range show_table chart
    smoothing rolling_window resample_freq show_hist show_box].
  unfold pbind at 1. cbn [lift unpack2 fst snd]. rewrite Hf.
  assert (Hm : monthly_means df 12 = Raise TypeError)
    by (unfold monthly_means, resample_mean; now rewrite Hk).
  unfold pbind, lift, emit, when, pret, rolling_overlay, resample.
  cbn [rule_of smoothing]. rewrite Hst, Hm, Hn. reflexivity.
Qed.

Lemma first_run_page_witness :
  main_view (mkopts [mkdate 2020 1 1; mkdate 2020 1 2] true Line false None
                    freq_None false false)
            (mkframe DateObjects
               [(mkdate 2020 1 1, Qc_of_Z 10); (mkdate 2020 1 2, Qc_of_Z 20)]) []
  = ([Chart Line [(mkdate 2020 1 1, Fin (Qc_of_Z 10)); (mkdate 2020 1 2, Fin (Qc_of_Z 20))]
            None;
      Metric (Qc_of_Z 20)
             (fmul (fsub (fdiv (Fin (Qc_of_Z 20)) (Fin (Qc_of_Z 10))) (Fin 1%Qc))
                   (Fin (Qc_of_Z 100)));
      RowCount 2],
     Raise TypeError).
Proof.
  destruct (first_run_page
              (mkframe DateObjects
                 [(mkdate 2020 1 1, Qc_of_Z 10); (mkdate 2020 1 2, Qc_of_Z 20)]))
    as (opts & st & Hopts & Hst & Hrun); [reflexivity|discriminate|].
  cbv [sidebar_controls untouched] in Hopts. cbn in Hopts.
  injection Hopts as <-.
  unfold summarize in Hst. cbn in Hst. injection Hst as <-.
  exact Hrun.
Defined.

(** ** Counts as rationals, and sublists *)

Lemma Qc_of_nat_S (n : nat) : Qc_of_nat (S n) = (Qc_of_nat n + 1)%Qc.
Proof.
  unfold Qc_of_nat, Qc_of_Z, Qcplus. apply Q2Qc_eq_iff.
  cbn [this Q2Qc]. rewrite Qred_correct, Nat2Z.inj_succ. unfold Z.succ.
  rewrite inject_Z_plus. reflexivity.
Qed.

Lemma Qc_of_nat_pos (n : nat) : (0 < Qc_of_nat (S n))%Qc.
Proof.
  unfold Qclt, Qc_of_nat, Qc_of_Z. cbn [this Q2Qc]. rewrite !Qred_correct.
  change 0%Q with (inject_Z 0). rewrite <- Zlt_Qlt. lia.
Qed.

Lemma In_skipn_keep {A : Type} (n : nat) (l : list A) (x : A) :
  In x (skipn n l) -> In x l.
Proof.
  revert l. induction n as [|n IH]; intros l; [trivial|].
  destruct l as [|y l]; simpl; [trivial|]. intros H. right. now apply IH.
Qed.

(** ** The two loaders side by side *)

Lemma insert_by_map {A B : Type} (g : A -> B) (leb : A -> A -> bool)
      (leb' : B -> B -> bool) (x : A) (l : list A) :
  (forall a b, leb' (g a) (g b) = leb a b) ->
  insert_by leb' (g x) (map g l) = map g (insert_by leb x l).
Proof.
  intros H. induction l as [|y l IH]; simpl; [reflexivity|].
  rewrite H. destruct (leb x y); simpl; [reflexivity|]. now rewrite IH.
Qed.

Lemma sort_by_map {A B : Type} (g : A -> B) (leb : A -> A -> bool)
      (leb' : B -> B -> bool) (l : list A) :
  (forall a b, leb' (g a) (g b) = leb a b) ->
  sort_by leb' (map g l) = map g (sort_by leb l).
Proof.
  intros H. induction l as [|x l IH]; simpl; [reflexivity|].
  rewrite IH. now apply insert_by_map.
Qed.

Lemma sort_then_index (df : DataFrame) (p : nat) :
  position "Date" (column_names df) = Some p ->
  set_index "Date" (sort_values "Date" df) = sort_index (set_index "Date" df).
Proof.
  intros E. unfold sort_values, set_index, sort_index. rewrite E.
  unfold column_names in *; cbn [columns index_name data]. rewrite E.
  f_equal. symmetry. now apply sort_by_map.
Qed.

Lemma to_date_column_names (to_timestamp : cell -> result timestamp)
      (name : string) (df df1 : DataFrame) :
  to_date_column to_timestamp name df = Ok df1 ->
  column_names df1 = column_names df /\ index_name df1 = index_name df
  /\ exists p, position name (column_names df) = Some p.
Proof.
  unfold to_date_column.
  destruct (position name (column_names df)) as [p|]; [|discriminate].
  destruct (mapM _ (data df)) as [ds|]; [|discriminate].
  cbn [rbind]. intros [= <-]. unfold column_names; cbn [columns index_name].
  rewrite update_nth_names. split; [reflexivity|]. split; [reflexivity|].
  now exists p.
Qed.

Section BothLoaders.

Variable read_csv : string -> result DataFrame.
Variable to_timestamp : cell -> result timestamp.

Let load := load_csv_auto read_csv to_timestamp.
Let upload := parse_uploaded read_csv to_timestamp.

Lemma loaders_agree (text : string) (i : nat) :
  find_header (Py.splitlines text) = Some i ->
  (forall df, read_csv (Py.join NL (skipn i (Py.splitlines text))) = Ok df ->
              has_column "Date" (strip_columns df) = true) ->
  load text = upload text.
Proof.
  intros Hfind Hdate. unfold load, upload, load_csv_auto, parse_uploaded.
  rewrite Hfind.
  destruct (read_csv (Py.join NL (skipn i (Py.splitlines text)))) as [df|e];
    [|reflexivity].
  cbn [rbind]. rewrite (Hdate df eq_refl).
  destruct (to_date_column to_timestamp "Date" (strip_columns df)) as [df1|e] eqn:E;
    [|reflexivity].
  cbn [rbind]. destruct (to_date_column_names _ _ _ _ E) as (Hn & _ & p & Hp).
  rewrite (sort_then_index df1 p); [reflexivity|]. now rewrite Hn.
Qed.

(** X22: on a text with a header line whose table has a column named
    [Date], [load_csv_auto] and the upload branch end alike: both with the
    same exception, or both with a table of the same index name, the same
    columns, the same labels in the same order and the same rows. *)
Theorem loaders_agree_on_header_path (text : string) (i : nat) :
  find_header (Py.splitlines text) = Some i ->
  (forall df, read_csv (Py.join NL (skipn i (Py.splitlines text))) = Ok df ->
              has_column "Date" (strip_columns df) = true) ->
  match load text, upload text with
  | Ok a, Ok b =>
      index_name a = index_name b /\ columns a = columns b
      /\ labels a = labels b /\ Permutation (data a) (data b)
  | Raise e, Raise e' => e = e'
  | _, _ => False
  end.
Proof.
  intros Hfind Hdate. rewrite (loaders_agree text i Hfind Hdate).
  destruct (upload text); auto.
Qed.

End BothLoaders.

Lemma loaders_agree_on_header_path_witness :
  exists a b,
    load_csv_auto csv_reader to_stamp
      ("Date,Value" ++ NL ++ "2020-01-02,2.5" ++ NL ++ "2020-01-01,1.5" ++ NL)%string
    = Ok a
    /\ parse_uploaded csv_reader to_stamp
         ("Date,Value" ++ NL ++ "2020-01-02,2.5" ++ NL ++ "2020-01-01,1.5" ++ NL)%string
       = Ok b
    /\ labels a = labels b.
Proof.
  pose proof (loaders_agree_on_header_path csv_reader to_stamp
                ("Date,Value" ++ NL ++ "2020-01-02,2.5" ++ NL ++ "2020-01-01,1.5" ++ NL)%string
                0%nat eq_refl) as H.
  assert (Hd : forall df,
             csv_reader (Py.join NL (skipn 0 (Py.splitlines
               ("Date,Value" ++ NL ++ "2020-01-02,2.5" ++ NL ++ "2020-01-01,1.5" ++ NL)%string)))
             = Ok df ->
             has_column "Date" (strip_columns df) = true).
  { intros df Hdf. vm_compute in Hdf. injection Hdf as <-. reflexivity. }
  specialize (H Hd).
  eexists. eexists. split; [vm_compute; reflexivity|].
  split; [vm_compute; reflexivity|].
  vm_compute in H. destruct H as (_ & _ & Hl & _). exact Hl.
Defined.

(** ** Column names come out stripped *)

Lemma rstrip_cons (c : ascii) (s : string) :
  Py.rstrip (String c s)
  = match Py.rstrip s with
    | EmptyString => if Py.is_space c then EmptyString else String c EmptyString
    | r => String c r
    end.
Proof. reflexivity. Qed.

Lemma rstrip_idem (s : string) : Py.rstrip (Py.rstrip s) = Py.rstrip s.
Proof.
  induction s as [|c s IH]; [reflexivity|].
  rewrite rstrip_cons. destruct (Py.rstrip s) as [|x y] eqn:E.
  - destruct (Py.is_space c) eqn:Ec; [reflexivity|].
    rewrite rstrip_cons. cbn [Py.rstrip]. now rewrite Ec.
  - rewrite rstrip_cons, IH. reflexivity.
Qed.

Lemma lstrip_head (s : string) :
  Py.lstrip s = EmptyString
  \/ exists c r, Py.lstrip s = String c r /\ Py.is_space c = false.
Proof.
  induction s as [|c s IH]; [now left|].
  cbn [Py.lstrip]. destruct (Py.is_space c) eqn:E; [exact IH|].
  right. now exists c, s.
Qed.

Lemma rstrip_head (c : ascii) (r : string) :
  Py.is_space c = false -> exists r', Py.rstrip (String c r) = String c r'.
Proof.
  intros Hc. cbn [Py.rstrip]. destruct (Py.rstrip r).
  - rewrite Hc. now eexists.
  - now eexists.
Qed.

Lemma strip_idem (s : string) : Py.strip (Py.strip s) = Py.strip s.
Proof.
  unfold Py.strip. destruct (lstrip_head s) as [->|(c & r & -> & Hc)];
    [reflexivity|].
  destruct (rstrip_head c r Hc) as [r' E]. rewrite E.
  cbn [Py.lstrip]. rewrite Hc, <- E. apply rstrip_idem.
Qed.

Lemma Forall_remove_nth {A : Type} (P : A -> Prop) (p : nat) (l : list A) :
  Forall P l -> Forall P (remove_nth p l).
Proof.
  intros H. revert p. induction H as [|x l Hx Hl IH]; intros p;
    [now destruct p|].
  destruct p as [|p]; simpl; [exact Hl|]. constructor; [exact Hx|apply IH].
Qed.

Lemma remove_nth_names (p : nat) (cols : list (string * dtype)) :
  map fst (remove_nth p cols) = remove_nth p (map fst cols).
Proof.
  revert p. induction cols as [|c cols IH]; intros p; [now destruct p|].
  destruct p as [|p]; simpl; [reflexivity|]. now rewrite IH.
Qed.

Lemma stripped_strip_columns (df : DataFrame) : stripped (strip_columns df).
Proof.
  unfold stripped, column_names, strip_columns; cbn [columns].
  rewrite map_map; cbn [fst]. apply Forall_forall. intros n Hn.
  apply in_map_iff in Hn. destruct Hn as (c & <- & _). apply strip_idem.
Qed.

Lemma stripped_set_index (name : string) (df : DataFrame) :
  stripped df -> stripped (set_index name df).
Proof.
  unfold stripped, set_index, column_names.
  destruct (position name (map fst (columns df))); [|trivial].
  cbn [columns]. rewrite remove_nth_names. apply Forall_remove_nth.
Qed.

Section StrippedNames.

Variable read_csv : string -> result DataFrame.
Variable to_timestamp : cell -> result timestamp.

Lemma stripped_to_date_column (name : string) (df df1 : DataFrame) :
  to_date_column to_timestamp name df = Ok df1 -> stripped df -> stripped df1.
Proof.
  intros E H. unfold stripped.
  now rewrite (proj1 (to_date_column_names _ _ _ _ E)).
Qed.

(** X21: every column name of a table returned by [load_csv_auto] or by the
    upload branch is free of whitespace at both ends, whatever pandas read:
    stripping it again changes nothing. *)
Theorem loaded_names_are_stripped (text : string) (out : DataFrame) :
  load_csv_auto read_csv to_timestamp text = Ok out
  \/ parse_uploaded read_csv to_timestamp text = Ok out ->
  Forall (fun n => Py.strip n = n) (column_names out).
Proof.
  assert (Hidx : forall df,
             (df1 <- to_date_column to_timestamp "Date" (strip_columns df) ;;
              Ok (sort_index (set_index "Date" df1))) = Ok out ->
             stripped out).
  { intros df. destruct (to_date_column _ _ (strip_columns df)) as [df1|] eqn:E;
      [|discriminate].
    cbn [rbind]. intros [= <-].
    apply (stripped_set_index "Date"
             _ (stripped_to_date_column _ _ _ E (stripped_strip_columns df))). }
  unfold load_csv_auto, parse_uploaded. intros [H|H].
  - destruct (find_header (Py.splitlines text)) as [i|];
      destruct (read_csv _) as [df|]; try discriminate; cbn [rbind] in H.
    + destruct (has_column "Date" (strip_columns df)).
      * destruct (to_date_column _ _ (strip_columns df)) as [df1|] eqn:E;
          [|discriminate].
        cbn [rbind] in H. injection H as <-.
        apply (stripped_set_index "Date" (sort_values "Date" df1)).
        unfold stripped, sort_values, column_names.
        destruct (position _ _); cbn [columns];
          apply (stripped_to_date_column _ _ _ E (stripped_strip_columns df)).
      * injection H as <-. apply stripped_strip_columns.
    + injection H as <-. apply stripped_strip_columns.
  - destruct (find_header (Py.splitlines text)) as [i|];
      destruct (read_csv _) as [df|]; try discriminate; cbn [rbind] in H.
    + now apply (Hidx df).
    + destruct (has_column "Date" (strip_columns df)); [now apply (Hidx df)|].
      injection H as <-. apply stripped_strip_columns.
Qed.

End StrippedNames.

Lemma loaded_names_are_stripped_witness :
  Forall (fun n => Py.strip n = n)
         (column_names
            (mkdf None [("Date"%string, DateTime); ("Value"%string, Numeric)]
               [(CInt 0, [CStamp (mkts (mkdate 2020 1 2) 0); CNum (Fin (Q2Qc (25 # 10)))])])).
Proof.
  apply (loaded_names_are_stripped csv_reader to_stamp
           (" Date , Value " ++ NL ++ "2020-01-02,2.5" ++ NL)%string).
  left. vm_compute. reflexivity.
Defined.

(** * The value column in both arithmetics *)

(** ** Percent change *)

Section SeriesFacts.

Variable A : arith.

Lemma ffill_from_app (p : num A) (l1 l2 : list (num A)) :
  Series.ffill_from A p (l1 ++ l2)
  = Series.ffill_from A p l1
    ++ Series.ffill_from A (List.last (Series.ffill_from A p l1) p) l2.
Proof.
  revert p. induction l1 as [|x l1 IH]; intros p; [reflexivity|].
  cbn [app Series.ffill_from]. rewrite IH. f_equal.
  now rewrite last_cons_default.
Qed.

Lemma ffill_from_last (p : num A) (l : list (num A)) :
  List.last (Series.ffill_from A p l) p
  = match find (fun x => negb (Series.isna A x)) (rev l) with
    | Some v => v
    | None => p
    end.
Proof.
  induction l as [|x l IH] using rev_ind; [reflexivity|].
  rewrite ffill_from_app, rev_app_distr. cbn [rev app find Series.ffill_from].
  rewrite last_last. destruct (Series.isna A x); simpl; [exact IH|reflexivity].
Qed.

Lemma zip_with_last (f : num A -> num A -> num A) (d s : list (num A))
      (a b : num A) :
  List.length d = List.length s ->
  iloc_last (Series.zip_with A f (d ++ [a]) (s ++ [b])) = Ok (f a b).
Proof.
  revert s. induction d as [|x d IH]; intros [|y s] H; try discriminate.
  - reflexivity.
  - cbn [app Series.zip_with]. injection H as H. specialize (IH s H).
    cbn [iloc_last]. rewrite IH.
    destruct d, s; try discriminate; reflexivity.
Qed.

(** The percent change at the last position of a series with rows. *)
Lemma pct_change_last (xs : list (num A)) :
  xs <> [] ->
  iloc_last (Series.pct_change A xs)
  = Ok (fminus A (fquot A (last_valid A xs) (last_valid A (removelast xs)))
                (fone A)).
Proof.
  intros Hne. destruct (exists_last Hne) as (init & x & ->).
  unfold Series.pct_change, Series.ffill, Series.shift.
  rewrite removelast_last.
  rewrite ffill_from_app. cbn [Series.ffill_from].
  set (d := Series.ffill_from A (fnan A) init).
  set (a := if Series.isna A x then List.last d (fnan A) else x).
  destruct (d ++ [a]) as [|z zs] eqn:E; [now destruct d|]. rewrite <- E.
  rewrite removelast_last.
  assert (Hs : fnan A :: d = removelast (fnan A :: d) ++ [List.last d (fnan A)]).
  { pose proof (@app_removelast_last _ (fnan A :: d) (fnan A)) as H.
    rewrite last_cons_default in H. apply H. discriminate. }
  rewrite Hs, zip_with_last.
  - f_equal. f_equal. f_equal.
    + unfold last_valid, a. rewrite rev_app_distr. cbn [rev app find].
      destruct (Series.isna A x); simpl; [|reflexivity].
      unfold d. apply ffill_from_last.
    + unfold last_valid, d. apply ffill_from_last.
  - apply (f_equal (@List.length _)) in Hs. rewrite length_app in Hs.
    cbn [List.length] in Hs. lia.
Qed.

Lemma quick_stats_nonempty (xs : list (num A)) :
  xs <> [] ->
  quick_stats A xs
  = Ok (List.last xs (fnan A),
        ftimes A (fminus A (fquot A (last_valid A xs)
                                   (last_valid A (removelast xs)))
                         (fone A))
              (fhundred A)).
Proof.
  intros Hne. unfold quick_stats. rewrite pct_change_last by assumption.
  destruct (exists_last Hne) as (init & x & ->).
  rewrite iloc_last_app, last_last. reflexivity.
Qed.

End SeriesFacts.

(** ** NaN in float64 *)

Lemma nan_div (x : float) : PrimFloat.div x nan = nan.
Proof.
  rewrite <- (SF2Prim_Prim2SF (PrimFloat.div x nan)).
  rewrite FloatAxioms.div_spec.
  replace (Prim2SF nan) with S754_nan by reflexivity.
  destruct (Prim2SF x); reflexivity.
Qed.

Lemma nan_sub_l (y : float) : PrimFloat.sub nan y = nan.
Proof.
  rewrite <- (SF2Prim_Prim2SF (PrimFloat.sub nan y)).
  rewrite FloatAxioms.sub_spec.
  replace (Prim2SF nan) with S754_nan by reflexivity.
  destruct (Prim2SF y); reflexivity.
Qed.

Lemma nan_mul_l (y : float) : PrimFloat.mul nan y = nan.
Proof.
  rewrite <- (SF2Prim_Prim2SF (PrimFloat.mul nan y)).
  rewrite FloatAxioms.mul_spec.
  replace (Prim2SF nan) with S754_nan by reflexivity.
  destruct (Prim2SF y); reflexivity.
Qed.

Lemma single_row (x : float) : quick_stats binary64 [x] = Ok (x, nan).
Proof.
  unfold quick_stats. cbn [iloc_last rbind].
  unfold Series.pct_change, Series.ffill, Series.shift. cbn.
  rewrite nan_div, nan_sub_l, nan_mul_l. reflexivity.
Qed.

(** ** The rolling mean: the running state along the windows *)

Lemma slice_empty {T : Type} (s : nat) (l : list T) : slice s s l = [].
Proof.
  unfold slice. now rewrite Nat.sub_diag.
Qed.

Lemma skipn_nth_cons {T : Type} (s : nat) (l : list T) (d : T) :
  (s < List.length l)%nat -> skipn s l = nth s l d :: skipn (S s) l.
Proof.
  revert l. induction s as [|s IH]; intros [|x l] H; simpl in *; try lia.
  - reflexivity.
  - apply IH. lia.
Qed.

Lemma slice_cons {T : Type} (s e : nat) (l : list T) (d : T) :
  (s < e)%nat -> (e <= List.length l)%nat ->
  slice s e l = nth s l d :: slice (S s) e l.
Proof.
  intros Hs He. unfold slice. rewrite (skipn_nth_cons s l d) by lia.
  replace (e - s)%nat with (S (e - S s)) by lia. reflexivity.
Qed.

Lemma firstn_snoc {T : Type} (k : nat) (l : list T) (d : T) :
  (k < List.length l)%nat -> firstn (S k) l = firstn k l ++ [nth k l d].
Proof.
  revert l. induction k as [|k IH]; intros [|x l] H; simpl in *; try lia.
  - reflexivity.
  - f_equal. apply IH. lia.
Qed.

Lemma slice_snoc {T : Type} (s e : nat) (l : list T) (d : T) :
  (s <= e)%nat -> (e < List.length l)%nat ->
  slice s (S e) l = slice s e l ++ [nth e l d].
Proof.
  intros Hs He. unfold slice.
  replace (S e - s)%nat with (S (e - s)) by lia.
  rewrite (firstn_snoc (e - s) (skipn s l) d) by (rewrite length_skipn; lia).
  rewrite nth_skipn. do 3 f_equal. lia.
Qed.

Lemma Forall2_nth_both {T U : Type} (R : T -> U -> Prop) (l : list T)
      (l' : list U) (i : nat) (d : T) (d' : U) :
  Forall2 R l l' -> (i < List.length l)%nat -> R (nth i l d) (nth i l' d').
Proof.
  intros H. revert i. induction H as [|x y l l' Hxy H IH]; intros i Hi;
    simpl in Hi; [lia|].
  destruct i as [|i]; simpl; [exact Hxy|]. apply IH. lia.
Qed.

Section RollLoop.

Variable A : arith.

(** What is known of every value of the series. *)
Variable known : num A -> Prop.
(** What the running state records of the values in the window. *)
Variable Inv : Series.mean_state A -> list (num A) -> Prop.

Hypothesis Inv_add :
  forall st l v, known v -> Inv st l -> Inv (Series.add_mean A v st) (l ++ [v]).
Hypothesis Inv_remove :
  forall st l v, known v -> Inv st (v :: l) -> Inv (Series.remove_mean A v st) l.
Hypothesis Inv_init :
  forall p, Inv (Series.mkstate A 0 (fzero A) 0 (fzero A) (fzero A) 0 p) [].

Variable values : list (num A).
Hypothesis values_known : Forall known values.

Lemma known_nth (j : nat) : (j < List.length values)%nat -> known (nth j values (fnan A)).
Proof.
  intros Hj. rewrite Forall_forall in values_known.
  apply values_known. now apply nth_In.
Qed.

Lemma add_range_inv (s lo hi : nat) (st : Series.mean_state A) :
  (s <= lo)%nat -> (lo <= hi)%nat -> (hi <= List.length values)%nat ->
  Inv st (slice s lo values) ->
  Inv (Series.add_range A values lo hi st) (slice s hi values).
Proof.
  unfold Series.add_range. remember (hi - lo)%nat as k eqn:Hk.
  revert lo st Hk. induction k as [|k IH]; intros lo st Hk Hs Hlo Hhi H.
  - replace hi with lo by lia. exact H.
  - cbn [seq fold_left].
    apply IH; try lia.
    rewrite (slice_snoc s lo values (fnan A)) by lia.
    apply Inv_add; [apply known_nth; lia|exact H].
Qed.

Lemma remove_range_inv (lo hi e : nat) (st : Series.mean_state A) :
  (lo <= hi)%nat -> (hi <= e)%nat -> (e <= List.length values)%nat ->
  Inv st (slice lo e values) ->
  Inv (Series.remove_range A values lo hi st) (slice hi e values).
Proof.
  unfold Series.remove_range. remember (hi - lo)%nat as k eqn:Hk.
  revert lo st Hk. induction k as [|k IH]; intros lo st Hk Hlo Hhi He H.
  - replace hi with lo by lia. exact H.
  - cbn [seq fold_left].
    apply IH; try lia.
    apply Inv_remove; [apply known_nth; lia|].
    rewrite <- (slice_cons lo e values (fnan A)) by lia. exact H.
Qed.

Lemma setup_inv (s e : nat) :
  (s <= e)%nat -> (e <= List.length values)%nat ->
  Inv (Series.setup A values s e) (slice s e values).
Proof.
  intros Hs He. unfold Series.setup. apply add_range_inv; try lia.
  rewrite slice_empty. apply Inv_init.
Qed.

Lemma roll_mean_from_inv (minp : nat) (bs : list (nat * nat)) :
  forall prev st,
    chain (List.length values) prev bs ->
    (fst prev <= snd prev)%nat -> (snd prev <= List.length values)%nat ->
    Inv st (slice (fst prev) (snd prev) values) ->
    Forall2 (fun b out =>
               exists st', Inv st' (slice (fst b) (snd b) values)
                           /\ out = Series.calc_mean A minp st')
            bs (Series.roll_mean_from A values minp prev st bs).
Proof.
  induction bs as [|[s e] bs IH]; intros [s0 e0] st Hc Hp Hn H;
    [constructor|].
  cbn [chain fst snd] in *. destruct Hc as [(H1 & H2 & H3 & H4) Hc].
  cbn [Series.roll_mean_from snd fst].
  set (st' := if (e0 <=? s)%nat then _ else _).
  assert (Hst' : Inv st' (slice s e values)).
  { unfold st'. destruct (Nat.leb_spec e0 s) as [Hle|Hlt].
    - now apply setup_inv.
    - apply add_range_inv; try lia.
      apply remove_range_inv; try lia. exact H. }
  constructor.
  - exists st'. now split.
  - apply IH; assumption.
Qed.

Lemma roll_mean_inv (minp : nat) (bs : list (nat * nat)) :
  match bs with
  | [] => True
  | b :: rest => (fst b <= snd b)%nat /\ (snd b <= List.length values)%nat
                 /\ chain (List.length values) b rest
  end ->
  Forall2 (fun b out =>
             exists st', Inv st' (slice (fst b) (snd b) values)
                         /\ out = Series.calc_mean A minp st')
          bs (Series.roll_mean A values bs minp).
Proof.
  destruct bs as [|[s e] bs]; [constructor|].
  cbn [fst snd]. intros (Hs & He & Hc). cbn [Series.roll_mean].
  assert (H : Inv (Series.setup A values s e) (slice s e values))
    by now apply setup_inv.
  constructor.
  - eexists. split; [exact H|reflexivity].
  - now apply roll_mean_from_inv.
Qed.

End RollLoop.

Lemma window_bounds_chain (w n k a : nat) :
  (S a + k <= n)%nat ->
  chain n (S a - w, S a)%nat
        (map (fun i => (S i - w, S i)%nat) (seq (S a) k)).
Proof.
  revert a. induction k as [|k IH]; intros a H; [exact I|].
  cbn [seq map chain fst snd]. split; [lia|]. apply IH. lia.
Qed.

Section Rolling.

Variable A : arith.
Variable known : num A -> Prop.
Variable Inv : Series.mean_state A -> list (num A) -> Prop.

Hypothesis Inv_add :
  forall st l v, known v -> Inv st l -> Inv (Series.add_mean A v st) (l ++ [v]).
Hypothesis Inv_remove :
  forall st l v, known v -> Inv st (v :: l) -> Inv (Series.remove_mean A v st) l.
Hypothesis Inv_init :
  forall p, Inv (Series.mkstate A 0 (fzero A) 0 (fzero A) (fzero A) 0 p) [].

(** Every output of the rolling mean is [calc_mean] of a state that
    records the window of its position. *)
Lemma rolling_mean_inv (w mp : nat) (xs : list (num A)) (i : nat) :
  Forall known (Series.prep_values A xs) ->
  (i < List.length xs)%nat ->
  exists st,
    Inv st (slice (S i - w) (S i) (Series.prep_values A xs))
    /\ nth i (Series.rolling_mean A w mp xs) (fnan A) = Series.calc_mean A mp st.
Proof.
  intros Hk Hi. unfold Series.rolling_mean.
  set (vals := Series.prep_values A xs) in *.
  assert (Hlen : List.length vals = List.length xs)
    by (unfold vals, Series.prep_values; apply length_map).
  pose proof (roll_mean_inv A known Inv Inv_add Inv_remove Inv_init vals Hk mp
                (Series.window_bounds w (List.length xs))) as H.
  assert (Hb : nth i (Series.window_bounds w (List.length xs)) (0, 0)%nat
               = (S i - w, S i)%nat).
  { unfold Series.window_bounds.
    rewrite (nth_indep _ (0, 0)%nat ((fun i => (S i - w, S i)%nat) 0%nat))
      by (rewrite length_map, length_seq; lia).
    rewrite (map_nth (fun i => (S i - w, S i)%nat)), seq_nth by lia.
    reflexivity. }
  assert (Hwf : match Series.window_bounds w (List.length xs) with
                | [] => True
                | b :: rest => (fst b <= snd b)%nat
                               /\ (snd b <= List.length vals)%nat
                               /\ chain (List.length vals) b rest
                end).
  { unfold Series.window_bounds. destruct (List.length xs) as [|n] eqn:En;
      [exact I|].
    cbn [seq map fst snd]. split; [lia|]. split; [lia|].
    rewrite Hlen. apply window_bounds_chain. lia. }
  specialize (H Hwf).
  pose proof (Forall2_nth_both _ _ _ i (0, 0)%nat (fnan A) H) as Hi'.
  cbv beta in Hi'. rewrite Hb in Hi'. cbn [fst snd] in Hi'.
  apply Hi'. unfold Series.window_bounds. rewrite length_map, length_seq. lia.
Qed.

End Rolling.

(** ** The count of observations, in any arithmetic *)

Section Counting.

Variable A : arith.

Lemma counts_add (st : Series.mean_state A) (l : list (num A)) (v : num A) :
  True -> counts A st l -> counts A (Series.add_mean A v st) (l ++ [v]).
Proof.
  intros _. unfold counts, observed, Series.add_mean.
  rewrite filter_app, length_app. cbn [filter].
  destruct (Series.isna A v); cbn [negb List.length Series.nobs]; lia.
Qed.

Lemma counts_remove (st : Series.mean_state A) (l : list (num A)) (v : num A) :
  True -> counts A st (v :: l) -> counts A (Series.remove_mean A v st) l.
Proof.
  intros _. unfold counts, observed, Series.remove_mean. cbn [filter].
  destruct (Series.isna A v); cbn [negb List.length Series.nobs]; lia.
Qed.

Lemma calc_mean_none (minp : nat) (st : Series.mean_state A) :
  Series.nobs A st = 0%nat -> Series.calc_mean A minp st = fnan A.
Proof.
  intros H. unfold Series.calc_mean. rewrite H.
  now rewrite andb_false_r.
Qed.

End Counting.

Lemma Qc_eq_bool_refl (q : Qc) : Qc_eq_bool q q = true.
Proof.
  unfold Qc_eq_bool. destruct (Qc_eq_dec q q); [reflexivity|contradiction].
Qed.

Lemma qsum_app (a b : list Qc) : qsum (a ++ b) = (qsum a + qsum b)%Qc.
Proof.
  induction a as [|x a IH]; simpl.
  - now rewrite Qcplus_0_l.
  - fold (qsum (a ++ b)). fold (qsum a). rewrite IH. ring.
Qed.

Lemma numbers_app (a b : list fval) : numbers (a ++ b) = numbers a ++ numbers b.
Proof.
  induction a as [|x a IH]; [reflexivity|].
  destruct x; simpl; now rewrite IH.
Qed.

Lemma repr_add (st : Series.mean_state exact) (W : list Qc) (q : Qc) :
  repr st W -> repr (Series.add_mean exact (Fin q) st) (W ++ [q]).
Proof.
  intros (Hn & Hs & Ha & Hr & Hneg & Hsame).
  unfold Series.add_mean, Series.isna. cbn [fequal exact feqb].
  rewrite Qc_eq_bool_refl. cbn [negb].
  unfold repr. cbn [Series.nobs Series.sum_x Series.compensation_add
    Series.compensation_remove Series.neg_ct Series.prev_value
    Series.num_consecutive_same_value].
  rewrite Hs, Ha. cbn [fminus fplus exact fsub fadd fsign fsignbit].
  split; [rewrite length_app; simpl; lia|].
  split; [rewrite qsum_app; f_equal; simpl; ring|].
  split; [f_equal; ring|]. split; [exact Hr|]. split.
  - rewrite filter_app, length_app. cbn [filter]. fold (isneg q).
    destruct (isneg q); simpl; lia.
  - rewrite length_app. cbn [List.length fequal exact feqb].
    assert (Hone : Forall (fun v : Qc => Fin q = Fin v)
                          (skipn (List.length W + 1 - 1) (W ++ [q]))).
    { replace (List.length W + 1 - 1)%nat with (List.length W) by lia.
      rewrite skipn_app, skipn_all, Nat.sub_diag. now repeat constructor. }
    destruct (Series.prev_value exact st) as [p| | |] eqn:Ep; try exact Hone.
    destruct (Qc_eq_bool q p) eqn:E; [|exact Hone].
    apply Qc_eq_bool_correct in E. subst p.
    replace (List.length W + 1 - S (Series.num_consecutive_same_value exact st))%nat
      with (List.length W - Series.num_consecutive_same_value exact st)%nat by lia.
    rewrite skipn_app.
    replace (List.length W - Series.num_consecutive_same_value exact st
             - List.length W)%nat with 0%nat by lia.
    cbn [skipn]. apply Forall_app. split; [|now repeat constructor].
    exact Hsame.
Qed.

Lemma repr_remove (st : Series.mean_state exact) (W : list Qc) (q : Qc) :
  repr st (q :: W) -> repr (Series.remove_mean exact (Fin q) st) W.
Proof.
  intros (Hn & Hs & Ha & Hr & Hneg & Hsame).
  unfold Series.remove_mean, Series.isna. cbn [fequal exact feqb].
  rewrite Qc_eq_bool_refl. cbn [negb].
  unfold repr. cbn [Series.nobs Series.sum_x Series.compensation_add
    Series.compensation_remove Series.neg_ct Series.prev_value
    Series.num_consecutive_same_value].
  rewrite Hs, Hr. cbn [fminus fplus fneg exact fsub fadd fopp fsign fsignbit].
  split; [rewrite Hn; reflexivity|].
  split; [f_equal; cbn [qsum fold_right]; fold (qsum W); ring|].
  split; [exact Ha|]. split; [f_equal; ring|]. split.
  - rewrite Hneg. cbn [filter]. fold (isneg q).
    destruct (isneg q); reflexivity.
  - cbn [List.length] in Hsame.
    destruct (le_lt_dec (Series.num_consecutive_same_value exact st)
                        (List.length W)) as [Hle|Hgt].
    + replace (S (List.length W) - Series.num_consecutive_same_value exact st)%nat
        with (S (List.length W - Series.num_consecutive_same_value exact st))
        in Hsame by lia.
      exact Hsame.
    + replace (S (List.length W) - Series.num_consecutive_same_value exact st)%nat
        with 0%nat in Hsame by lia.
      replace (List.length W - Series.num_consecutive_same_value exact st)%nat
        with 0%nat by lia.
      cbn [skipn] in *. now inversion Hsame.
Qed.

Lemma Qc_of_nat_0 : Qc_of_nat 0 = 0%Qc.
Proof.
  apply Qc_is_canon. reflexivity.
Qed.

Lemma Qc_of_nat_nonzero (n : nat) : (Qc_of_nat (S n) ?= 0)%Qc = Gt.
Proof.
  pose proof (Qc_of_nat_pos n) as H.
  destruct (Qc_of_nat (S n) ?= 0)%Qc eqn:E; [| |reflexivity].
  - apply Qceq_alt in E. rewrite E in H. discriminate.
  - apply Qclt_alt in E. exfalso. apply (Qclt_not_le _ _ E).
    now apply Qclt_le_weak.
Qed.

Lemma qsum_const (p : Qc) (W : list Qc) :
  Forall (fun v => v = p) W -> qsum W = (Qc_of_nat (List.length W) * p)%Qc.
Proof.
  induction 1 as [|x W Hx HW IH].
  - simpl. rewrite Qc_of_nat_0. ring.
  - cbn [qsum fold_right List.length]. fold (qsum W).
    rewrite IH, Qc_of_nat_S, Hx. ring.
Qed.

Lemma qsum_lower (lo : Qc) (l : list Qc) :
  (forall x, In x l -> (lo <= x)%Qc) ->
  (lo * Qc_of_nat (List.length l) <= qsum l)%Qc.
Proof.
  induction l as [|x l IH]; intros H.
  - simpl. rewrite Qc_of_nat_0, Qcmult_0_r. apply Qcle_refl.
  - cbn [List.length qsum fold_right]. fold (qsum l). rewrite Qc_of_nat_S.
    replace (lo * (Qc_of_nat (List.length l) + 1))%Qc
      with (lo + lo * Qc_of_nat (List.length l))%Qc by ring.
    apply Qcplus_le_compat; [apply H; now left|].
    apply IH. intros y Hy. apply H. now right.
Qed.

Lemma qsum_upper (hi : Qc) (l : list Qc) :
  (forall x, In x l -> (x <= hi)%Qc) ->
  (qsum l <= hi * Qc_of_nat (List.length l))%Qc.
Proof.
  induction l as [|x l IH]; intros H.
  - simpl. rewrite Qc_of_nat_0, Qcmult_0_r. apply Qcle_refl.
  - cbn [List.length qsum fold_right]. fold (qsum l). rewrite Qc_of_nat_S.
    replace (hi * (Qc_of_nat (List.length l) + 1))%Qc
      with (hi + hi * Qc_of_nat (List.length l))%Qc by ring.
    apply Qcplus_le_compat; [apply H; now left|].
    apply IH. intros y Hy. apply H. now right.
Qed.

Lemma filter_none {T : Type} (f : T -> bool) (l : list T) :
  List.length (filter f l) = 0%nat -> forall x, In x l -> f x = false.
Proof.
  induction l as [|y l IH]; simpl; intros H x Hx; [contradiction|].
  destruct (f y) eqn:E; [discriminate|].
  destruct Hx as [<-|Hx]; [exact E|now apply IH].
Qed.

Lemma filter_every {T : Type} (f : T -> bool) (l : list T) :
  List.length (filter f l) = List.length l -> forall x, In x l -> f x = true.
Proof.
  induction l as [|y l IH]; simpl; intros H x Hx; [contradiction|].
  destruct (f y) eqn:E.
  - simpl in H. destruct Hx as [<-|Hx]; [exact E|]. apply IH; [lia|exact Hx].
  - pose proof (filter_length_le f l). lia.
Qed.

Lemma isneg_false (q : Qc) : isneg q = false -> (0 <= q)%Qc.
Proof.
  unfold isneg. destruct (q ?= 0)%Qc eqn:E; intros H; try discriminate.
  - apply Qceq_alt in E. subst q. apply Qcle_refl.
  - apply Qclt_le_weak. now apply Qcgt_alt in E.
Qed.

Lemma isneg_true (q : Qc) : isneg q = true -> (q <= 0)%Qc.
Proof.
  unfold isneg. destruct (q ?= 0)%Qc eqn:E; intros H; try discriminate.
  apply Qclt_le_weak. now apply Qclt_alt in E.
Qed.

(** In exact arithmetic the running state yields the mean of the numbers
    in the window: the compensations vanish and no correction applies. *)
Lemma calc_mean_repr (st : Series.mean_state exact) (W : list Qc) :
  repr st W -> Series.calc_mean exact 1 st = mean_or_nan W.
Proof.
  intros (Hn & Hs & Ha & Hr & Hneg & Hsame).
  unfold Series.calc_mean. rewrite Hn, Hs.
  destruct W as [|x W]; [reflexivity|].
  set (l := x :: W) in *.
  change (List.length l) with (S (List.length W)) in *.
  replace ((1 <=? S (List.length W))%nat && (0 <? S (List.length W))%nat)
    with true by reflexivity.
  cbv iota. cbn [fquot of_count exact fdiv]. rewrite Qc_of_nat_nonzero.
  change (mean_or_nan l) with (Fin (qsum l / Qc_of_nat (S (List.length W)))%Qc).
  set (n := Qc_of_nat (S (List.length W))).
  assert (Hpos : (0 < n)%Qc) by apply Qc_of_nat_pos.
  assert (Hnz : n <> 0%Qc) by (intros E; rewrite E in Hpos; discriminate).
  assert (Hback : (qsum l / n * n)%Qc = qsum l) by (now field).
  destruct (Nat.leb_spec (S (List.length W))
              (Series.num_consecutive_same_value exact st)) as [Hle|Hgt].
  - replace (S (List.length W) - Series.num_consecutive_same_value exact st)%nat
      with 0%nat in Hsame by lia.
    cbn [skipn] in Hsame.
    destruct (Series.prev_value exact st) as [p| | |] eqn:Ep;
      try (inversion Hsame; discriminate).
    f_equal.
    rewrite (qsum_const p l).
    + change (List.length l) with (S (List.length W)). fold n. now field.
    + eapply Forall_impl; [|exact Hsame]. intros a Ea. congruence.
  - cbn [fless fzero exact fltb].
    destruct (Nat.eqb_spec (Series.neg_ct exact st) 0) as [Hz|Hnz0];
      cbn [andb].
    + assert (Hge : (0 <= qsum l / n)%Qc).
      { apply (Qcmult_lt_0_le_reg_r _ _ n Hpos). rewrite Hback, Qcmult_0_l.
        rewrite <- (Qcmult_0_l (Qc_of_nat (List.length l))).
        apply qsum_lower. intros y Hy. apply isneg_false.
        apply (filter_none isneg l); [congruence|exact Hy]. }
      destruct (qsum l / n ?= 0)%Qc eqn:E.
      * destruct (Nat.eqb_spec 0 (S (List.length W))); [lia|].
        rewrite Hz. cbn [Nat.eqb andb]. reflexivity.
      * apply Qclt_alt in E. exfalso. now apply (Qclt_not_le _ _ E).
      * rewrite Hz. cbn [Nat.eqb andb]. reflexivity.
    + destruct (Nat.eqb_spec (Series.neg_ct exact st) (S (List.length W)))
        as [Hall|Hsome]; cbn [andb]; [|reflexivity].
      assert (Hle : (qsum l / n <= 0)%Qc).
      { apply (Qcmult_lt_0_le_reg_r _ _ n Hpos). rewrite Hback, Qcmult_0_l.
        rewrite <- (Qcmult_0_l (Qc_of_nat (List.length l))).
        apply qsum_upper. intros y Hy. apply isneg_true.
        apply (filter_every isneg l); [|exact Hy].
        change (List.length l) with (S (List.length W)). congruence. }
      destruct (0 ?= qsum l / n)%Qc eqn:E; try reflexivity.
      apply Qclt_alt in E. exfalso. now apply (Qclt_not_le _ _ E).
Qed.

Lemma slice_recent {T : Type} (w i : nat) (xs : list T) :
  slice (S i - w) (S i) xs = recent (Nat.min (S i) w) xs i.
Proof.
  unfold slice, recent. f_equal; [lia|]. f_equal. lia.
Qed.

Lemma slice_map {T U : Type} (f : T -> U) (s e : nat) (l : list T) :
  slice s e (map f l) = map f (slice s e l).
Proof.
  unfold slice. now rewrite skipn_map, firstn_map.
Qed.

Lemma numbers_prep (l : list fval) :
  numbers (Series.prep_values exact l) = numbers l.
Proof.
  induction l as [|x l IH]; [reflexivity|].
  destruct x; simpl; now rewrite IH.
Qed.

Lemma numbers_slice_prep (s e : nat) (l : list fval) :
  numbers (slice s e (Series.prep_values exact l)) = numbers (slice s e l).
Proof.
  unfold Series.prep_values. rewrite slice_map.
  apply (numbers_prep (slice s e l)).
Qed.

Lemma prep_values_finite (l : list fval) :
  Forall (fun v => fisinf v = false) (Series.prep_values exact l).
Proof.
  unfold Series.prep_values. apply Forall_forall. intros v Hv.
  apply in_map_iff in Hv. destruct Hv as (x & <- & _). now destruct x.
Qed.

(** The rolling mean in exact arithmetic: at each position, the mean of the
    numbers among the most recent values. *)
Lemma rolling_mean_exact_nth (w : nat) (xs : list fval) (i : nat) :
  (i < List.length xs)%nat ->
  nth i (Series.rolling_mean exact w 1 xs) NaN
  = mean_or_nan (numbers (recent (Nat.min (S i) w) xs i)).
Proof.
  intros Hi.
  destruct (rolling_mean_inv exact (fun v => fisinf v = false)
              (fun st l => repr st (numbers l))) with (w := w) (mp := 1%nat)
              (xs := xs) (i := i) as (st & Hst & Hout).
  - intros st l v Hv H. rewrite numbers_app.
    destruct v as [q| | |]; try discriminate.
    + now apply repr_add.
    + cbn [numbers]. now rewrite app_nil_r.
  - intros st l v Hv H. destruct v as [q| | |]; try discriminate.
    + now apply repr_remove.
    + exact H.
  - intros p. unfold repr; cbn. repeat split; constructor.
  - apply prep_values_finite.
  - exact Hi.
  - change (fnan exact) with NaN in Hout. rewrite Hout.
    rewrite (calc_mean_repr st _ Hst), numbers_slice_prep, slice_recent.
    reflexivity.
Qed.

Lemma numbers_Fin (qs : list Qc) : numbers (map Fin qs) = qs.
Proof.
  induction qs as [|q qs IH]; simpl; [reflexivity|]. now rewrite IH.
Qed.

Lemma roll_mean_from_length (A : arith) (values : list (num A)) (minp : nat)
      (bs : list (nat * nat)) :
  forall prev st,
    List.length (Series.roll_mean_from A values minp prev st bs) = List.length bs.
Proof.
  induction bs as [|[s e] bs IH]; intros prev st; [reflexivity|].
  cbn [Series.roll_mean_from List.length]. now rewrite IH.
Qed.

Lemma rolling_mean_series_length (A : arith) (w mp : nat) (xs : list (num A)) :
  List.length (Series.rolling_mean A w mp xs) = List.length xs.
Proof.
  unfold Series.rolling_mean, Series.roll_mean.
  destruct (Series.window_bounds w (List.length xs)) as [|[s e] bs] eqn:E.
  - unfold Series.window_bounds in E. destruct (List.length xs); [reflexivity|].
    discriminate.
  - cbn [List.length]. rewrite roll_mean_from_length.
    apply (f_equal (@List.length _)) in E.
    unfold Series.window_bounds in E. rewrite length_map, length_seq in E.
    cbn [List.length] in E. lia.
Qed.

(** On a series of numbers, the running computation in exact arithmetic is
    the mean of each window. *)
Lemma rolling_mean_exact_complete (w : nat) (qs : list Qc) :
  Series.rolling_mean exact w 1 (map Fin qs) = rolling_mean w 1 qs.
Proof.
  apply (nth_ext _ _ NaN NaN).
  - now rewrite (rolling_mean_series_length exact), rolling_mean_length, length_map.
  - intros i Hi. rewrite (rolling_mean_series_length exact), length_map in Hi.
    rewrite rolling_mean_exact_nth by (now rewrite length_map).
    rewrite rolling_mean_nth by assumption.
    unfold recent. rewrite skipn_map, firstn_map, numbers_Fin.
    rewrite window_at_recent. unfold recent.
    destruct (firstn (Nat.min (S i) w) (skipn (S i - Nat.min (S i) w) qs));
      reflexivity.
Qed.

(** Where every recent value is missing, the output is missing, in any
    arithmetic in which NaN counts as missing. *)
Lemma rolling_mean_all_missing (A : arith) (w mp : nat) (xs : list (num A))
      (i : nat) :
  Series.isna A (fnan A) = true ->
  (i < List.length xs)%nat ->
  Forall (fun x => missing A x = true) (recent (Nat.min (S i) w) xs i) ->
  nth i (Series.rolling_mean A w mp xs) (fnan A) = fnan A.
Proof.
  intros Hnan Hi Hall.
  destruct (rolling_mean_inv A (fun _ => True) (counts A) (counts_add A)
              (counts_remove A)) with (w := w) (mp := mp) (xs := xs) (i := i)
    as (st & Hst & ->).
  - intros p. reflexivity.
  - apply Forall_forall. trivial.
  - exact Hi.
  - apply calc_mean_none. unfold counts in Hst. rewrite Hst.
    unfold Series.prep_values. rewrite slice_map, slice_recent.
    unfold observed.
    induction Hall as [|x l Hx Hl IH]; [reflexivity|].
    cbn [map filter]. unfold missing in Hx.
    destruct (finf A x); [rewrite Hnan; exact IH|].
    rewrite orb_false_r in Hx. rewrite Hx. exact IH.
Qed.

(** The first output is the first value itself when that one is present. *)
Lemma rolling_mean_first (A : arith) (w : nat) (x : num A) (xs : list (num A)) :
  (1 <= w)%nat -> missing A x = false ->
  nth 0 (Series.rolling_mean A w 1 (x :: xs)) (fnan A) = x.
Proof.
  intros Hw Hx. unfold missing in Hx. apply orb_false_iff in Hx.
  destruct Hx as [Hna Hinf].
  unfold Series.rolling_mean, Series.window_bounds.
  cbn [List.length seq map Series.prep_values].
  replace (1 - w)%nat with 0%nat by lia.
  cbn [Series.roll_mean nth]. unfold Series.setup, Series.add_range.
  cbn [Nat.sub seq fold_left nth]. rewrite Hinf.
  unfold Series.add_mean. rewrite Hna.
  unfold Series.calc_mean.
  cbn [Series.nobs Series.num_consecutive_same_value Series.prev_value].
  destruct (fequal A x x); reflexivity.
Qed.

(** * The export and the loader *)

Lemma every_app (P : ascii -> bool) (a b : string) :
  every P (a ++ b)%string = every P a && every P b.
Proof.
  induction a as [|c a IH]; simpl; [reflexivity|].
  now rewrite IH, andb_assoc.
Qed.

Lemma every_mono (P Q : ascii -> bool) (s : string) :
  (forall c, P c = true -> Q c = true) -> every P s = true -> every Q s = true.
Proof.
  intros H. induction s as [|c s IH]; simpl; [reflexivity|].
  intros E. apply andb_true_iff in E. destruct E as [E1 E2].
  now rewrite (H c E1), IH.
Qed.

Lemma every_no_linebreak (P : ascii -> bool) (s : string) :
  (forall c, P c = true -> Py.is_linebreak c = false) ->
  every P s = true -> no_linebreak s = true.
Proof.
  intros H. induction s as [|c s IH]; simpl; [reflexivity|].
  intros E. apply andb_true_iff in E. destruct E as [E1 E2].
  now rewrite (H c E1), IH.
Qed.

Lemma split_from_whole (sep : ascii) (a cur : string) :
  every (fun c => negb (Ascii.eqb c sep)) a = true ->
  Py.split_from sep cur a = [(Py.rev_string EmptyString cur ++ a)%string].
Proof.
  revert cur. induction a as [|c a IH]; intros cur H; simpl.
  - now rewrite append_nil_r.
  - simpl in H. apply andb_true_iff in H. destruct H as [Hc Ha].
    apply negb_true_iff in Hc. rewrite Hc, (IH _ Ha). simpl.
    rewrite (rev_string_acc (String c EmptyString)), append_assoc. reflexivity.
Qed.

Lemma split_from_field (sep : ascii) (a b cur : string) :
  every (fun c => negb (Ascii.eqb c sep)) a = true ->
  Py.split_from sep cur (a ++ String sep b)%string
  = (Py.rev_string EmptyString cur ++ a)%string :: Py.split sep b.
Proof.
  revert cur. induction a as [|c a IH]; intros cur H; simpl.
  - rewrite Ascii.eqb_refl, append_nil_r. reflexivity.
  - simpl in H. apply andb_true_iff in H. destruct H as [Hc Ha].
    apply negb_true_iff in Hc. rewrite Hc, (IH _ Ha). simpl.
    rewrite (rev_string_acc (String c EmptyString)), append_assoc. reflexivity.
Qed.

Lemma split_whole (sep : ascii) (a : string) :
  every (fun c => negb (Ascii.eqb c sep)) a = true -> Py.split sep a = [a].
Proof.
  intros H. unfold Py.split. now rewrite split_from_whole.
Qed.

Lemma split_field (sep : ascii) (a b : string) :
  every (fun c => negb (Ascii.eqb c sep)) a = true ->
  Py.split sep (a ++ String sep b)%string = a :: Py.split sep b.
Proof.
  intros H. unfold Py.split at 1. now rewrite split_from_field.
Qed.

(** ** Digits *)

Lemma digit_digit_char (k : Z) : 0 <= k < 10 -> digit (digit_char k) = Some k.
Proof.
  intros H.
  assert (E : k = 0 \/ k = 1 \/ k = 2 \/ k = 3 \/ k = 4 \/ k = 5 \/ k = 6
              \/ k = 7 \/ k = 8 \/ k = 9) by lia.
  repeat (destruct E as [->|E]; [reflexivity|]). now subst.
Qed.

Lemma is_digit_digit_char (k : Z) : 0 <= k < 10 -> is_digit (digit_char k) = true.
Proof.
  intros H. unfold is_digit. now rewrite digit_digit_char.
Qed.

Lemma digits_fixed_digits (w : nat) (n : Z) : every is_digit (digits_fixed w n) = true.
Proof.
  revert n. induction w as [|w IH]; intros n; [reflexivity|].
  cbn [digits_fixed]. rewrite every_app, IH. cbn [every].
  rewrite is_digit_digit_char; [reflexivity|]. apply Z.mod_pos_bound. lia.
Qed.

Lemma length_append (a b : string) :
  String.length (a ++ b)%string = (String.length a + String.length b)%nat.
Proof.
  induction a as [|c a IH]; simpl; [reflexivity|]. now rewrite IH.
Qed.

Lemma digits_fixed_length (w : nat) (n : Z) : String.length (digits_fixed w n) = w.
Proof.
  revert n. induction w as [|w IH]; intros n; [reflexivity|].
  cbn [digits_fixed]. rewrite length_append, IH. simpl. lia.
Qed.

Lemma parse_digits_app (acc : Z) (a b : string) :
  parse_digits acc (a ++ b)%string
  = match parse_digits acc a with
    | Some x => parse_digits x b
    | None => None
    end.
Proof.
  revert acc. induction a as [|c a IH]; intros acc; simpl; [reflexivity|].
  destruct (digit c); [apply IH|reflexivity].
Qed.

Lemma parse_digits_fixed (w : nat) (n acc : Z) :
  parse_digits acc (digits_fixed w n)
  = Some (acc * 10 ^ Z.of_nat w + n mod 10 ^ Z.of_nat w).
Proof.
  revert n acc. induction w as [|w IH]; intros n acc.
  - simpl. rewrite Z.mod_1_r. f_equal. lia.
  - cbn [digits_fixed]. rewrite parse_digits_app, IH. cbn [parse_digits].
    rewrite digit_digit_char by (apply Z.mod_pos_bound; lia).
    f_equal. rewrite Nat2Z.inj_succ, Z.pow_succ_r by lia.
    rewrite (Z.rem_mul_r n 10 (10 ^ Z.of_nat w)) by lia. lia.
Qed.

Lemma digits_fixed_nonempty (w : nat) (n : Z) :
  (1 <= w)%nat -> digits_fixed w n <> EmptyString.
Proof.
  destruct w as [|w]; [lia|]. intros _. cbn [digits_fixed].
  apply append_cons_nonempty.
Qed.

Lemma parse_nat_fixed (w : nat) (n : Z) :
  (1 <= w)%nat -> 0 <= n < 10 ^ Z.of_nat w ->
  parse_nat (digits_fixed w n) = Some n.
Proof.
  intros Hw Hn. unfold parse_nat.
  destruct (digits_fixed w n) eqn:E; [now apply digits_fixed_nonempty in E|].
  rewrite <- E, parse_digits_fixed, Z.mod_small by lia. reflexivity.
Qed.

Lemma width_from_ge (fuel w : nat) (n : Z) : (w <= width_from fuel w n)%nat.
Proof.
  revert w. induction fuel as [|fuel IH]; intros w; simpl.
  - destruct (n <? 10 ^ Z.of_nat w); lia.
  - destruct (n <? 10 ^ Z.of_nat w); [lia|]. specialize (IH (S w)). lia.
Qed.

Lemma width_from_enough (fuel w : nat) (n : Z) :
  n < 10 ^ Z.of_nat (w + fuel) -> n < 10 ^ Z.of_nat (width_from fuel w n).
Proof.
  revert w. induction fuel as [|fuel IH]; intros w H; simpl.
  - destruct (Z.ltb_spec n (10 ^ Z.of_nat w)) as [Hlt|Hge]; [exact Hlt|].
    now rewrite Nat.add_0_r in H.
  - destruct (Z.ltb_spec n (10 ^ Z.of_nat w)) as [Hlt|Hge]; [exact Hlt|].
    apply IH. now replace (S w + fuel)%nat with (w + S fuel)%nat by lia.
Qed.

Lemma digits_width (n : Z) :
  0 <= n -> n < 10 ^ Z.of_nat (width_from (Z.to_nat (Z.log2 n)) 1 n).
Proof.
  intros Hn. apply width_from_enough.
  destruct (Z.eq_dec n 0) as [->|Hnz]; [simpl; lia|].
  replace (Z.of_nat (1 + Z.to_nat (Z.log2 n))) with (Z.succ (Z.log2 n))
    by (pose proof (Z.log2_nonneg n); lia).
  pose proof (Z.log2_spec n ltac:(lia)) as [_ Hlt].
  apply (Z.lt_le_trans _ _ _ Hlt).
  apply Z.pow_le_mono_l. pose proof (Z.log2_nonneg n). lia.
Qed.

Lemma parse_nat_digits (n : Z) : 0 <= n -> parse_nat (digits n) = Some n.
Proof.
  intros Hn. unfold digits. apply parse_nat_fixed.
  - apply width_from_ge.
  - split; [exact Hn|now apply digits_width].
Qed.

Lemma digits_digits (n : Z) : every is_digit (digits n) = true.
Proof.
  apply digits_fixed_digits.
Qed.

Lemma digits_nonempty (n : Z) : digits n <> EmptyString.
Proof.
  apply digits_fixed_nonempty. apply width_from_ge.
Qed.

(** ** The characters of a field *)

Lemma is_digit_field (c : ascii) : is_digit c = true -> field_char c = true.
Proof.
  intros H. unfold field_char. now rewrite H.
Qed.

Lemma is_digit_not (c sep : ascii) :
  is_digit sep = false -> is_digit c = true -> negb (Ascii.eqb c sep) = true.
Proof.
  intros Hs Hc. destruct (Ascii.eqb_spec c sep) as [->|]; [congruence|reflexivity].
Qed.

Lemma field_char_not (c sep : ascii) :
  field_char sep = false -> field_char c = true -> negb (Ascii.eqb c sep) = true.
Proof.
  intros Hs Hc. destruct (Ascii.eqb_spec c sep) as [->|]; [congruence|reflexivity].
Qed.

Lemma digits_lack (sep : ascii) (s : string) :
  is_digit sep = false -> every is_digit s = true ->
  every (fun c => negb (Ascii.eqb c sep)) s = true.
Proof.
  intros Hs. apply every_mono. intros c. now apply is_digit_not.
Qed.

Lemma field_lacks (sep : ascii) (s : string) :
  field_char sep = false -> every field_char s = true ->
  every (fun c => negb (Ascii.eqb c sep)) s = true.
Proof.
  intros Hs. apply every_mono. intros c. now apply field_char_not.
Qed.

(** ** Dates *)

Local Open Scope string_scope.

Lemma format_date_field (d : date) : every field_char (format_date d) = true.
Proof.
  unfold format_date. rewrite !every_app.
  rewrite !(every_mono is_digit field_char _ is_digit_field (digits_fixed_digits _ _)).
  reflexivity.
Qed.

Lemma parse_date_format (d : date) :
  valid_date d = true -> parse_date (format_date d) = Some d.
Proof.
  unfold valid_date. rewrite !andb_true_iff, !Z.leb_le.
  intros (((((H1 & H2) & H3) & H4) & H5) & H6).
  unfold parse_date, format_date.
  change ("-" ++ digits_fixed 2 (month d) ++ "-" ++ digits_fixed 2 (day d))
    with (String "-" (digits_fixed 2 (month d) ++ String "-" (digits_fixed 2 (day d)))).
  rewrite split_field by (apply digits_lack; [reflexivity|apply digits_fixed_digits]).
  rewrite split_field by (apply digits_lack; [reflexivity|apply digits_fixed_digits]).
  rewrite split_whole by (apply digits_lack; [reflexivity|apply digits_fixed_digits]).
  unfold parse_fixed. rewrite !digits_fixed_length. cbn [Nat.eqb].
  assert (Hdim : (days_in_month (year d) (month d) <= 31)%Z).
  { unfold days_in_month.
    destruct (month d =? 2)%Z; [destruct (is_leap (year d)); lia|].
    destruct ((month d =? 4)%Z || (month d =? 6)%Z || (month d =? 9)%Z
              || (month d =? 11)%Z); lia. }
  rewrite !parse_nat_fixed by (simpl; lia).
  assert (Hd : (1 <=? month d)%Z && (month d <=? 12)%Z && (1 <=? day d)%Z
               && (day d <=? days_in_month (year d) (month d))%Z = true).
  { rewrite !andb_true_iff, !Z.leb_le. auto. }
  cbv beta iota. rewrite Hd. now destruct d.
Qed.

Lemma parse_stamp_format (d : date) :
  valid_date d = true -> parse_stamp (format_date d) = Some (to_datetime d).
Proof.
  intros H. unfold parse_stamp.
  rewrite split_whole
    by (apply field_lacks; [reflexivity|apply format_date_field]).
  now rewrite parse_date_format.
Qed.

(** ** Numbers *)

Lemma Q2Qc_this (x : Q) (q : Qc) : (x == q)%Q -> Q2Qc x = q.
Proof.
  intros H. apply Qc_is_canon. cbn [this Q2Qc]. now rewrite Qred_correct.
Qed.

Lemma places_from_ge (fuel k : nat) (den : Z) : (k <= places_from fuel k den)%nat.
Proof.
  revert k. induction fuel as [|fuel IH]; intros k; simpl.
  - destruct (_ =? 0)%Z; lia.
  - destruct (_ =? 0)%Z; [lia|]. specialize (IH (S k)). lia.
Qed.

Lemma places_ge (q : Qc) : (1 <= places q)%nat.
Proof.
  apply places_from_ge.
Qed.

Lemma parse_number_digit (c : ascii) (s : string) :
  is_digit c = true ->
  parse_number (String c s) = option_map Fin (parse_unsigned (String c s)).
Proof.
  destruct c as [[] [] [] [] [] [] [] []]; intros H; try discriminate H; reflexivity.
Qed.

Lemma digits_head (n : Z) : exists c s, digits n = String c s /\ is_digit c = true.
Proof.
  pose proof (digits_digits n) as H. pose proof (digits_nonempty n) as Hne.
  destruct (digits n) as [|c s]; [contradiction|].
  exists c, s. split; [reflexivity|]. simpl in H.
  now apply andb_true_iff in H.
Qed.

Lemma parse_unsigned_float (a b : Z) (k : nat) :
  (1 <= k)%nat -> (0 <= a)%Z -> (0 <= b < 10 ^ Z.of_nat k)%Z ->
  parse_unsigned (digits a ++ "." ++ digits_fixed k b)
  = Some (Q2Qc ((a * 10 ^ Z.of_nat k + b) # Z.to_pos (10 ^ Z.of_nat k))).
Proof.
  intros Hk Ha Hb. unfold parse_unsigned.
  change ("." ++ digits_fixed k b) with (String "." (digits_fixed k b)).
  rewrite split_field by (apply digits_lack; [reflexivity|apply digits_digits]).
  rewrite split_whole by (apply digits_lack; [reflexivity|apply digits_fixed_digits]).
  rewrite parse_nat_digits, parse_nat_fixed, digits_fixed_length by assumption.
  reflexivity.
Qed.

Lemma parse_unsigned_int (n : Z) :
  (0 <= n)%Z -> parse_unsigned (digits n) = Some (Qc_of_Z n).
Proof.
  intros Hn. unfold parse_unsigned.
  rewrite split_whole by (apply digits_lack; [reflexivity|apply digits_digits]).
  now rewrite parse_nat_digits.
Qed.

Lemma Qc_of_Z_integer (q : Qc) :
  Zpos (Qden q) = 1%Z -> Qc_of_Z (Qnum q) = q.
Proof.
  intros H. unfold Qc_of_Z. apply Q2Qc_this.
  destruct q as [[n d] Hc]. cbn [this Qnum Qden] in *.
  unfold Qeq, inject_Z; cbn [Qnum Qden]. lia.
Qed.

Lemma parse_number_digits (n : Z) (rest : string) :
  parse_number (digits n ++ rest)
  = option_map Fin (parse_unsigned (digits n ++ rest)).
Proof.
  destruct (digits_head n) as (c & s & E & Hc). rewrite E. cbn [append].
  now apply parse_number_digit.
Qed.

Lemma parse_number_int (q : Qc) :
  Zpos (Qden q) = 1%Z -> parse_number (format_int q) = Some (Fin q).
Proof.
  intros Hd. unfold format_int, sign_text.
  destruct (Z.ltb_spec (Qnum q) 0) as [Hneg|Hpos].
  - change ("-" ++ digits (Z.abs (Qnum q))) with (String "-" (digits (Z.abs (Qnum q)))).
    cbn [parse_number]. rewrite parse_unsigned_int by lia. cbn [option_map].
    do 2 f_equal. unfold Qcopp. apply Q2Qc_this.
    unfold Qc_of_Z; cbn [this Q2Qc]. rewrite Qred_correct.
    destruct q as [[n d] Hc]. cbn [this Qnum Qden] in *.
    unfold Qeq, Qopp, inject_Z; cbn [Qnum Qden]. lia.
  - change ("" ++ digits (Z.abs (Qnum q))) with (digits (Z.abs (Qnum q))).
    rewrite <- (append_nil_r (digits (Z.abs (Qnum q)))) at 1.
    rewrite parse_number_digits, append_nil_r.
    rewrite parse_unsigned_int by lia. cbn [option_map].
    do 2 f_equal. rewrite Z.abs_eq by lia. now apply Qc_of_Z_integer.
Qed.

Lemma decimal_back (q : Qc) (k : nat) :
  ((10 ^ Z.of_nat k) mod Zpos (Qden q) = 0)%Z ->
  let m := (Z.abs (Qnum q) * (10 ^ Z.of_nat k / Zpos (Qden q)))%Z in
  (((m / 10 ^ Z.of_nat k * 10 ^ Z.of_nat k + m mod 10 ^ Z.of_nat k)
    # Z.to_pos (10 ^ Z.of_nat k)) == Z.abs (Qnum q) # Qden q)%Q.
Proof.
  intros Hdiv m.
  assert (Hp : (0 < 10 ^ Z.of_nat k)%Z) by (apply Z.pow_pos_nonneg; lia).
  replace (m / 10 ^ Z.of_nat k * 10 ^ Z.of_nat k + m mod 10 ^ Z.of_nat k)%Z
    with m by (pose proof (Z.div_mod m (10 ^ Z.of_nat k)); lia).
  unfold Qeq; cbn [Qnum Qden]. rewrite Z2Pos.id by exact Hp.
  unfold m. apply Z.div_exact in Hdiv; [|lia]. rewrite Hdiv at 2. ring.
Qed.

Lemma parse_number_float (q : Qc) :
  ((10 ^ Z.of_nat (places q)) mod Zpos (Qden q) = 0)%Z ->
  parse_number (format_float q) = Some (Fin q).
Proof.
  intros Hdiv. unfold format_float, sign_text.
  set (k := places q) in *.
  set (m := (Z.abs (Qnum q) * (10 ^ Z.of_nat k / Zpos (Qden q)))%Z).
  assert (Hp : (0 < 10 ^ Z.of_nat k)%Z) by (apply Z.pow_pos_nonneg; lia).
  assert (Hm : (0 <= m)%Z).
  { unfold m. apply Z.mul_nonneg_nonneg; [lia|]. apply Z.div_pos; lia. }
  assert (Ha : (0 <= m / 10 ^ Z.of_nat k)%Z) by (apply Z.div_pos; lia).
  assert (Hb : (0 <= m mod 10 ^ Z.of_nat k < 10 ^ Z.of_nat k)%Z)
    by (apply Z.mod_pos_bound; lia).
  assert (Hk : (1 <= k)%nat) by apply places_ge.
  pose proof (decimal_back q k Hdiv) as Hback. cbv zeta in Hback. fold m in Hback.
  destruct (Z.ltb_spec (Qnum q) 0) as [Hneg|Hpos].
  - change ("-" ++ digits (m / 10 ^ Z.of_nat k) ++ "."
            ++ digits_fixed k (m mod 10 ^ Z.of_nat k))
      with (String "-" (digits (m / 10 ^ Z.of_nat k) ++ "."
                        ++ digits_fixed k (m mod 10 ^ Z.of_nat k))).
    cbn [parse_number]. rewrite parse_unsigned_float by assumption.
    cbn [option_map]. do 2 f_equal. unfold Qcopp. apply Q2Qc_this.
    cbn [this Q2Qc]. rewrite Qred_correct, Hback.
    destruct q as [[n d] Hc]. cbn [this Qnum Qden] in *.
    unfold Qeq, Qopp; cbn [Qnum Qden]. lia.
  - change ("" ++ digits (m / 10 ^ Z.of_nat k) ++ "."
            ++ digits_fixed k (m mod 10 ^ Z.of_nat k))
      with (digits (m / 10 ^ Z.of_nat k) ++ "."
            ++ digits_fixed k (m mod 10 ^ Z.of_nat k)).
    rewrite parse_number_digits, parse_unsigned_float by assumption.
    cbn [option_map]. do 2 f_equal. apply Q2Qc_this. rewrite Hback.
    destruct q as [[n d] Hc']. cbn [this Qnum Qden] in *.
    unfold Qeq; cbn [Qnum Qden]. lia.
Qed.

Lemma parse_number_format (dt : value_dtype) (v : fval) :
  printable dt v = true -> parse_number (format_value dt v) = Some v.
Proof.
  destruct v as [q| | |], dt; simpl; try discriminate; intros H.
  - apply andb_true_iff in H. destruct H as [H _].
    apply parse_number_int. now apply Z.eqb_eq.
  - unfold plain_decimal in H. cbv zeta in H.
    apply andb_true_iff in H. destruct H as [H _].
    apply andb_true_iff in H. destruct H as [H _].
    apply parse_number_float. now apply Z.eqb_eq.
  - reflexivity.
Qed.

(** ** Lines of the export *)

Lemma sign_text_field (q : Qc) : every field_char (sign_text q) = true.
Proof.
  unfold sign_text. now destruct (Qnum q <? 0)%Z.
Qed.

Lemma format_value_field (dt : value_dtype) (v : fval) :
  printable dt v = true -> every field_char (format_value dt v) = true.
Proof.
  destruct v as [q| | |], dt; simpl; try discriminate; intros _.
  - unfold format_int. rewrite every_app, sign_text_field.
    apply (every_mono is_digit); [exact is_digit_field|apply digits_digits].
  - unfold format_float. rewrite !every_app, sign_text_field.
    rewrite (every_mono is_digit field_char _ is_digit_field (digits_digits _)).
    rewrite (every_mono is_digit field_char _ is_digit_field (digits_fixed_digits _ _)).
    reflexivity.
  - reflexivity.
Qed.

Lemma line_char_no_linebreak (c : ascii) :
  line_char c = true -> Py.is_linebreak c = false.
Proof.
  destruct c as [[] [] [] [] [] [] [] []]; intros H; try discriminate H; reflexivity.
Qed.

Lemma field_line (c : ascii) : field_char c = true -> line_char c = true.
Proof.
  intros H. unfold line_char. now rewrite H.
Qed.

Lemma csv_line_clean (dt : value_dtype) (row : date * fval) :
  printable dt (snd row) = true -> no_linebreak (csv_line dt row) = true.
Proof.
  intros H. apply (every_no_linebreak line_char); [exact line_char_no_linebreak|].
  unfold csv_line. rewrite !every_app.
  rewrite (every_mono field_char line_char _ field_line (format_date_field _)).
  rewrite (every_mono field_char line_char _ field_line (format_value_field _ _ H)).
  reflexivity.
Qed.

Lemma csv_line_nonblank (dt : value_dtype) (row : date * fval) :
  nonblank (csv_line dt row) = true.
Proof.
  unfold csv_line, format_date. cbn [digits_fixed append]. reflexivity.
Qed.

Lemma csv_line_fields (dt : value_dtype) (row : date * fval) :
  printable dt (snd row) = true ->
  Py.split "," (csv_line dt row) = [format_date (fst row); format_value dt (snd row)].
Proof.
  intros H. unfold csv_line.
  change ("," ++ format_value dt (snd row)) with (String "," (format_value dt (snd row))).
  rewrite split_field by (apply field_lacks; [reflexivity|apply format_date_field]).
  rewrite split_whole
    by (apply field_lacks; [reflexivity|now apply format_value_field]).
  reflexivity.
Qed.

Local Close Scope string_scope.

Lemma to_csv_lines (dt : value_dtype) (rows : list (date * fval)) :
  Forall (fun row => printable dt (snd row) = true) rows ->
  Py.splitlines (to_csv dt rows) = "Date,Value"%string :: map (csv_line dt) rows.
Proof.
  intros H. unfold to_csv.
  change (fold_right (fun line text => (line ++ NL ++ text)%string) EmptyString
                     ("Date,Value"%string :: map (csv_line dt) rows))
    with (prepend_lines ("Date,Value"%string :: map (csv_line dt) rows) EmptyString).
  rewrite splitlines_prepend; [now rewrite app_nil_r|].
  constructor; [reflexivity|]. apply Forall_forall. intros l Hl.
  apply in_map_iff in Hl. destruct Hl as (row & <- & Hrow).
  rewrite Forall_forall in H. apply csv_line_clean. now apply H.
Qed.

Lemma chomp_nonblank (ls : list string) :
  Forall (fun l => nonblank l = true) ls -> chomp ls = ls.
Proof.
  induction 1 as [|l ls Hl Hls IH]; [reflexivity|].
  cbn [chomp]. destruct ls as [|l2 ls].
  - destruct l; [discriminate|reflexivity].
  - now rewrite IH.
Qed.

Lemma filter_nonblank (ls : list string) :
  Forall (fun l => nonblank l = true) ls -> filter nonblank ls = ls.
Proof.
  intros H. apply filter_all. now apply Forall_forall.
Qed.

Lemma export_lines_nonblank (dt : value_dtype) (rows : list (date * fval)) :
  Forall (fun l => nonblank l = true)
         ("Date,Value"%string :: map (csv_line dt) rows).
Proof.
  constructor; [reflexivity|]. apply Forall_forall. intros l Hl.
  apply in_map_iff in Hl. destruct Hl as (row & <- & _). apply csv_line_nonblank.
Qed.

Lemma export_lines_clean (dt : value_dtype) (rows : list (date * fval)) :
  Forall (fun row => printable dt (snd row) = true) rows ->
  Forall (fun l => no_linebreak l = true)
         ("Date,Value"%string :: map (csv_line dt) rows).
Proof.
  intros H. constructor; [reflexivity|]. apply Forall_forall. intros l Hl.
  apply in_map_iff in Hl. destruct Hl as (row & <- & Hrow).
  rewrite Forall_forall in H. apply csv_line_clean. now apply H.
Qed.

Lemma map_snd_combine {T U : Type} (idx : list T) (l : list U) :
  List.length idx = List.length l -> map snd (combine idx l) = l.
Proof.
  revert idx. induction l as [|x l IH]; intros [|i idx] H; simpl in *;
    try reflexivity; try discriminate.
  rewrite IH; [reflexivity|lia].
Qed.

Lemma combine_map_both {T U V : Type} (g : T -> U) (h : T -> V) (l : list T) :
  combine (map g l) (map h l) = map (fun x => (g x, h x)) l.
Proof.
  induction l as [|x l IH]; simpl; [reflexivity|]. now rewrite IH.
Qed.

Lemma mapM_ok {T U : Type} (f : T -> result U) (h : T -> U) (l : list T) :
  (forall x, In x l -> f x = Ok (h x)) -> mapM f l = Ok (map h l).
Proof.
  induction l as [|x l IH]; intros H; simpl; [reflexivity|].
  rewrite (H x (or_introl eq_refl)). simpl. rewrite IH; [reflexivity|].
  intros y Hy. apply H. now right.
Qed.

Lemma forallb_map_true {T U : Type} (f : U -> bool) (g : T -> U) (l : list T) :
  (forall x, In x l -> f (g x) = true) -> forallb f (map g l) = true.
Proof.
  intros H. apply forallb_forall. intros y Hy.
  apply in_map_iff in Hy. destruct Hy as (x & <- & Hx). now apply H.
Qed.

Section ReadBack.

Variable dt : value_dtype.
Variable rows : list (date * fval).
Hypothesis rows_printable : Forall (fun row => printable dt (snd row) = true) rows.
Hypothesis rows_valid : Forall (fun row => valid_date (fst row) = true) rows.

Let fields : list (list string) :=
  map (fun row => [format_date (fst row); format_value dt (snd row)]) rows.

Lemma export_fields :
  map (Py.split ",") (map (csv_line dt) rows) = fields.
Proof.
  unfold fields. rewrite map_map. apply map_ext_in. intros row Hrow.
  apply csv_line_fields.
  exact (proj1 (Forall_forall _ _) rows_printable row Hrow).
Qed.

Lemma export_types :
  map (fun j => infer j (map (fun r => nth j r EmptyString) fields)) (seq 0 2)
  = [fst (read_types rows); snd (read_types rows)].
Proof.
  unfold fields. cbn [seq map]. rewrite !map_map. cbn [nth].
  destruct rows as [|row rest]; [reflexivity|].
  set (rs := row :: rest) in *.
  change (read_types rs) with (DateTime, Numeric). cbn [fst snd].
  unfold infer.
  destruct (map (fun x => format_date (fst x)) rs) eqn:E0; [discriminate E0|].
  destruct (map (fun x => format_value dt (snd x)) rs) eqn:E1; [discriminate E1|].
  rewrite <- E0, <- E1. cbn [Nat.eqb andb].
  rewrite forallb_map_true.
  - rewrite forallb_map_true; [reflexivity|].
    intros x Hx. rewrite parse_number_format; [reflexivity|].
    exact (proj1 (Forall_forall _ _) rows_printable x Hx).
  - intros x Hx. rewrite parse_stamp_format; [reflexivity|].
    exact (proj1 (Forall_forall _ _) rows_valid x Hx).
Qed.

End ReadBack.

Lemma combine_map_r {T U V : Type} (g : U -> V) (idx : list T) (l : list U) :
  combine idx (map g l) = map (fun ir => (fst ir, g (snd ir))) (combine idx l).
Proof.
  revert idx. induction l as [|x l IH]; intros [|i idx]; simpl; try reflexivity.
  now rewrite IH.
Qed.

Lemma csv_reader_export (dt : value_dtype) (rows : list (date * fval)) :
  Forall (fun row => printable dt (snd row) = true) rows ->
  Forall (fun row => valid_date (fst row) = true) rows ->
  csv_reader (Py.join NL ("Date,Value"%string :: map (csv_line dt) rows))
  = Ok (read_back rows).
Proof.
  intros Hp Hv. unfold csv_reader.
  rewrite splitlines_join by (now apply export_lines_clean).
  rewrite chomp_nonblank, filter_nonblank by apply export_lines_nonblank.
  change (Py.split "," "Date,Value") with ["Date"%string; "Value"%string].
  rewrite (export_fields dt rows Hp).
  rewrite forallb_map_true by reflexivity.
  change (List.length ["Date"%string; "Value"%string]) with 2%nat.
  rewrite (export_types dt rows Hp Hv).
  unfold read_back. f_equal. f_equal.
  rewrite length_map, combine_map_r, map_map.
  apply map_ext_in. intros [i row] Hin. cbn [fst snd]. f_equal.
  apply in_combine_r in Hin.
  destruct rows as [|r0 rest]; [contradiction|].
  change (read_types (r0 :: rest)) with (DateTime, Numeric). cbn [fst snd convert_row].
  unfold read_cells, convert.
  rewrite parse_stamp_format
    by exact (proj1 (Forall_forall _ _) Hv row Hin).
  rewrite parse_number_format
    by exact (proj1 (Forall_forall _ _) Hp row Hin).
  reflexivity.
Qed.

Lemma sorted_combine {T : Type} (idx : list T) (rows : list (date * fval)) :
  Sorted date_le (map fst rows) ->
  Sorted (fun a b : T * (date * fval) =>
            date_leb (fst (snd a)) (fst (snd b)) = true)
         (combine idx rows).
Proof.
  revert idx. induction rows as [|r rows IH]; intros idx H.
  - destruct idx; constructor.
  - destruct idx as [|i idx]; [constructor|].
    cbn [map] in H. apply Sorted_inv in H. destruct H as [Hs Hhd].
    cbn [combine]. constructor; [now apply IH|].
    destruct rows as [|r' rows]; [destruct idx; constructor|].
    destruct idx as [|i' idx]; [constructor|].
    cbn [combine]. constructor. cbn [fst snd].
    cbn [map] in Hhd. now apply HdRel_inv in Hhd.
Qed.

Lemma normalise_read_back (rows : list (date * fval)) :
  Sorted date_le (map fst rows) ->
  (df <- to_date_column to_stamp "Date" (strip_columns (read_back rows)) ;;
   Ok (set_index "Date" (sort_values "Date" df)))
  = Ok (loaded_table rows).
Proof.
  intros Hs.
  set (L := combine (seq 0 (List.length rows)) rows).
  set (G := fun ir : nat * (date * fval) =>
              (CInt (Z.of_nat (fst ir)), read_cells (snd ir))).
  set (G1 := fun ir : nat * (date * fval) =>
               (CInt (Z.of_nat (fst ir)),
                [CDate (fst (snd ir)); CNum (snd (snd ir))])).
  set (cols1 := [("Date"%string, Object); ("Value"%string, snd (read_types rows))]).
  assert (H1 : to_date_column to_stamp "Date" (strip_columns (read_back rows))
               = Ok (mkdf None cols1 (map G1 L))).
  { unfold to_date_column.
    change (position "Date" (column_names (strip_columns (read_back rows))))
      with (Some 0%nat).
    change (data (strip_columns (read_back rows))) with (map G L).
    cbv iota beta. rewrite mapM_map.
    rewrite (mapM_ok _ (fun ir : nat * (date * fval) => to_datetime (fst (snd ir))))
      by reflexivity.
    cbn [rbind]. f_equal. f_equal.
    rewrite combine_map_both, map_map. apply map_ext. reflexivity. }
  rewrite H1. cbn [rbind].
  assert (H2 : sort_values "Date" (mkdf None cols1 (map G1 L))
               = mkdf None cols1 (map G1 L)).
  { unfold sort_values.
    change (position "Date" (column_names (mkdf None cols1 (map G1 L))))
      with (Some 0%nat).
    cbn [data columns index_name]. f_equal.
    rewrite (sort_by_map G1
               (fun a b : nat * (date * fval) =>
                  date_leb (fst (snd a)) (fst (snd b))))
      by reflexivity.
    now rewrite sort_by_id by (apply sorted_combine; exact Hs). }
  rewrite H2. unfold set_index.
  change (position "Date" (column_names (mkdf None cols1 (map G1 L))))
    with (Some 0%nat).
  cbn [data columns index_name]. unfold loaded_table. f_equal.
  rewrite map_map.
  rewrite <- (map_snd_combine (seq 0 (List.length rows)) rows) at 2
    by apply length_seq.
  fold L. rewrite map_map. reflexivity.
Qed.

Lemma pairs_of_loaded_table (rows : list (date * fval)) :
  pairs_of (loaded_table rows) = Some rows.
Proof.
  unfold pairs_of, loaded_table. cbn [column_names columns map fst position].
  change (String.eqb "Value" "Value") with true. cbv iota. cbn [data].
  rewrite map_map. induction rows as [|[d v] rows IH]; [reflexivity|].
  change (map (fun x : date * fval => pair_of 0 (CDate (fst x), [CNum (snd x)]))
              ((d, v) :: rows))
    with (Some (d, v)
          :: map (fun x : date * fval => pair_of 0 (CDate (fst x), [CNum (snd x)]))
                 rows).
  cbn [all_some]. now rewrite IH.
Qed.

(** Loading the export of a table sorted by date gives the table back. *)
Lemma load_export (dt : value_dtype) (rows : list (date * fval)) :
  Sorted date_le (map fst rows) ->
  Forall (fun row => valid_date (fst row) = true) rows ->
  Forall (fun row => printable dt (snd row) = true) rows ->
  load_csv_auto csv_reader to_stamp (to_csv dt rows) = Ok (loaded_table rows)
  /\ parse_uploaded csv_reader to_stamp (to_csv dt rows) = Ok (loaded_table rows).
Proof.
  intros Hs Hv Hp.
  assert (Hload : load_csv_auto csv_reader to_stamp (to_csv dt rows)
                  = Ok (loaded_table rows)).
  { unfold load_csv_auto. rewrite (to_csv_lines dt rows Hp).
    change (find_header ("Date,Value"%string :: map (csv_line dt) rows))
      with (Some 0%nat).
    cbn [skipn]. rewrite (csv_reader_export dt rows Hp Hv). cbn [rbind].
    change (has_column "Date" (strip_columns (read_back rows))) with true.
    cbv iota. now apply normalise_read_back. }
  split; [exact Hload|].
  rewrite <- Hload. symmetry.
  apply (loaders_agree csv_reader to_stamp (to_csv dt rows) 0).
  - now rewrite (to_csv_lines dt rows Hp).
  - rewrite (to_csv_lines dt rows Hp). cbn [skipn].
    rewrite (csv_reader_export dt rows Hp Hv). now intros df [= <-].
Qed.

(** * The shape of a header line *)

Local Open Scope string_scope.

Lemma lstrip_split (s : string) :
  exists pad, all_space pad = true /\ s = pad ++ Py.lstrip s.
Proof.
  induction s as [|c s (pad & Hp & E)].
  - now exists "".
  - cbn [Py.lstrip]. destruct (Py.is_space c) eqn:Ec.
    + exists (String c pad). cbn [all_space append]. rewrite Ec, Hp.
      split; [reflexivity|]. now rewrite <- E.
    + now exists "".
Qed.

Lemma rstrip_split (s : string) :
  exists pad, all_space pad = true /\ s = Py.rstrip s ++ pad.
Proof.
  induction s as [|c s (pad & Hp & E)].
  - now exists "".
  - rewrite rstrip_cons. destruct (Py.rstrip s) as [|x r] eqn:Er.
    + cbn [append] in E. subst pad. destruct (Py.is_space c) eqn:Ec.
      * exists (String c s). cbn [all_space append]. now rewrite Ec, Hp.
      * exists s. now split.
    + exists pad. split; [exact Hp|]. cbn [append]. f_equal. exact E.
Qed.

Lemma rstrip_nonspace (c : ascii) (s : string) :
  Py.is_space c = false -> Py.rstrip (String c s) = String c (Py.rstrip s).
Proof.
  intros H. rewrite rstrip_cons. destruct (Py.rstrip s); [now rewrite H|reflexivity].
Qed.

Lemma lstrip_nonspace (c : ascii) (s : string) :
  Py.is_space c = false -> Py.lstrip (String c s) = String c s.
Proof.
  intros H. cbn [Py.lstrip]. now rewrite H.
Qed.

Lemma lower_char_is (c : ascii) (x : ascii) :
  (x = "d" \/ x = "a" \/ x = "t" \/ x = "e" \/ x = ",")%char ->
  Py.lower_char c = x ->
  c = x \/ (c = "D" /\ x = "d")%char \/ (c = "A" /\ x = "a")%char
  \/ (c = "T" /\ x = "t")%char \/ (c = "E" /\ x = "e")%char.
Proof.
  intros Hx <-. revert Hx.
  destruct c as [[] [] [] [] [] [] [] []]; cbv;
    intros [H|[H|[H|[H|H]]]]; try discriminate H; auto 10.
Qed.

Lemma is_header_shaped (line : string) :
  is_header line = true <-> header_shaped line.
Proof.
  unfold is_header. rewrite startswith_iff. split.
  - intros [rest E].
    destruct (lstrip_split line) as (pad & Hpad & Hline).
    destruct (rstrip_split (Py.lstrip line)) as (sp & Hsp & Hbody).
    unfold Py.strip in E.
    destruct (Py.rstrip (Py.lstrip line)) as [|c1 [|c2 [|c3 [|c4 [|c5 r]]]]];
      try discriminate E.
    cbn [Py.lower append] in E. injection E as E1 E2 E3 E4 E5 _.
    exists pad, c1, c2, c3, c4, (r ++ sp). split; [exact Hpad|].
    destruct (lower_char_is c5 "," ltac:(auto 10) E5)
      as [->|[[_ H]|[[_ H]|[[_ H]|[_ H]]]]]; try discriminate H.
    split; [rewrite Hline at 1; rewrite Hbody; reflexivity|].
    destruct (lower_char_is c1 "d" ltac:(auto 10) E1)
      as [->|[[-> _]|[[_ H]|[[_ H]|[_ H]]]]]; try discriminate H;
    destruct (lower_char_is c2 "a" ltac:(auto 10) E2)
      as [->|[[_ H]|[[-> _]|[[_ H]|[_ H]]]]]; try discriminate H;
    destruct (lower_char_is c3 "t" ltac:(auto 10) E3)
      as [->|[[_ H]|[[_ H]|[[-> _]|[_ H]]]]]; try discriminate H;
    destruct (lower_char_is c4 "e" ltac:(auto 10) E4)
      as [->|[[_ H]|[[_ H]|[[_ H]|[-> _]]]]]; try discriminate H;
    auto.
  - intros (pad & c1 & c2 & c3 & c4 & rest & Hpad & -> & H1 & H2 & H3 & H4).
    unfold Py.strip. rewrite lstrip_pad by assumption.
    exists (Py.lower (Py.rstrip rest)).
    destruct H1 as [-> | ->], H2 as [-> | ->], H3 as [-> | ->], H4 as [-> | ->];
      rewrite lstrip_nonspace by reflexivity;
      repeat (rewrite rstrip_nonspace by reflexivity); reflexivity.
Qed.

Local Close Scope string_scope.

(** * Resampling the loaded table *)

Lemma as_frame_kind (df : DataFrame) (fr : frame) :
  as_frame df = Some fr -> kind fr = DateObjects.
Proof.
  unfold as_frame. destruct (pairs_of df) as [ps|]; [|discriminate].
  destruct (all_some (map finite_pair ps)); [|discriminate].
  now intros [= <-].
Qed.

(** C2 (the code departs from it): the loader labels the rows with
    [datetime.date] objects, and pandas resamples only an index of
    timestamps.  So on every table the loader returns, the monthly
    resampling raises [TypeError] where the specification has one mean per
    month: at line 126 once the monthly frequency is chosen, the page ending
    before its chart, and at line 165 in every run.  So it is on the three
    rows of the scenario of the specification, read from their CSV text. *)
Theorem resample_monthly_raises_TypeError :
  (forall df fr, as_frame df = Some fr -> kind fr = DateObjects)
  /\ (forall fr, kind fr = DateObjects ->
        resample freq_M fr = Raise TypeError
        /\ forall n, monthly_means fr n = Raise TypeError)
  /\ (forall opts fr start end_ out,
        kind fr = DateObjects -> date_range opts = [start; end_] ->
        resample_freq opts = freq_M ->
        main_view opts fr out = (out, Raise TypeError))
  /\ (exists df,
        load_csv_auto csv_reader to_stamp
          ("Date,Value" ++ NL ++ "2020-01-01,10.0" ++ NL ++ "2020-01-02,20.0" ++ NL
           ++ "2020-02-01,30.0" ++ NL)%string = Ok df
        /\ as_frame df
           = Some (mkframe DateObjects
                     [(mkdate 2020 1 1, Qc_of_Z 10); (mkdate 2020 1 2, Qc_of_Z 20);
                      (mkdate 2020 2 1, Qc_of_Z 30)]))
  /\ resample freq_M
       (mkframe DateObjects
          [(mkdate 2020 1 1, Qc_of_Z 10); (mkdate 2020 1 2, Qc_of_Z 20);
           (mkdate 2020 2 1, Qc_of_Z 30)])
     = Raise TypeError
  /\ main_view
       (mkopts [mkdate 2020 1 1; mkdate 2020 2 1] true Line false None freq_M
               false false)
       (mkframe DateObjects
          [(mkdate 2020 1 1, Qc_of_Z 10); (mkdate 2020 1 2, Qc_of_Z 20);
           (mkdate 2020 2 1, Qc_of_Z 30)]) []
     = ([], Raise TypeError).
Proof.
  split; [exact as_frame_kind|]. split.
  { intros fr Hk. split; [|intros n].
    - now apply resample_date_objects.
    - unfold monthly_means, resample_mean. now rewrite Hk. }
  split.
  { intros opts fr start end_ out Hk Hr Hf.
    apply (main_view_resample_raises opts fr start end_); [exact Hr|].
    rewrite Hf. now apply resample_date_objects. }
  split.
  { eexists. split; [vm_compute; reflexivity|].
    unfold as_frame. 
    match goal with |- match ?p with _ => _ end = _ =>
      let v := eval vm_compute in p in change p with v end.
    cbn [map finite_pair snd fst all_some option_map].
    do 2 f_equal. repeat f_equal; apply Qc_is_canon; reflexivity. }
  split; reflexivity.
Qed.

(** * The round trip through the export *)

Lemma filter_rows_filter (start end_ : date) (l : list (date * fval)) :
  filter_rows start end_ l
  = filter (fun row => date_leb start (fst row) && date_leb (fst row) end_) l.
Proof.
  unfold filter_rows, range_mask. rewrite loc_mask_filter.
  apply filter_ext. intros [d v]. cbn [fst]. now rewrite !ts_leb_midnight.
Qed.

Lemma filter_map_commute {T U : Type} (f : U -> bool) (g : T -> U) (l : list T) :
  filter f (map g l) = map g (filter (fun x => f (g x)) l).
Proof.
  induction l as [|x l IH]; simpl; [reflexivity|].
  destruct (f (g x)); simpl; now rewrite IH.
Qed.

Lemma cells_of_filter_view (start end_ : date) (df : frame) :
  cells_of (filter_view start end_ df) = filter_rows start end_ (cells_of df).
Proof.
  unfold cells_of. rewrite filter_view_rows, filter_rows_filter.
  rewrite filter_map_commute. reflexivity.
Qed.

Lemma Forall_filter_keep {T : Type} (P : T -> Prop) (f : T -> bool) (l : list T) :
  Forall P l -> Forall P (filter f l).
Proof.
  rewrite !Forall_forall. intros H x Hx. apply H.
  apply filter_In in Hx. tauto.
Qed.

Lemma Sorted_fst_filter {T : Type} (f : date * T -> bool) (l : list (date * T)) :
  Sorted date_le (map fst l) -> Sorted date_le (map fst (filter f l)).
Proof.
  intros Hs. apply (Sorted_StronglySorted date_le_trans) in Hs.
  apply StronglySorted_Sorted.
  induction l as [|x l IH]; [constructor|].
  cbn [map] in Hs. apply StronglySorted_inv in Hs. destruct Hs as [Hs Hall].
  cbn [filter]. destruct (f x); [|now apply IH].
  cbn [map]. constructor; [now apply IH|].
  rewrite Forall_forall in *. intros d Hd. apply Hall.
  apply in_map_iff in Hd. destruct Hd as (r & <- & Hr).
  apply filter_In in Hr. apply in_map. tauto.
Qed.

Lemma all_some_finite (l : list (date * Qc)) :
  all_some (map finite_pair (map (fun row => (fst row, Fin (snd row))) l))
  = Some l.
Proof.
  induction l as [|[d q] l IH]; [reflexivity|].
  cbn [map all_some finite_pair fst snd]. now rewrite IH.
Qed.

Lemma as_frame_loaded_table (view : frame) :
  as_frame (loaded_table (cells_of view)) = Some (mkframe DateObjects (rows view)).
Proof.
  unfold as_frame. rewrite pairs_of_loaded_table.
  unfold cells_of. now rewrite all_some_finite.
Qed.



(** * The header line and what is read after it *)

Lemma is_space_whitespace (c : ascii) :
  Py.is_space c = true <-> In (N_of_ascii c) whitespace.
Proof.
  destruct c as [[] [] [] [] [] [] [] []]; vm_compute;
    (split; [intros H; try discriminate H; tauto
            |intros H; try reflexivity;
             repeat (destruct H as [H|H]; [discriminate H|]); destruct H]).
Qed.

Lemma all_space_padding (s : string) : all_space s = true <-> padding s.
Proof.
  induction s as [|c s IH]; simpl; [tauto|].
  rewrite andb_true_iff, is_space_whitespace, IH. reflexivity.
Qed.

Lemma is_header_form (line : string) : is_header line = true <-> header_form line.
Proof.
  rewrite is_header_shaped. unfold header_shaped, header_form.
  split; intros (pad & c1 & c2 & c3 & c4 & rest & Hp & H);
    exists pad, c1, c2, c3, c4, rest; (split; [|exact H]);
    now apply all_space_padding.
Qed.

Lemma remove_nth_update_nth {T : Type} (p : nat) (f : T -> T) (l : list T) :
  remove_nth p (update_nth p f l) = remove_nth p l.
Proof.
  revert p. induction l as [|x l IH]; intros [|p]; simpl; try reflexivity.
  now rewrite IH.
Qed.

Section HeaderPath.

Variable read_csv : string -> result DataFrame.
Variable to_timestamp : cell -> result timestamp.

Let load := load_csv_auto read_csv to_timestamp.
Let upload := parse_uploaded read_csv to_timestamp.

(** With a header line and a column named [Date], the table returned holds
    the rows read, each labelled with the date of its cell in that column
    and without that cell, in the order of the dates. *)
Lemma header_path_table (text : string) (i p : nat) (df : DataFrame)
      (ds : list timestamp) :
  find_header (Py.splitlines text) = Some i ->
  read_csv (Py.join NL (skipn i (Py.splitlines text))) = Ok df ->
  rectangular df ->
  position "Date" (column_names (strip_columns df)) = Some p ->
  mapM to_timestamp (column_cells p df) = Ok ds ->
  exists out,
    load text = Ok out
    /\ index_name out = Some "Date"%string
    /\ columns out = remove_nth p (columns (strip_columns df))
    /\ Permutation (data out)
         (map (fun rd => (CDate (ts_date (snd rd)), remove_nth p (snd (fst rd))))
              (combine (data df) ds))
    /\ Sorted cell_le (labels out).
Proof.
  intros Hfind Hread Hrect Hpos Hds.
  unfold load, load_csv_auto. rewrite Hfind, Hread. cbn [rbind].
  rewrite (position_has_column _ _ _ Hpos).
  unfold to_date_column. rewrite Hpos.
  unfold column_cells in Hds. rewrite mapM_map in Hds.
  cbn [strip_columns data]. rewrite Hds. cbn [rbind].
  set (df1 := mkdf _ _ _).
  assert (Hpos1 : position "Date" (column_names df1) = Some p).
  { unfold df1, column_names; cbn [columns]. rewrite update_nth_names. exact Hpos. }
  set (key := fun r : cell * list cell => nth p (snd r) (CStr "")).
  assert (Hlen : forall r, In r (data df) -> (p < List.length (snd r))%nat).
  { intros r Hin. rewrite (Hrect r Hin).
    apply position_lt in Hpos. unfold column_names in Hpos.
    rewrite length_map in Hpos. cbn [strip_columns columns] in Hpos.
    now rewrite length_map in Hpos. }
  unfold sort_values. rewrite Hpos1. unfold set_index, column_names; cbn [columns].
  fold (column_names df1). rewrite Hpos1. cbn [index_name data].
  eexists. split; [reflexivity|]. split; [reflexivity|].
  cbn [columns data]. split; [unfold df1; cbn [columns]; apply remove_nth_update_nth|].
  split.
  - eapply Permutation_trans.
    + apply Permutation_map. apply Permutation_sym. apply sort_by_perm.
    + unfold df1; cbn [data]. rewrite map_map.
      erewrite map_ext_in; [reflexivity|].
      intros [r t] Hin. cbn [fst snd]. apply in_combine_l in Hin.
      rewrite nth_update_nth by now apply Hlen.
      now rewrite remove_nth_update_nth.
  - unfold labels; cbn [data]. rewrite map_map; cbn [fst]. fold key.
    apply (Sorted_map (fun r1 r2 => cell_leb (key r1) (key r2) = true)).
    + intros x y H. exact H.
    + apply sort_by_sorted. intros x y. apply cell_leb_total.
Qed.

(** C7: a header line is a line that opens, after whitespace, with the
    letters of [date] in either case and a comma.  The loader takes the
    first such line and hands pandas the text from that line on, whose
    table it returns: as read, with stripped column names, when it has no
    column named [Date]; otherwise labelled and ordered by the dates of
    that column.  Nothing of the lines before is read.  Without a header
    line the whole text is read as it is.  Hence lines of other content
    put before a text that starts with its header line do not change the
    table loaded. *)
Theorem load_csv_auto_header_line (text : string) :
  (forall line, is_header line = true <-> header_form line)
  /\ (forall i,
        find_header (Py.splitlines text) = Some i <->
        (exists line, nth_error (Py.splitlines text) i = Some line
                      /\ header_form line)
        /\ (forall j l, (j < i)%nat -> nth_error (Py.splitlines text) j = Some l ->
                        ~ header_form l))
  /\ (forall i,
        find_header (Py.splitlines text) = Some i ->
        exists h rest,
          skipn i (Py.splitlines text) = h :: rest
          /\ header_form h
          /\ Py.startswith (Py.join NL (h :: rest)) h = true
          /\ (forall e, read_csv (Py.join NL (h :: rest)) = Raise e ->
                        load text = Raise e)
          /\ (forall df,
                read_csv (Py.join NL (h :: rest)) = Ok df ->
                has_column "Date" (strip_columns df) = false ->
                load text = Ok (strip_columns df))
          /\ (forall df p,
                read_csv (Py.join NL (h :: rest)) = Ok df ->
                rectangular df ->
                position "Date" (column_names (strip_columns df)) = Some p ->
                (forall e, mapM to_timestamp (column_cells p df) = Raise e ->
                           load text = Raise e)
                /\ (forall ds,
                      mapM to_timestamp (column_cells p df) = Ok ds ->
                      exists out,
                        load text = Ok out
                        /\ index_name out = Some "Date"%string
                        /\ columns out = remove_nth p (columns (strip_columns df))
                        /\ Permutation (data out)
                             (map (fun rd => (CDate (ts_date (snd rd)),
                                              remove_nth p (snd (fst rd))))
                                  (combine (data df) ds))
                        /\ Sorted cell_le (labels out))))
  /\ (forall i text' i',
        find_header (Py.splitlines text) = Some i ->
        find_header (Py.splitlines text') = Some i' ->
        skipn i (Py.splitlines text) = skipn i' (Py.splitlines text') ->
        load text = load text')
  /\ ((forall l, In l (Py.splitlines text) -> ~ header_form l) ->
      load text = (df <- read_csv text ;; Ok (strip_columns df)))
  /\ (forall meta h rest,
        Py.splitlines text = h :: rest -> header_form h ->
        Forall (fun l => ~ header_form l) meta ->
        Forall (fun l => no_linebreak l = true) meta ->
        find_header (Py.splitlines (prepend_lines meta text))
        = Some (List.length meta)
        /\ load (prepend_lines meta text) = load text
        /\ upload (prepend_lines meta text) = upload text).
Proof.
  assert (Hnot : forall l, ~ header_form l <-> is_header l = false).
  { intros l. rewrite <- is_header_form. now destruct (is_header l). }
  split; [exact is_header_form|].
  split.
  { intros i. rewrite find_header_some. split.
    - intros [(line & Hl & Hh) Hb]. split.
      + exists line. split; [exact Hl|]. now apply is_header_form.
      + intros j l Hj Hjl. apply Hnot. now apply (Hb j).
    - intros [(line & Hl & Hh) Hb]. split.
      + exists line. split; [exact Hl|]. now apply is_header_form.
      + intros j l Hj Hjl. apply Hnot. now apply (Hb j). }
  split.
  { intros i Hfind.
    destruct (find_header_split _ _ Hfind) as (_ & _ & h & rest & Hs & Hh).
    exists h, rest. split; [exact Hs|]. split; [now apply is_header_form|].
    split.
    { apply startswith_iff. unfold Py.join. destruct rest as [|l rest']; simpl.
      - exists EmptyString. now rewrite append_nil_r.
      - eexists. reflexivity. }
    rewrite <- Hs. split.
    { intros e He. unfold load, load_csv_auto. now rewrite Hfind, He. }
    split.
    { intros df Hdf Hno. unfold load, load_csv_auto.
      rewrite Hfind, Hdf. cbn [rbind]. now rewrite Hno. }
    intros df p Hdf Hrect Hpos. split.
    - intros e He. unfold load, load_csv_auto. rewrite Hfind, Hdf. cbn [rbind].
      rewrite (position_has_column _ _ _ Hpos).
      unfold to_date_column. rewrite Hpos.
      unfold column_cells in He. rewrite mapM_map in He.
      cbn [strip_columns data]. now rewrite He.
    - intros ds Hds. now apply (header_path_table text i p df ds). }
  split.
  { intros i text' i' H H' E. unfold load, load_csv_auto.
    now rewrite H, H', E. }
  split.
  { intros H. unfold load, load_csv_auto.
    replace (find_header (Py.splitlines text)) with (@None nat); [reflexivity|].
    symmetry. apply find_header_none. apply Forall_forall.
    intros l Hl. apply Hnot. now apply H. }
  intros meta h rest Hlines Hh Hmeta Hnb.
  assert (Hmeta' : Forall (fun l => is_header l = false) meta).
  { apply Forall_forall. intros l Hl. apply Hnot.
    now apply (proj1 (Forall_forall _ _) Hmeta). }
  apply is_header_form in Hh.
  destruct (find_header_after_meta meta h rest Hmeta' Hh) as [Hfind Hskip].
  assert (Hsplit : Py.splitlines (prepend_lines meta text) = meta ++ h :: rest)
    by (rewrite splitlines_prepend, Hlines; auto).
  assert (H0 : find_header (Py.splitlines text) = Some O)
    by (rewrite Hlines, find_header_cons, Hh; reflexivity).
  split; [now rewrite Hsplit|].
  unfold load, upload, load_csv_auto, parse_uploaded.
  rewrite Hsplit, Hfind, Hskip, H0, Hlines. cbn [skipn]. split; reflexivity.
Qed.

End HeaderPath.

(** C7 at work: two lines of other content, the second with a comma,
    before a header line that is indented; the rows that follow come back
    in date order. *)
Lemma load_csv_auto_header_line_witness :
  prepend_lines ["junk line"; "more, junk"]%string
    ("  Date,Value" ++ NL ++ "2020-01-02,2.5" ++ NL ++ "2020-01-01,1.5" ++ NL)%string
  = ("junk line" ++ NL ++ "more, junk" ++ NL
     ++ "  Date,Value" ++ NL ++ "2020-01-02,2.5" ++ NL ++ "2020-01-01,1.5" ++ NL)%string
  /\ header_form "  Date,Value"
  /\ load_csv_auto csv_reader to_stamp
       ("junk line" ++ NL ++ "more, junk" ++ NL
        ++ "  Date,Value" ++ NL ++ "2020-01-02,2.5" ++ NL ++ "2020-01-01,1.5" ++ NL)%string
     = Ok (mkdf (Some "Date"%string) [("Value"%string, Numeric)]
             [(CDate (mkdate 2020 1 1), [CNum (Fin (Q2Qc (15 # 10)))]);
              (CDate (mkdate 2020 1 2), [CNum (Fin (Q2Qc (25 # 10)))])]).
Proof.
  split; [reflexivity|].
  destruct (load_csv_auto_header_line csv_reader to_stamp
              ("  Date,Value" ++ NL ++ "2020-01-02,2.5" ++ NL
               ++ "2020-01-01,1.5" ++ NL)%string)
    as (Hform & _ & _ & _ & _ & H).
  assert (Hh : header_form "  Date,Value") by (apply Hform; reflexivity).
  split; [exact Hh|].
  destruct (H ["junk line"; "more, junk"]%string "  Date,Value"%string
              ["2020-01-02,2.5"; "2020-01-01,1.5"]%string) as (_ & Hload & _).
  - reflexivity.
  - exact Hh.
  - repeat constructor; intros Hl; apply Hform in Hl; discriminate Hl.
  - repeat constructor.
  - etransitivity; [exact Hload|]. vm_compute. reflexivity.
Defined.

(** * The rolling mean of the view *)

Lemma qsum_fold_left (l : list Qc) : qsum l = fold_left Qcplus l 0%Qc.
Proof.
  unfold qsum. symmetry. apply fold_symmetric.
  - intros x y z. ring.
  - intros y. ring.
Qed.

Lemma mean_or_nan_mean (l : list Qc) :
  mean_or_nan l = match l with [] => NaN | _ => Fin (arithmetic_mean l) end.
Proof.
  destruct l as [|x l]; [reflexivity|].
  unfold mean_or_nan, arithmetic_mean. now rewrite qsum_fold_left.
Qed.

Lemma recent_length {T : Type} (n : nat) (xs : list T) (i : nat) :
  (i < List.length xs)%nat -> (n <= S i)%nat -> List.length (recent n xs i) = n.
Proof.
  intros Hi Hn. unfold recent. rewrite length_firstn, length_skipn. lia.
Qed.

Lemma recent_nth {T : Type} (n : nat) (xs : list T) (i j : nat) (dflt : T) :
  (j < n)%nat -> nth j (recent n xs i) dflt = nth (S i - n + j) xs dflt.
Proof.
  intros Hj. unfold recent.
  now rewrite nth_firstn, (proj2 (Nat.ltb_lt _ _) Hj), nth_skipn.
Qed.

Lemma recent_map {T U : Type} (f : T -> U) (n : nat) (xs : list T) (i : nat) :
  recent n (map f xs) i = map f (recent n xs i).
Proof.
  unfold recent. now rewrite skipn_map, firstn_map.
Qed.

(** C4, amended: with a window [w >= 2] and [min_periods=1] the rolling
    mean has one output per input, in float64 as in exact arithmetic; its
    first output is the first input itself when that one is present; where
    all of the [min (i+1) w] most recent values are missing (NaN cells,
    which the loader passes on, or infinities) the output is missing.  In
    exact arithmetic the output at [i] is the arithmetic mean of the numbers
    among the [min (i+1) w] most recent values, and missing only when there
    is none; so on a series without missing values no output is missing and
    each is the mean of these [min (i+1) w] values.  float64 rounds the same
    running sums.  On the page the overlay of the chart is the rolling mean
    of the filtered view itself, whatever the chart shows after
    resampling. *)
Theorem rolling_mean_trailing (w : nat) :
  (2 <= w)%nat ->
  (forall (A : arith) (xs : list (num A)),
      List.length (Series.rolling_mean A w 1 xs) = List.length xs)
  /\ (forall (A : arith) (x : num A) (xs : list (num A)),
        missing A x = false ->
        nth 0 (Series.rolling_mean A w 1 (x :: xs)) (fnan A) = x)
  /\ (forall (A : arith) (xs : list (num A)) (i : nat),
        Series.isna A (fnan A) = true ->
        (i < List.length xs)%nat ->
        Forall (fun x => missing A x = true) (recent (Nat.min (S i) w) xs i) ->
        nth i (Series.rolling_mean A w 1 xs) (fnan A) = fnan A)
  /\ (forall (xs : list fval) (i : nat),
        (i < List.length xs)%nat ->
        let n := Nat.min (S i) w in
        List.length (recent n xs i) = n
        /\ (forall j dflt, (j < n)%nat ->
              nth j (recent n xs i) dflt = nth (S i - n + j) xs dflt)
        /\ nth i (Series.rolling_mean exact w 1 xs) NaN
           = match numbers (recent n xs i) with
             | [] => NaN
             | present => Fin (arithmetic_mean present)
             end)
  /\ (forall (qs : list Qc),
        Series.rolling_mean exact w 1 (map Fin qs) = rolling_mean w 1 qs
        /\ forall i, (i < List.length qs)%nat ->
             nth i (rolling_mean w 1 qs) NaN
             = Fin (arithmetic_mean (recent (Nat.min (S i) w) qs i)))
  /\ (forall opts df start end_ out,
        date_range opts = [start; end_] ->
        smoothing opts = true ->
        rolling_window opts = Some w ->
        let view := filter_view start end_ df in
        let overlay := combine (dates view) (rolling_mean w 1 (values view)) in
        rolling_overlay opts view = Some overlay
        /\ List.length overlay = List.length (rows view)
        /\ (forall plot_df,
              resample (resample_freq opts) view = Ok plot_df ->
              exists rest r,
                main_view opts df out
                = (out ++ Chart (chart opts) plot_df (Some overlay) :: rest, r))
        /\ (forall e,
              resample (resample_freq opts) view = Raise e ->
              main_view opts df out = (out, Raise e))).
Proof.
  intros Hw.
  assert (Hexact : forall (xs : list fval) (i : nat),
            (i < List.length xs)%nat ->
            nth i (Series.rolling_mean exact w 1 xs) NaN
            = match numbers (recent (Nat.min (S i) w) xs i) with
              | [] => NaN
              | present => Fin (arithmetic_mean present)
              end).
  { intros xs i Hi. rewrite rolling_mean_exact_nth by assumption.
    rewrite mean_or_nan_mean. now destruct (numbers _). }
  split; [intros A xs; apply rolling_mean_series_length|].
  split; [intros A x xs Hx; apply rolling_mean_first; [lia|exact Hx]|].
  split; [intros A xs i Hnan Hi Hall; now apply rolling_mean_all_missing|].
  split.
  { intros xs i Hi n. split; [apply recent_length; [assumption|apply Nat.le_min_l]|].
    split; [intros j dflt Hj; now apply recent_nth|]. now apply Hexact. }
  split.
  { intros qs. split; [apply rolling_mean_exact_complete|].
    intros i Hi. rewrite <- rolling_mean_exact_complete.
    rewrite Hexact by (now rewrite length_map).
    rewrite recent_map, numbers_Fin.
    pose proof (recent_length (Nat.min (S i) w) qs i Hi (Nat.le_min_l _ _)) as Hlen.
    destruct (recent (Nat.min (S i) w) qs i); [|reflexivity].
    cbn [List.length] in Hlen. lia. }
  intros opts df start end_ out Hr Hs Hwin view overlay.
  assert (Ho : rolling_overlay opts view = Some overlay).
  { unfold rolling_overlay. rewrite Hs, Hwin. unfold overlay.
    clear - Hw. destruct w as [|w']; [lia|reflexivity]. }
  split; [exact Ho|]. split.
  { unfold overlay, dates, values.
    rewrite length_combine, rolling_mean_length, !length_map. lia. }
  split.
  - intros plot_df Hp. rewrite <- Ho. now apply main_view_chart.
  - intros e He. now apply main_view_resample_raises with start end_.
Qed.

(** C4, amended, with the window 2: the float64 outputs on 1, 2, 4; a
    window of missing values; the means in exact arithmetic. *)
Lemma rolling_mean_trailing_witness :
  (2 <= 2)%nat
  /\ Series.rolling_mean binary64 2 1 [1; 2; 4]%float = [1; 1.5; 3]%float
  /\ List.length (Series.rolling_mean binary64 2 1 [1; 2; 4]%float) = 3%nat
  /\ nth 0 (Series.rolling_mean binary64 2 1 [1; 2; 4]%float) PrimFloat.nan = 1%float
  /\ nth 2 (Series.rolling_mean binary64 2 1 [1; PrimFloat.nan; PrimFloat.nan]%float)
         PrimFloat.nan = PrimFloat.nan
  /\ nth 2 (Series.rolling_mean exact 2 1
              [Fin (Qc_of_Z 1); Fin (Qc_of_Z 2); Fin (Qc_of_Z 6)]) NaN
     = Fin (arithmetic_mean [Qc_of_Z 2; Qc_of_Z 6])
  /\ arithmetic_mean [Qc_of_Z 2; Qc_of_Z 6] = Qc_of_Z 4
  /\ nth 2 (Series.rolling_mean exact 2 1 [Fin (Qc_of_Z 1); NaN; Fin (Qc_of_Z 6)]) NaN
     = Fin (arithmetic_mean [Qc_of_Z 6]).
Proof.
  split; [lia|].
  destruct (rolling_mean_trailing 2) as (Hlen & Hfirst & Hmiss & Hnth & _); [lia|].
  split; [vm_compute; reflexivity|].
  split; [exact (Hlen binary64 [1; 2; 4]%float)|].
  split; [exact (Hfirst binary64 1%float [2; 4]%float eq_refl)|].
  split.
  { apply (Hmiss binary64 [1; PrimFloat.nan; PrimFloat.nan]%float 2%nat).
    - reflexivity.
    - simpl; lia.
    - repeat constructor. }
  split.
  { destruct (Hnth [Fin (Qc_of_Z 1); Fin (Qc_of_Z 2); Fin (Qc_of_Z 6)] 2%nat)
      as (_ & _ & H); [simpl; lia|]. exact H. }
  split; [apply Qc_is_canon; reflexivity|].
  destruct (Hnth [Fin (Qc_of_Z 1); NaN; Fin (Qc_of_Z 6)] 2%nat)
    as (_ & _ & H); [simpl; lia|]. exact H.
Defined.

(** C4 as stated fails on a table with empty cells, which the loader reads
    as NaN: with the values 1.5, NaN, NaN and the window 2 the third output
    is missing although samples precede it; and when the first cell is
    empty the first output is missing, so it is not the first input
    either. *)
Lemma rolling_mean_missing_cell :
  exists df,
    load_csv_auto csv_reader to_stamp
      ("Date,Value" ++ NL ++ "2020-01-01,1.5" ++ NL ++ "2020-01-02," ++ NL
       ++ "2020-01-03," ++ NL)%string = Ok df
    /\ value_cells df = Some [Fin (Q2Qc (15 # 10)); NaN; NaN]
    /\ map nearest_float [Fin (Q2Qc (15 # 10)); NaN; NaN]
       = [1.5; PrimFloat.nan; PrimFloat.nan]%float
    /\ Series.rolling_mean binary64 2 1 [1.5; PrimFloat.nan; PrimFloat.nan]%float
       = [1.5; 1.5; PrimFloat.nan]%float
    /\ Series.rolling_mean exact 2 1 [Fin (Q2Qc (15 # 10)); NaN; NaN]
       = [Fin (Q2Qc (15 # 10)); Fin (Q2Qc (15 # 10)); NaN]
    /\ Series.rolling_mean binary64 2 1 [PrimFloat.nan; 1.5]%float
       = [PrimFloat.nan; 1.5]%float
    /\ Series.rolling_mean exact 2 1 [NaN; Fin (Q2Qc (15 # 10))]
       = [NaN; Fin (Q2Qc (15 # 10))].
Proof.
  eexists. split; [vm_compute; reflexivity|].
  split; [vm_compute; reflexivity|].
  split; [vm_compute; reflexivity|].
  split; [vm_compute; reflexivity|].
  split; [vm_compute; reflexivity|].
  split; vm_compute; reflexivity.
Qed.

(** * Quick stats of the view *)

Lemma isna_Fin (q : Qc) : Series.isna exact (Fin q) = false.
Proof.
  unfold Series.isna; cbn [fequal exact feqb]. now rewrite Qc_eq_bool_refl.
Qed.

Lemma last_valid_present (A : arith) (before : list (num A)) (x : num A) :
  Series.isna A x = false -> last_valid A (before ++ [x]) = x.
Proof.
  intros H. unfold last_valid. rewrite rev_app_distr. cbn [rev app find].
  now rewrite H.
Qed.

Lemma quick_stats_last_two (A : arith) (before : list (num A)) (prev last : num A) :
  Series.isna A prev = false -> Series.isna A last = false ->
  quick_stats A (before ++ [prev; last])
  = Ok (last, ftimes A (fminus A (fquot A last prev) (fone A)) (fhundred A)).
Proof.
  intros Hp Hl.
  change (before ++ [prev; last]) with (before ++ [prev] ++ [last]).
  rewrite app_assoc. rewrite quick_stats_nonempty by (now destruct (before ++ [prev])).
  rewrite removelast_last, last_last.
  now rewrite !last_valid_present.
Qed.

Lemma percent_exact (last prev : Qc) :
  prev <> 0%Qc ->
  fmul (fsub (fdiv (Fin last) (Fin prev)) (Fin 1%Qc)) (Fin (Qc_of_Z 100))
  = Fin (Qc_of_Z 100 * (last - prev) / prev)%Qc.
Proof.
  intros Hp. cbn [fdiv].
  destruct (prev ?= 0)%Qc eqn:E.
  - apply Qceq_alt in E. contradiction.
  - cbn [fsub fmul]. f_equal. field. exact Hp.
  - cbn [fsub fmul]. f_equal. field. exact Hp.
Qed.

Lemma single_row_exact (v : fval) : quick_stats exact [v] = Ok (v, NaN).
Proof.
  unfold quick_stats, Series.pct_change, Series.ffill, Series.shift.
  cbn [Series.ffill_from Series.zip_with iloc_last rbind].
  destruct v as [q| | |]; [rewrite isna_Fin|..]; reflexivity.
Qed.

Lemma summarize_quick_stats (df : frame) :
  rows df <> [] ->
  exists st,
    summarize df = Ok st
    /\ quick_stats exact (map Fin (values df))
       = Ok (Fin (last_value st), percent_change st)
    /\ row_count st = List.length (rows df)
    /\ forall dflt,
         List.last (rows df) dflt = (fst (List.last (rows df) dflt), last_value st).
Proof.
  intros Hne. destruct df as [k rs]; cbn [rows] in Hne.
  destruct (exists_last Hne) as (init & [dl vl] & ->).
  unfold summarize, values; cbn [rows].
  rewrite !map_app; cbn [map snd]. rewrite iloc_last_app. cbn [rbind].
  change (fun x : Qc => Fin x) with Fin.
  assert (Hlast : forall dflt,
             List.last (init ++ [(dl, vl)]) dflt
             = (fst (List.last (init ++ [(dl, vl)]) dflt), vl))
    by (intros; now rewrite last_last).
  destruct init as [|r0 init] using rev_ind.
  - cbn [map app pct_change iloc_last rbind].
    eexists. split; [reflexivity|]. cbn [last_value percent_change row_count].
    split; [apply single_row_exact|]. split; [reflexivity|exact Hlast].
  - clear IHinit. destruct r0 as [dp vp].
    rewrite !map_app; cbn [map snd].
    set (b := map snd init).
    assert (Hpct : iloc_last (pct_change ((b ++ [vp]) ++ [vl]))
                   = Ok (fsub (fdiv (Fin vl) (Fin vp)) (Fin 1%Qc))).
    { destruct b as [|y b'].
      - reflexivity.
      - cbn [app pct_change]. rewrite pct_from_app, app_comm_cons, iloc_last_app.
        now rewrite last_last. }
    rewrite Hpct. cbn [rbind].
    eexists. split; [reflexivity|]. cbn [last_value percent_change row_count].
    split.
    + rewrite <- app_assoc. cbn [app].
      apply (quick_stats_last_two exact (map Fin b) (Fin vp) (Fin vl));
        apply isna_Fin.
    + split; [reflexivity|exact Hlast].
Qed.

(** C5, amended: on a series with at least one row the quick stats succeed.
    The last value is the value of the last row, the latest one when the
    dates ascend.  The percent change is [(v / p - 1) * 100] in the
    arithmetic of the program, where [v] is the last value that is not
    missing and [p] the last one before the last row ([pct_change] fills
    forward); with the last two values present these are the last value and
    the one before.  In exact arithmetic, and for a previous value other
    than zero, that is [100 * (last - previous) / previous]; float64 rounds
    each step and overflows.  With exactly one row the percent change is
    NaN, whatever the value.  [summarize], which the page shows, gives these
    very results on a table of numbers, with the number of rows. *)
Theorem summarize_nonempty :
  (forall (A : arith) (xs : list (num A)),
      xs <> [] ->
      quick_stats A xs
      = Ok (List.last xs (fnan A),
            ftimes A (fminus A (fquot A (last_valid A xs)
                                       (last_valid A (removelast xs)))
                             (fone A))
                  (fhundred A)))
  /\ (forall (A : arith) (before : list (num A)) (prev last : num A),
        Series.isna A prev = false -> Series.isna A last = false ->
        quick_stats A (before ++ [prev; last])
        = Ok (last, ftimes A (fminus A (fquot A last prev) (fone A)) (fhundred A)))
  /\ (forall (before : list Qc) (prev last : Qc),
        prev <> 0%Qc ->
        quick_stats exact (map Fin (before ++ [prev; last]))
        = Ok (Fin last, Fin (Qc_of_Z 100 * (last - prev) / prev)%Qc))
  /\ (forall x : float, quick_stats binary64 [x] = Ok (x, PrimFloat.nan))
  /\ (forall v : fval, quick_stats exact [v] = Ok (v, NaN))
  /\ (forall df : frame,
        rows df <> [] ->
        exists st,
          summarize df = Ok st
          /\ quick_stats exact (map Fin (values df))
             = Ok (Fin (last_value st), percent_change st)
          /\ row_count st = List.length (rows df)
          /\ (forall dflt,
                List.last (rows df) dflt
                = (fst (List.last (rows df) dflt), last_value st))
          /\ (forall row dflt,
                Sorted date_le (dates df) -> In row (rows df) ->
                date_le (fst row) (fst (List.last (rows df) dflt)))).
Proof.
  split; [intros A xs Hne; now apply quick_stats_nonempty|].
  split; [intros A before prev last Hp Hl; now apply quick_stats_last_two|].
  split.
  { intros before prev last Hp. rewrite map_app. cbn [map].
    rewrite (quick_stats_last_two exact) by apply isna_Fin.
    do 2 f_equal. now apply percent_exact. }
  split; [exact single_row|].
  split; [exact single_row_exact|].
  intros df Hne.
  destruct (summarize_quick_stats df Hne) as (st & Hst & Hq & Hn & Hlast).
  exists st. split; [exact Hst|]. split; [exact Hq|]. split; [exact Hn|].
  split; [exact Hlast|].
  intros row dflt Hs Hin.
  destruct (exists_last Hne) as (init & [dl vl] & E).
  rewrite E, last_last. cbn [fst].
  unfold dates in Hs. rewrite E, map_app in Hs. cbn [map fst] in Hs.
  apply (sorted_last_max (map fst init)); [exact Hs|].
  change [dl] with (map fst [(dl, vl)]). rewrite <- map_app, <- E.
  now apply in_map.
Qed.

(** C5, amended, at work: from 10 to 20 is 100 percent in float64 as in
    exact arithmetic; one row gives NaN; a last row without value gives a
    change of 0, the value before it being filled forward. *)
Lemma summarize_nonempty_witness :
  quick_stats binary64 [10; 20]%float = Ok (20, 100)%float
  /\ quick_stats binary64 [5]%float = Ok (5%float, PrimFloat.nan)
  /\ quick_stats binary64 [5%float; PrimFloat.nan] = Ok (PrimFloat.nan, 0%float)
  /\ quick_stats exact [Fin (Qc_of_Z 10); Fin (Qc_of_Z 20)]
     = Ok (Fin (Qc_of_Z 20), Fin (Qc_of_Z 100))
  /\ summarize (mkframe DateObjects [(mkdate 2020 1 1, Qc_of_Z 5)])
     = Ok (mkstats (Qc_of_Z 5) NaN 1).
Proof.
  destruct summarize_nonempty as (_ & Htwo & Hexact & Hone & Hone' & Hframe).
  split.
  { etransitivity;
      [exact (Htwo binary64 [] 10%float 20%float eq_refl eq_refl)|].
    vm_compute. reflexivity. }
  split; [exact (Hone 5%float)|].
  split; [vm_compute; reflexivity|].
  split.
  { etransitivity;
      [apply (Hexact [] (Qc_of_Z 10) (Qc_of_Z 20)); discriminate|].
    do 3 f_equal. apply Qc_is_canon. reflexivity. }
  destruct (Hframe (mkframe DateObjects [(mkdate 2020 1 1, Qc_of_Z 5)]))
    as (st & Hst & Hq & Hn & _); [discriminate|].
  rewrite Hst. destruct st as [l p n]. cbn [last_value percent_change row_count] in *.
  assert (H5 : Ok (Fin l, p) = Ok (Fin (Qc_of_Z 5), NaN))
    by (rewrite <- Hq; exact (Hone' (Fin (Qc_of_Z 5)))).
  injection H5 as -> ->. now subst n.
Defined.

(** C5 as stated fails in float64.  From 5 to 6 the program shows
    [(6 / 5 - 1) * 100], which is 19.999999999999996, below the 20 that
    [100 * (6 - 5) / 5] is, in float64 and in exact arithmetic alike.  From
    1e-200 to 1e200, both finite, the quotient overflows and the program
    shows infinity. *)
Lemma percent_change_rounds :
  (exists df,
     load_csv_auto csv_reader to_stamp
       ("Date,Value" ++ NL ++ "2020-01-01,5" ++ NL ++ "2020-01-02,6" ++ NL)%string
     = Ok df
     /\ value_cells df = Some [Fin (Qc_of_Z 5); Fin (Qc_of_Z 6)]
     /\ map nearest_float [Fin (Qc_of_Z 5); Fin (Qc_of_Z 6)] = [5; 6]%float)
  /\ quick_stats binary64 [5; 6]%float = Ok (6, 0x1.3ffffffffffffp+4)%float
  /\ PrimFloat.ltb 0x1.3ffffffffffffp+4 20 = true
  /\ percent_formula_in binary64 6%float 5%float = 20%float
  /\ percent_formula_in exact (Fin (Qc_of_Z 6)) (Fin (Qc_of_Z 5)) = Fin (Qc_of_Z 20)
  /\ quick_stats binary64 [0x1.87e92154ef7acp-665; 0x1.4e718d7d7625ap+664]%float
     = Ok (0x1.4e718d7d7625ap+664%float, PrimFloat.infinity)
  /\ PrimFloat.is_finite 0x1.87e92154ef7acp-665 = true
  /\ PrimFloat.is_finite 0x1.4e718d7d7625ap+664 = true
  /\ PrimFloat.ltb 0 0x1.87e92154ef7acp-665 = true.
Proof.
  split.
  { eexists. split; [vm_compute; reflexivity|].
    split; [|vm_compute; reflexivity].
    unfold value_cells.
    match goal with |- option_map _ ?p = _ =>
      let v := eval vm_compute in p in change p with v end.
    reflexivity. }
  split; [vm_compute; reflexivity|].
  split; [vm_compute; reflexivity|].
  split; [vm_compute; reflexivity|].
  split; [unfold percent_formula_in; cbn; f_equal; apply Qc_is_canon; reflexivity|].
  split; [vm_compute; reflexivity|].
  split; [vm_compute; reflexivity|].
  split; vm_compute; reflexivity.
Qed.
